(** * Streaming upload decoder, partial-JSON renderer, search store and chat
      history of the AI Data Platform web interface

    Shallow embedding of
    - [uploadImageWithStreaming], [uploadPdfWithStreaming],
      [displayUploadResults], [displayStreamingJsonChunk], [uploadFiles],
      [handleFiles], [SearchManager.performSearch] and
      [SearchManager.displaySearchResults]  (static/js/fileUpload.js),
    - [ChatManager.sendMessage] and [ChatManager.clearChat]
                                             (static/js/resultRenderer.js),
    - [CONFIG]                               (the configuration script).

    Conventions.
    - A JavaScript string is a Rocq [string]; one [ascii] stands for one code
      unit, so the development covers text whose code units are below 256.
    - A JavaScript Number is a primitive binary64 [float]; every arithmetic
      operation of the source is the corresponding IEEE operation.
    - A value produced by [JSON.parse] is a [value]; property reads, truthiness
      and the coercions the source relies on are written out in [JSValue].
    - [try { ... } catch] is an explicit state-and-exception monad: what was
      assigned before a throw stays assigned.
    - Built-ins of the host whose algorithm is not part of the repository
      ([JSON.parse], [JSON.stringify], Number-to-String, String-to-Number,
      [Math.round], [toFixed]) are the fields of the classes [Host] and
      [HostNumber]; the helpers of the [Utils] script, which is not among
      the sources, are the fields of the classes [UtilsScript] and
      [UtilsPage]. Theorems hold for every host and every such script; the
      reference instances are executable ones used to run the examples.
    - What the network and the user do is an input: the events of a
      request, the response of [fetch], the chunks of a streamed body. *)

From Stdlib Require Import Bool Arith ZArith Lia List Ascii String Floats Uint63.
Import ListNotations.

Local Open Scope list_scope.
Local Open Scope string_scope.

(* ================================================================== *)
(** * Strings *)

Module JSString.


(** [s.substring(n)] and [s.slice(n)] for [0 <= n]. *)
Fixpoint drop (n : nat) (s : string) : string :=
  match n, s with
  | O, _ => s
  | S _, EmptyString => EmptyString
  | S n', String _ s' => drop n' s'
  end.

(** [s.substring(0, n)]. *)
Fixpoint take (n : nat) (s : string) : string :=
  match n, s with
  | O, _ => EmptyString
  | S _, EmptyString => EmptyString
  | S n', String c s' => String c (take n' s')
  end.

(** [s.startsWith(p)]. *)
Definition startsWith (p s : string) : bool := String.prefix p s.

(** [s.split(sep)] for a separator of one code unit: the pieces between
    the separators, the empty string giving one empty piece. *)
Fixpoint split (sep : ascii) (s : string) : list string :=
  match s with
  | EmptyString => [EmptyString]
  | String c s' =>
      if Ascii.eqb c sep then EmptyString :: split sep s'
      else match split sep s' with
           | [] => [String c EmptyString]
           | piece :: pieces => String c piece :: pieces
           end
  end.

(** The line feed. *)
Definition newline : ascii := "010"%char.

(** Is the code unit [c] absent from [s]? *)
Fixpoint lacks (c : ascii) (s : string) : bool :=
  match s with
  | EmptyString => true
  | String d s' => negb (Ascii.eqb d c) && lacks c s'
  end.

(** Truthiness of a string: [if (s)]. *)
Definition nonempty (s : string) : bool :=
  match s with EmptyString => false | _ => true end.

(** [s.replace(pat, rep)] for a string pattern and a replacement without
    [$]: the first occurrence of [pat] is replaced. *)
Fixpoint replace (pat rep s : string) : string :=
  if startsWith pat s then rep ++ drop (String.length pat) s
  else match s with
       | EmptyString => EmptyString
       | String c s' => String c (replace pat rep s')
       end.

(** White space and line terminators ([\s], and what [trim] removes) among
    the code units below 256: TAB, LF, VT, FF, CR, SP and NBSP. *)
Definition is_space (c : ascii) : bool :=
  let n := nat_of_ascii c in
  (n =? 9)%nat || (n =? 10)%nat || (n =? 11)%nat || (n =? 12)%nat
  || (n =? 13)%nat || (n =? 32)%nat || (n =? 160)%nat.

Fixpoint trimStart (s : string) : string :=
  match s with
  | EmptyString => EmptyString
  | String c s' => if is_space c then trimStart s' else s
  end.

Fixpoint trimEnd (s : string) : string :=
  match s with
  | EmptyString => EmptyString
  | String c s' =>
      match trimEnd s' with
      | EmptyString => if is_space c then EmptyString else String c EmptyString
      | t => String c t
      end
  end.

(** [s.trim()]. *)
Definition trim (s : string) : string := trimEnd (trimStart s).

(** [s.split(/\s+/)]: the pieces between the maximal runs of white space;
    a run at either end leaves an empty piece there, and the empty string
    gives one empty piece. [prev_space] tells that the code unit before
    [s] belongs to a run. *)
Fixpoint split_spaces_from (prev_space : bool) (s : string) : list string :=
  match s with
  | EmptyString => [EmptyString]
  | String c s' =>
      if is_space c then
        if prev_space then split_spaces_from true s'
        else EmptyString :: split_spaces_from true s'
      else match split_spaces_from false s' with
           | [] => [String c EmptyString]
           | piece :: pieces => String c piece :: pieces
           end
  end.

Definition split_spaces (s : string) : list string := split_spaces_from false s.



(** [pieces.join(sep)]. *)
Definition join (sep : string) (pieces : list string) : string :=
  String.concat sep pieces.

End JSString.


(* ================================================================== *)
(** * Numbers *)

Module JSNumber.


Local Open Scope Z_scope.

(** The Number of a length or a count: such an integer is below [2^53],
    where the conversion from the machine integer is exact. *)
Definition of_nat (n : nat) : float :=
  PrimFloat.of_uint63 (Uint63.of_Z (Z.of_nat n)).

(** The literal [0.8]: the nearest binary64 value. *)
Definition c0_8 : float := 0x1.999999999999ap-1%float.

Definition is_nan (x : float) : bool := negb (x =? x)%float.

Definition is_neg_zero (x : float) : bool :=
  match classify x with NZero => true | _ => false end.

(** [Math.min(x, y)]: NaN if either is NaN, the smaller one otherwise,
    [-0] counting as smaller than [+0]. *)
Definition Math_min (x y : float) : float :=
  if is_nan x || is_nan y then nan
  else if (x <? y)%float then x
  else if (y <? x)%float then y
  else if is_neg_zero x then x else y.

End JSNumber.

(* ================================================================== *)
(** * Values, exceptions and the host *)

Module JSValue.
Import JSString JSNumber.

(** What [JSON.parse] builds, and [undefined]. The fields of an object are
    kept in the order of the text; a repeated key is read at its last
    occurrence, as [JSON.parse] keeps the last one. *)
#[warnings="-register-all"]
Inductive value : Type :=
| Undefined
| Null
| Bool (b : bool)
| Num (x : float)
| Str (s : string)
| Arr (items : list value)
| Obj (fields : list (string * value)).

Inductive error : Type :=
| SyntaxError
| TypeError
| Error (message : string).

(** The result of an expression that may throw. *)
Inductive exc (A : Type) : Type :=
| Ok (a : A)
| Throw (e : error).

Arguments Ok {A} a.
Arguments Throw {A} e.

Definition exc_bind {A B : Type} (x : exc A) (f : A -> exc B) : exc B :=
  match x with
  | Ok a => f a
  | Throw e => Throw e
  end.

(** The own property [k] of an object. *)
Fixpoint own (k : string) (fields : list (string * value)) : option value :=
  match fields with
  | [] => None
  | (k', v) :: rest =>
      match own k rest with
      | Some v' => Some v'
      | None => if (k' =? k)%string then Some v else None
      end
  end.

(** [v.k] for the property names the source reads ([type], [percent],
    [stage], [detail], [response], [length], the fields of a result): none
    of them is found on a prototype, except [length] of strings and
    arrays. Reading a property of [undefined] or [null] throws. *)
Definition get (v : value) (k : string) : exc value :=
  match v with
  | Undefined | Null => Throw TypeError
  | Obj fields =>
      Ok (match own k fields with Some x => x | None => Undefined end)
  | Str s =>
      Ok (if (k =? "length")%string then Num (of_nat (String.length s)) else Undefined)
  | Arr items =>
      Ok (if (k =? "length")%string then Num (of_nat (List.length items)) else Undefined)
  | Bool _ | Num _ => Ok Undefined
  end.

(** [v?.k]. *)
Definition get_opt (v : value) (k : string) : value :=
  match get v k with
  | Ok x => x
  | Throw _ => Undefined
  end.

(** ToBoolean. *)
Definition truthy (v : value) : bool :=
  match v with
  | Undefined | Null => false
  | Bool b => b
  | Num x => negb (is_nan x || (x =? 0)%float)
  | Str s => nonempty s
  | Arr _ | Obj _ => true
  end.

(** [a || b]. *)
Definition or_else (a b : value) : value := if truthy a then a else b.

(** [v === 'literal']. *)
Definition is_str (v : value) (literal : string) : bool :=
  match v with
  | Str s => (s =? literal)%string
  | _ => false
  end.

(** [v === 0]. *)
Definition is_zero (v : value) : bool :=
  match v with
  | Num x => (x =? 0)%float
  | _ => false
  end.

(** [cond && cond.startsWith(p)] as a condition: a truthy value that is not
    a string has no callable [startsWith]. *)
Definition and_startsWith (v : value) (p : string) : exc bool :=
  if truthy v then
    match v with
    | Str s => Ok (startsWith p s)
    | _ => Throw TypeError
    end
  else Ok false.

(** The host: the built-ins whose algorithm is outside the repository. *)
Class Host : Type := {
  (** [JSON.parse(text)]; [None] when it throws a SyntaxError. *)
  JSON_parse : string -> option value;
  (** [JSON.stringify(v, null, 2)]. *)
  JSON_stringify : value -> string;
  (** Number::toString. *)
  NumberToString : float -> string;
  (** StringToNumber. *)
  StringToNumber : string -> float
}.

(** The two helpers of the [Utils] script that the modelled functions
    call. The script is not among the sources: each helper is any function
    from its argument to a string or a throw. *)
Class UtilsScript : Type := {
  (** [Utils.escapeHtml(v)]. *)
  Utils_escapeHtml : value -> exc string;
  (** [Utils.formatMessage(v)]. *)
  Utils_formatMessage : value -> exc string
}.

Section Coercions.
Context {host : Host}.

(** ToString, as template literals and [+] with a string apply it. An
    array goes through [join(',')]; an object parsed from JSON has the
    inherited [toString] unless it has an own (never callable) [toString]
    property, and then the conversion throws. *)
Fixpoint ToString (v : value) : exc string :=
  match v with
  | Undefined => Ok "undefined"
  | Null => Ok "null"
  | Bool true => Ok "true"
  | Bool false => Ok "false"
  | Num x => Ok (NumberToString x)
  | Str s => Ok s
  | Arr items =>
      exc_bind
        ((fix pieces (l : list value) : exc (list string) :=
            match l with
            | [] => Ok []
            | Undefined :: l' | Null :: l' =>
                exc_bind (pieces l') (fun ps => Ok (EmptyString :: ps))
            | x :: l' =>
                exc_bind (ToString x) (fun p =>
                exc_bind (pieces l') (fun ps => Ok (p :: ps)))
            end) items)
        (fun ps => Ok (join "," ps))
  | Obj fields =>
      match own "toString" fields with
      | Some _ => Throw TypeError
      | None => Ok "[object Object]"
      end
  end.

(** [items.join(sep)] on the elements of an array. *)
Fixpoint join_values (sep : string) (items : list value) : exc (list string) :=
  match items with
  | [] => Ok []
  | x :: l' =>
      exc_bind (match x with
                | Undefined | Null => Ok EmptyString
                | _ => ToString x
                end) (fun p =>
      exc_bind (join_values sep l') (fun ps => Ok (p :: ps)))
  end.

(** [v.join(sep)]: only an array has a callable [join]. *)
Definition call_join (v : value) (sep : string) : exc string :=
  match v with
  | Arr items => exc_bind (join_values sep items) (fun ps => Ok (join sep ps))
  | _ => Throw TypeError
  end.

(** ToNumber. *)
Definition ToNumber (v : value) : exc float :=
  match v with
  | Undefined => Ok nan
  | Null => Ok 0%float
  | Bool true => Ok 1%float
  | Bool false => Ok 0%float
  | Num x => Ok x
  | Str s => Ok (StringToNumber s)
  | Arr _ | Obj _ => exc_bind (ToString v) (fun s => Ok (StringToNumber s))
  end.

(** What the setter of [textContent] stores: [null] and [undefined] give
    the empty string. *)
Definition to_textContent (v : value) : exc string :=
  match v with
  | Undefined | Null => Ok EmptyString
  | _ => ToString v
  end.

End Coercions.

(** A promise and its two settling functions: only the first call has an
    effect. The values resolved here come from [JSON.parse], so none is a
    thenable. *)
Inductive promise : Type :=
| Pending
| Fulfilled (v : value)
| Rejected (reason : value).

Definition resolve (v : value) (p : promise) : promise :=
  match p with
  | Pending => Fulfilled v
  | _ => p
  end.

Definition reject (reason : value) (p : promise) : promise :=
  match p with
  | Pending => Rejected reason
  | _ => p
  end.

End JSValue.


(* ================================================================== *)
(** * File upload: the two streaming decoders (fileUpload.js) *)

Module FileUpload.
Import JSString JSNumber JSValue.

(** What one upload owns: the closure variables of
    [uploadImageWithStreaming] ([captionBuffer]) and of
    [uploadPdfWithStreaming] ([jsonBuffer]), the parts of its [fileItem]
    element that the stream handler writes, and the promise the upload
    function returns. *)
Record upload : Type := {
  captionBuffer : string;
  jsonBuffer : string;
  (** [progressFill.style.width] *)
  width : string;
  (** [statusText.textContent] *)
  textContent : string;
  (** [statusText.style.color] *)
  color : string;
  (** the text of the [.streaming-json] element, when there is one *)
  streaming_json : option string;
  (** the rows of the [.upload-results] container, when there is one:
      label and text of each [.result-item] *)
  upload_results : option (list (string * string));
  settled : promise
}.

(** The file item as [uploadFiles] creates it. *)
Definition new_upload : upload :=
  {| captionBuffer := ""; jsonBuffer := ""; width := "0%";
     textContent := "Pending..."; color := ""; streaming_json := None;
     upload_results := None; settled := Pending |}.

Definition set_captionBuffer (s : string) (u : upload) : upload :=
  {| captionBuffer := s; jsonBuffer := jsonBuffer u; width := width u;
     textContent := textContent u; color := color u;
     streaming_json := streaming_json u; upload_results := upload_results u;
     settled := settled u |}.

Definition set_jsonBuffer (s : string) (u : upload) : upload :=
  {| captionBuffer := captionBuffer u; jsonBuffer := s; width := width u;
     textContent := textContent u; color := color u;
     streaming_json := streaming_json u; upload_results := upload_results u;
     settled := settled u |}.

Definition set_width (s : string) (u : upload) : upload :=
  {| captionBuffer := captionBuffer u; jsonBuffer := jsonBuffer u; width := s;
     textContent := textContent u; color := color u;
     streaming_json := streaming_json u; upload_results := upload_results u;
     settled := settled u |}.

Definition set_textContent (s : string) (u : upload) : upload :=
  {| captionBuffer := captionBuffer u; jsonBuffer := jsonBuffer u;
     width := width u; textContent := s; color := color u;
     streaming_json := streaming_json u; upload_results := upload_results u;
     settled := settled u |}.

Definition set_color (s : string) (u : upload) : upload :=
  {| captionBuffer := captionBuffer u; jsonBuffer := jsonBuffer u;
     width := width u; textContent := textContent u; color := s;
     streaming_json := streaming_json u; upload_results := upload_results u;
     settled := settled u |}.

Definition set_streaming_json (t : option string) (u : upload) : upload :=
  {| captionBuffer := captionBuffer u; jsonBuffer := jsonBuffer u;
     width := width u; textContent := textContent u; color := color u;
     streaming_json := t; upload_results := upload_results u;
     settled := settled u |}.

Definition set_upload_results (r : option (list (string * string)))
  (u : upload) : upload :=
  {| captionBuffer := captionBuffer u; jsonBuffer := jsonBuffer u;
     width := width u; textContent := textContent u; color := color u;
     streaming_json := streaming_json u; upload_results := r;
     settled := settled u |}.

Definition set_settled (p : promise) (u : upload) : upload :=
  {| captionBuffer := captionBuffer u; jsonBuffer := jsonBuffer u;
     width := width u; textContent := textContent u; color := color u;
     streaming_json := streaming_json u; upload_results := upload_results u;
     settled := p |}.

(** What the handlers write to the console. *)
Inductive log_entry : Type :=
| LogNewData (newData : string)
| LogParsed (data : value)
| LogOcr (ocrText : string)
| LogError (e : error).

(** ** Statements that assign and may throw

    A computation reads and writes the upload and appends to the console;
    when it throws, both are as the throw left them. *)
Definition M (A : Type) : Type :=
  upload * list log_entry -> exc A * (upload * list log_entry).

Definition ret {A : Type} (a : A) : M A := fun s => (Ok a, s).

Definition bind {A B : Type} (c : M A) (k : A -> M B) : M B :=
  fun s => match c s with
           | (Ok a, s') => k a s'
           | (Throw e, s') => (Throw e, s')
           end.

Definition lift {A : Type} (x : exc A) : M A := fun s => (x, s).

Definition assign (f : upload -> upload) : M unit :=
  fun s => (Ok tt, (f (fst s), snd s)).

Definition read {A : Type} (f : upload -> A) : M A :=
  fun s => (Ok (f (fst s)), s).

Definition console_log (e : log_entry) : M unit :=
  fun s => (Ok tt, (fst s, snd s ++ [e])%list).

Declare Scope stmt_scope.
Delimit Scope stmt_scope with stmt.
Notation "x <- c ;; k" := (bind c (fun x => k))
  (at level 61, c at next level, right associativity) : stmt_scope.
Notation "c ;; k" := (bind c (fun _ => k))
  (at level 61, right associativity) : stmt_scope.
Local Open Scope stmt_scope.

(** The string a method is called on: [v.replace], [v.substring]. *)
Definition this_string (v : value) : exc string :=
  match v with
  | Str s => Ok s
  | _ => Throw TypeError
  end.

Section Handlers.
Context {host : Host} {utils : UtilsScript}.

(** ** [displayUploadResults(fileItem, data)] *)
Definition keywords_text (data : value) : M string :=
  keywords <- lift (get data "keywords") ;;
  if truthy keywords then lift (call_join keywords ", ") else ret "None".

Definition displayUploadResults (data : value) : M unit :=
  assign (set_upload_results None) ;;
  document_id <- lift (get data "document_id") ;;
  if truthy document_id then
    id <- lift (ToString document_id) ;;
    content_length <- lift (get data "content_length") ;;
    len <- lift (ToString content_length) ;;
    keywords <- keywords_text data ;;
    vector_length <- lift (get data "vector_length") ;;
    vec <- lift (ToString vector_length) ;;
    file_path <- lift (get data "file_path") ;;
    path <- lift (ToString (or_else file_path (Str "N/A"))) ;;
    assign (set_upload_results (Some
      [("Document ID:", id); ("Content Length:", len ++ " characters");
       ("Keywords:", keywords); ("Vector Length:", vec);
       ("File Path:", path)]))
  else
    image_id <- lift (get data "image_id") ;;
    id <- lift (ToString image_id) ;;
    caption <- lift (get data "caption") ;;
    cap <- lift (Utils_escapeHtml caption) ;;
    ocr_text <- lift (get data "ocr_text") ;;
    ocr <- (if truthy ocr_text
            then t <- lift (Utils_escapeHtml ocr_text) ;; ret [("OCR Text:", t)]
            else ret []) ;;
    keywords <- keywords_text data ;;
    vector_length <- lift (get data "vector_length") ;;
    vec <- lift (ToString vector_length) ;;
    assign (set_upload_results (Some
      ([("Image ID:", id); ("Caption:", cap)] ++ ocr ++
       [("Keywords:", keywords); ("Vector Length:", vec)])%list)).

(** ** [displayStreamingJsonChunk(fileItem, chunk, jsonBuffer)] *)

(** The [if ... else if] chain of the loop: what the code unit [char]
    does to the two counters. *)
Definition count (char : ascii) (braceCount bracketCount : Z) : Z * Z :=
  (if Ascii.eqb char "{" then (braceCount + 1, bracketCount)
   else if Ascii.eqb char "}" then (braceCount - 1, bracketCount)
   else if Ascii.eqb char "[" then (braceCount, bracketCount + 1)
   else if Ascii.eqb char "]" then (braceCount, bracketCount - 1)
   else (braceCount, bracketCount))%Z.

(** The loop over [chunk]: the two counters and [lastCompleteIndex],
    [i] being the index of the first code unit of [s]. *)
Fixpoint scan_from (i braceCount bracketCount lastCompleteIndex : Z)
  (s : string) : Z :=
  match s with
  | EmptyString => lastCompleteIndex
  | String char s' =>
      let '(braceCount', bracketCount') := count char braceCount bracketCount in
      let lastCompleteIndex' :=
        if (braceCount' =? 0) && (bracketCount' =? 0)
           && (Ascii.eqb char "}" || Ascii.eqb char "]")
        then i else lastCompleteIndex in
      scan_from (i + 1) braceCount' bracketCount' lastCompleteIndex' s'
  end%Z.

Definition lastCompleteIndex (chunk : string) : Z :=
  scan_from 0 0 0 (-1) chunk.

Definition streaming_marker : string :=
  String newline (String newline "... (streaming)").

(** The text put into the [.streaming-json] element. The third argument of
    the source function is not read by its body. *)
Definition streaming_json_text (chunk jsonBuffer : string) : string :=
  match JSON_parse chunk with
  | Some parsed => JSON_stringify parsed
  | None =>
      let last := lastCompleteIndex chunk in
      if (0 <? last)%Z then
        let cleanContent := take (Z.to_nat (last + 1)) chunk in
        match JSON_parse cleanContent with
        | Some parsed =>
            if (String.length cleanContent <? String.length chunk)%nat
            then JSON_stringify parsed ++ streaming_marker
            else JSON_stringify parsed
        | None =>
            if (String.length cleanContent <? String.length chunk)%nat
            then cleanContent ++ streaming_marker
            else cleanContent
        end
      else chunk ++ streaming_marker
  end.

Definition displayStreamingJsonChunk (chunk jsonBuffer : string) : M unit :=
  assign (set_streaming_json (Some (streaming_json_text chunk jsonBuffer))).

(** ** The handler of a stream record, after [JSON.parse] *)

(** The constants [wordCount] and [captionProgress] of
    [uploadImageWithStreaming], as functions of [captionBuffer]. *)
Definition wordCount (captionBuffer : string) : nat :=
  List.length (split_spaces (trim captionBuffer)).

Definition captionProgress (captionBuffer : string) : float :=
  Math_min (of_nat (wordCount captionBuffer) / 30)%float 1%float.

(** The constant [jsonProgress] of [uploadPdfWithStreaming], as a function
    of [jsonBuffer]. *)
Definition jsonProgress (jsonBuffer : string) : float :=
  let jsonLength := String.length jsonBuffer in
  let maxExpectedLength := 2000%float in
  Math_min (of_nat jsonLength / maxExpectedLength)%float 1%float.

(** The branch [data.type === 'progress'] of [uploadImageWithStreaming]. *)
Definition image_on_progress (data : value) : M unit :=
  percent <- lift (get data "percent") ;;
  p <- lift (ToNumber percent) ;;
  let totalProgress := (20 + (p * c0_8))%float in
  assign (set_width (NumberToString totalProgress ++ "%")) ;;
  stage <- lift (get data "stage") ;;
  is_caption <- lift (and_startsWith stage "CAPTION_CHUNK:") ;;
  if is_caption then
    s <- lift (this_string stage) ;;
    let captionChunk := replace "CAPTION_CHUNK:" "" s in
    old <- read captionBuffer ;;
    let captionBuffer' := old ++ captionChunk in
    assign (set_captionBuffer captionBuffer') ;;
    let totalProgress :=
      (20 + (30 * c0_8) + (captionProgress captionBuffer' * 30 * c0_8))%float in
    assign (set_width (NumberToString totalProgress ++ "%")) ;;
    assign (set_textContent captionBuffer') ;;
    assign (set_color "#10b981")
  else
    is_ocr <- lift (and_startsWith stage "OCR_TEXT:") ;;
    if is_ocr then
      s <- lift (this_string stage) ;;
      let ocrText := replace "OCR_TEXT:" "" s in
      console_log (LogOcr ocrText) ;;
      assign (set_textContent ("OCR Text: " ++ ocrText)) ;;
      assign (set_color "#3b82f6")
    else
      t <- lift (to_textContent stage) ;;
      assign (set_textContent t) ;;
      assign (set_color "").

(** The branch [data.type === 'complete'], the same in both functions. *)
Definition on_complete (data : value) : M unit :=
  assign (set_width "100%") ;;
  assign (set_textContent "Upload complete!") ;;
  displayUploadResults data ;;
  assign (fun u => set_settled (resolve data (settled u)) u).

(** The branch [data.type === 'error'], the same in both functions. *)
Definition on_error (data : value) : M unit :=
  detail <- lift (get data "detail") ;;
  assign (fun u =>
    set_settled (reject (or_else detail (Str "Upload failed")) (settled u)) u).

(** The body of the [try] block of [uploadImageWithStreaming]. *)
Definition image_on_data (data : value) : M unit :=
  console_log (LogParsed data) ;;
  type <- lift (get data "type") ;;
  if is_str type "progress" then image_on_progress data
  else if is_str type "complete" then on_complete data
  else if is_str type "error" then on_error data
  else ret tt.

(** The status strings that [uploadPdfWithStreaming] shows as they are. *)
Definition known_stages : list string :=
  ["Extracting text from PDF"; "Text extraction complete";
   "Structuring text with LLM"; "Generating keywords"; "Keywords generated";
   "Generating vector embeddings"; "Vector embeddings generated";
   "Saving to database"; "PDF processing complete"].

(** [data.stage && data.stage !== 'Extracting text from PDF' && ...]. *)
Definition is_unlisted_stage (stage : value) : bool :=
  truthy stage && forallb (fun known => negb (is_str stage known)) known_stages.

(** The statements shared by the two branches of [uploadPdfWithStreaming]
    that take [chunk] as a piece of the structured document. *)
Definition pdf_structured_chunk (chunk : string) : M unit :=
  old <- read jsonBuffer ;;
  let jsonBuffer' := old ++ chunk in
  assign (set_jsonBuffer jsonBuffer') ;;
  let totalProgress := (20 + 30 + (jsonProgress jsonBuffer' * 40))%float in
  assign (set_width (NumberToString totalProgress ++ "%")) ;;
  displayStreamingJsonChunk chunk jsonBuffer' ;;
  assign (set_textContent "Structuring document...") ;;
  assign (set_color "#10b981").

(** The branch [data.type === 'progress'] of [uploadPdfWithStreaming]. *)
Definition pdf_on_progress (data : value) : M unit :=
  percent <- lift (get data "percent") ;;
  w <- lift (ToString percent) ;;
  assign (set_width (w ++ "%")) ;;
  stage <- lift (get data "stage") ;;
  is_structured <- lift (and_startsWith stage "STRUCTURED_CHUNK:") ;;
  if is_structured then
    s <- lift (this_string stage) ;;
    let jsonChunk := drop (String.length "STRUCTURED_CHUNK:") s in
    pdf_structured_chunk jsonChunk
  else if is_unlisted_stage stage then
    s <- lift (this_string stage) ;;
    pdf_structured_chunk s
  else
    t <- lift (to_textContent stage) ;;
    assign (set_textContent t) ;;
    assign (set_color "").

(** The body of the [try] block of [uploadPdfWithStreaming]. *)
Definition pdf_on_data (data : value) : M unit :=
  console_log (LogParsed data) ;;
  type <- lift (get data "type") ;;
  if is_str type "progress" then pdf_on_progress data
  else if is_str type "complete" then on_complete data
  else if is_str type "error" then on_error data
  else ret tt.

(** ** The [readystatechange] listener *)

(** One upload in flight: [buffer] is the closure variable of that name,
    [console] what has been logged so far. *)
Record stream : Type := {
  buffer : string;
  item : upload;
  console : list log_entry
}.

Definition new_stream : stream :=
  {| buffer := ""; item := new_upload; console := [] |}.

(** One turn of [for (const line of lines)]: the [try] block catches what
    [JSON.parse] or [on_data] throws and logs it. *)
Definition on_line (on_data : value -> M unit) (line : string) (u : upload)
  : upload * list log_entry :=
  if startsWith "data: " line then
    match JSON_parse (drop 6 line) with
    | None => (u, [LogError SyntaxError])
    | Some data =>
        match on_data data (u, []) with
        | (Ok _, (u', out)) => (u', out)
        | (Throw e, (u', out)) => (u', (out ++ [LogError e])%list)
        end
    end
  else (u, []).

Fixpoint on_lines (on_data : value -> M unit) (lines : list string)
  (u : upload) : upload * list log_entry :=
  match lines with
  | [] => (u, [])
  | line :: rest =>
      let '(u1, out1) := on_line on_data line u in
      let '(u2, out2) := on_lines on_data rest u1 in
      (u2, (out1 ++ out2)%list)
  end.

(** The listener, called with [xhr.readyState] and [xhr.responseText]. *)
Definition onreadystatechange (on_data : value -> M unit)
  (readyState : nat) (responseText : string) (st : stream) : stream :=
  if (readyState =? 3)%nat || (readyState =? 4)%nat then
    let newData := drop (String.length (buffer st)) responseText in
    let logged := if nonempty newData then [LogNewData newData] else [] in
    let lines := split newline newData in
    let '(u, out) := on_lines on_data lines (item st) in
    {| buffer := responseText; item := u;
       console := (console st ++ logged ++ out)%list |}
  else st.

(** [uploadFiles] sends an image to [uploadImageWithStreaming] and a PDF
    to [uploadPdfWithStreaming]. *)
Inductive file_kind : Type :=
| ImageFile
| PdfFile.

Definition on_data (k : file_kind) : value -> M unit :=
  match k with
  | ImageFile => image_on_data
  | PdfFile => pdf_on_data
  end.

(** The [load], [error] and [abort] listeners, the same in both upload
    functions. *)
Definition onload (status : nat) (statusText : string) (st : stream) : stream :=
  if (status =? 200)%nat then st
  else
    {| buffer := buffer st;
       item := set_settled
                 (reject (Str ("HTTP " ++ NumberToString (of_nat status) ++ ": "
                               ++ statusText))
                         (settled (item st))) (item st);
       console := console st |}.

Definition onerror (st : stream) : stream :=
  {| buffer := buffer st;
     item := set_settled (reject (Str "Network error") (settled (item st)))
               (item st);
     console := console st |}.

Definition onabort (st : stream) : stream :=
  {| buffer := buffer st;
     item := set_settled (reject (Str "Upload cancelled") (settled (item st)))
               (item st);
     console := console st |}.

(** ** Vocabulary of the statements *)

(** What handling one parsed record does to the upload, the [catch]
    included. *)
Definition dispatch (k : file_kind) (data : value) (u : upload) : upload :=
  fst (snd (on_data k data (u, []))).

(** JSON text written with apostrophes where it has quotation marks. *)
Fixpoint dq (s : string) : string :=
  match s with
  | EmptyString => EmptyString
  | String c s' => String (if Ascii.eqb c "'" then "034"%char else c) (dq s')
  end.

(** The stream record carrying the JSON text [json]. *)
Definition data_line (json : string) : string := "data: " ++ json.

(** Lines, each ended by a newline. *)
Fixpoint terminated (lines : list string) : string :=
  match lines with
  | [] => ""
  | l :: rest => l ++ String newline (terminated rest)
  end.

(** The values of [xhr.responseText] at successive notifications when the
    body arrives as [chunks], [seen] having arrived before. *)
Fixpoint responses (seen : string) (chunks : list string) : list string :=
  match chunks with
  | [] => []
  | c :: rest => (seen ++ c) :: responses (seen ++ c) rest
  end.

(** The listener run over successive notifications, each a [readyState]
    and a [responseText]. *)
Definition notify (k : file_kind) (st : stream) (n : nat * string) : stream :=
  onreadystatechange (on_data k) (fst n) (snd n) st.

(** The records that the console shows as parsed, in order. *)
Fixpoint parsed_entries (log : list log_entry) : list value :=
  match log with
  | [] => []
  | LogParsed data :: rest => data :: parsed_entries rest
  | _ :: rest => parsed_entries rest
  end.

(** Is [data] a terminal record: one of type [complete] or [error]? *)
Definition terminal (data : value) : bool :=
  is_str (get_opt data "type") "complete" || is_str (get_opt data "type") "error".


(** The nesting depths after the text [s], in the words of the
    specification: braces opened and not closed, brackets opened and not
    closed, counted from [braces] and [brackets]. *)
Fixpoint depths_from (braces brackets : Z) (s : string) : Z * Z :=
  match s with
  | EmptyString => (braces, brackets)
  | String c s' =>
      let '(braces', brackets') := count c braces brackets in
      depths_from braces' brackets' s'
  end.

Definition depths (s : string) : Z * Z := depths_from 0 0 s.

(** The prefix of [chunk] of [n] code units is complete so far: it ends
    with a closing brace or bracket, and both depths are zero after it. *)
Definition complete_prefix (chunk : string) (n : nat) : bool :=
  match n with
  | O => false
  | S i =>
      match String.get i chunk with
      | Some c => (Ascii.eqb c "}" || Ascii.eqb c "]")
      | None => false
      end
      && (let '(braces, brackets) := depths (take n chunk) in
          (braces =? 0)%Z && (brackets =? 0)%Z)
  end.

(** [displayUploadResults] returns normally on [data]. *)
Definition renders (data : value) : Prop :=
  fst (displayUploadResults data (new_upload, [])) = Ok tt.

End Handlers.

End FileUpload.


(* ================================================================== *)
(** * Search results and chat history *)

Module Search.
Import JSString JSNumber JSValue.

(** What [#searchResults] shows. *)
Inductive pane : Type :=
| Loading
| NoResults
| Rendered (html : string)
| SearchFailed (e : error).

(** The state shared through [window]: the property
    [window.currentSearchResults] ([Undefined] until it is first assigned)
    and the results pane. *)
Record window : Type := {
  currentSearchResults : value;
  searchResults : pane
}.

Section Display.

(** [window.renderResultItem(result, services)] (resultRenderer.js): the
    HTML of one result, or what building it throws. No statement below
    depends on the text, so it is left to the caller. *)
Variable renderResultItem : value -> exc string.

Fixpoint render_all (results : list value) : exc (list string) :=
  match results with
  | [] => Ok []
  | r :: rest =>
      exc_bind (renderResultItem r) (fun h =>
      exc_bind (render_all rest) (fun hs => Ok (h :: hs)))
  end.

(** [results.map(result => window.renderResultItem(result, ...)).join('')]:
    only an array has a callable [map]. *)
Definition render_results (results : value) : exc string :=
  match results with
  | Arr items => exc_bind (render_all items) (fun hs => Ok (join "" hs))
  | _ => Throw TypeError
  end.

(** [!results || results.length === 0]. *)
Definition no_results (results : value) : bool :=
  negb (truthy results) || is_zero (get_opt results "length").

(** [SearchManager.displaySearchResults(results)], up to the call of
    [loadResultImages], which only fetches images. *)
Definition displaySearchResults (results : value) (w : window)
  : exc unit * window :=
  if no_results results then
    (Ok tt, {| currentSearchResults := currentSearchResults w;
               searchResults := NoResults |})
  else
    let w1 := {| currentSearchResults := results;
                 searchResults := searchResults w |} in
    match render_results results with
    | Ok html =>
        (Ok tt, {| currentSearchResults := currentSearchResults w1;
                   searchResults := Rendered html |})
    | Throw e => (Throw e, w1)
    end.


End Display.

End Search.

Module Chat.
Import JSString JSNumber JSValue.

(** [CONFIG.maxChatHistory]. *)
Definition maxChatHistory : nat := 100.

(** An entry of [this.chatHistory]: [{ role, content }]. *)
Record entry : Type := { role : string; content : value }.

(** The chat manager and its part of the page: [this.chatHistory], the
    messages appended to [#chatMessages] (role and formatted text) and
    whether the typing indicator is shown. *)
Record chat : Type := {
  chatHistory : list entry;
  chatMessages : list (string * string);
  typing : bool
}.

(** How a call of [sendMessage] ends. *)
Inductive outcome : Type :=
| Ignored
| Answered (responseText : value)
| Failed (e : error)
| Uncaught (e : error).

(** [array.slice(-n)]. *)
Definition slice_last {A : Type} (n : nat) (l : list A) : list A :=
  skipn (List.length l - n) l.

Section SendMessage.
Context {utils : UtilsScript}.

(** [this.addMessage(role, content)], the page having [#chatMessages]. *)
Definition addMessage (r : string) (c : value) (s : chat) : exc unit * chat :=
  match Utils_formatMessage c with
  | Ok html =>
      (Ok tt, {| chatHistory := chatHistory s;
                 chatMessages := (chatMessages s ++ [(r, html)])%list;
                 typing := typing s |})
  | Throw e => (Throw e, s)
  end.

Definition set_typing (b : bool) (s : chat) : chat :=
  {| chatHistory := chatHistory s; chatMessages := chatMessages s;
     typing := b |}.

(** The text of [error.message] in the [catch]. *)
Definition error_message (e : error) : string :=
  match e with
  | SyntaxError => "SyntaxError"
  | TypeError => "TypeError"
  | Error m => m
  end.

(** [ChatManager.sendMessage()]. [input] is [chatInput.value]. [request]
    stands for the first part of the [try] block, from the preparation of
    the sources to the end of the reading of the response: either it
    throws, or it leaves a value in [data]. *)
Definition sendMessage (input : string) (request : exc value) (s : chat)
  : outcome * chat :=
  let message := trim input in
  if negb (nonempty message) then (Ignored, s)
  else
    match addMessage "user" (Str message) s with
    | (Throw e, s0) => (Uncaught e, s0)
    | (Ok _, s0) =>
        let s1 := set_typing true s0 in
        let attempt : exc value * chat :=
          match request with
          | Throw e => (Throw e, s1)
          | Ok data =>
              let s2 := set_typing false s1 in
              let responseText :=
                or_else (get_opt data "response") (Str "No response received") in
              match addMessage "assistant" responseText s2 with
              | (Throw e, s3) => (Throw e, s3)
              | (Ok _, s3) =>
                  let pushed :=
                    (chatHistory s3
                       ++ [{| role := "user"; content := Str message |}]
                       ++ [{| role := "assistant"; content := responseText |}])%list in
                  let limited :=
                    if (maxChatHistory <? List.length pushed)%nat
                    then slice_last maxChatHistory pushed
                    else pushed in
                  (Ok responseText,
                   {| chatHistory := limited; chatMessages := chatMessages s3;
                      typing := typing s3 |})
              end
          end in
        match attempt with
        | (Ok responseText, s4) => (Answered responseText, s4)
        | (Throw e, s4) =>
            let s5 := set_typing false s4 in
            match addMessage "error"
                    (Str ("Failed to get response: " ++ error_message e)) s5 with
            | (Ok _, s6) => (Failed e, s6)
            | (Throw e', s6) => (Uncaught e', s6)
            end
        end
    end.

End SendMessage.

End Chat.


(* ================================================================== *)
(** * A reference host

    An executable host for running the examples: a reader and a printer of
    JSON text, the conversions between Numbers and decimal text, and
    stand-ins for the two helpers of [Utils]. *)

Module Reference.
Import JSString JSNumber JSValue.
Local Open Scope Z_scope.

(** ** Decimal text to Number *)

(** The binary64 nearest to [m * 10^e10] for [m > 0], ties to even. *)
Definition nearest_float (m e10 : Z) : float :=
  if 0 <=? e10 then
    SF2Prim (binary_normalize prec emax (m * 10 ^ e10) 0 false)
  else
    let '(q, e, l) := SFdiv_core_binary prec emax m 0 (10 ^ (- e10)) 0 in
    SF2Prim (binary_round_aux prec emax false q e l).

Definition decimal_float (negative : bool) (m e10 : Z) : float :=
  if m =? 0 then (if negative then neg_zero else zero)
  else if negative then (- nearest_float m e10)%float
  else nearest_float m e10.

Definition is_digit (c : ascii) : bool :=
  let n := nat_of_ascii c in (48 <=? n)%nat && (n <=? 57)%nat.

Definition digit_value (c : ascii) : Z := Z.of_nat (nat_of_ascii c) - 48.

(** The digits at the head of [s]: their value after [acc], how many they
    are, and the rest. *)
Fixpoint read_digits (acc count : Z) (s : string) : Z * Z * string :=
  match s with
  | String c s' =>
      if is_digit c then read_digits (10 * acc + digit_value c) (count + 1) s'
      else (acc, count, s)
  | EmptyString => (acc, count, s)
  end.

(** The exponent part [e], [e+] or [e-] and digits, if [s] starts with
    one. *)
Definition read_exponent (s : string) : Z * string :=
  match s with
  | String c s' =>
      if Ascii.eqb c "e" || Ascii.eqb c "E" then
        let '(sign, s'') :=
          match s' with
          | String "+" t => (1, t)
          | String "-" t => (-1, t)
          | _ => (1, s')
          end in
        let '(v, n, rest) := read_digits 0 0 s'' in
        if 0 <? n then (sign * v, rest) else (0, s)
      else (0, s)
  | EmptyString => (0, s)
  end.

(** The fraction part: a point and at least one digit. *)
Definition read_fraction (int : Z) (s : string) : Z * Z * string :=
  match s with
  | String "." t =>
      let '(v, n, rest) := read_digits int 0 t in
      if 0 <? n then (v, n, rest) else (int, 0, s)
  | _ => (int, 0, s)
  end.

(** A JSON number at the head of [s]: an optional minus, an integer part
    without a superfluous leading zero, an optional fraction, an optional
    exponent. *)
Definition read_number (s : string) : option (float * string) :=
  let '(negative, s1) :=
    match s with
    | String "-" t => (true, t)
    | _ => (false, s)
    end in
  let '(int, n_int, s2) := read_digits 0 0 s1 in
  let leading_zero := match s1 with String "0" _ => true | _ => false end in
  if (n_int =? 0) || (leading_zero && (1 <? n_int)) then None
  else
    let '(m, n_frac, s3) := read_fraction int s2 in
    let '(e, s4) := read_exponent s3 in
    Some (decimal_float negative m (e - n_frac), s4).

(** ** Number to decimal text (Number::toString, radix 10) *)

Fixpoint decimal_digits_from (fuel : nat) (z : Z) (acc : string) : string :=
  match fuel with
  | O => acc
  | S fuel' =>
      let acc' := String (ascii_of_nat (48 + Z.to_nat (z mod 10))) acc in
      if z <? 10 then acc' else decimal_digits_from fuel' (z / 10) acc'
  end.

Definition decimal_digits (z : Z) : string :=
  decimal_digits_from (S (Z.to_nat (Z.log2 z))) z "".

Fixpoint zeros (n : nat) : string :=
  match n with
  | O => ""
  | S n' => String "0" (zeros n')
  end.

(** The least [t] from [t0] on with [den <= num * 10^t]. *)
Fixpoint first_scale (fuel : nat) (num den t : Z) : Z :=
  match fuel with
  | O => t
  | S fuel' =>
      if den <=? num * 10 ^ t then t else first_scale fuel' num den (t + 1)
  end.

(** The [n] with [10^(n-1) <= num/den < 10^n], for [0 < num/den]. *)
Definition decimal_exponent (num den : Z) : Z :=
  if den <=? num
  then Z.of_nat (String.length (decimal_digits (num / den)))
  else 1 - first_scale 400 num den 1.

(** The candidates with [k] digits for [x = num/den]: the [k]-digit
    integers just below and just above [x / 10^(n-k)], each with the
    exponent it stands at; the upper one may carry into one more digit. *)
Definition candidates (num den n k : Z) : (Z * Z) * (Z * Z) * bool :=
  let '(a, b) :=
    if 0 <=? k - n then (num * 10 ^ (k - n), den)
    else (num, den * 10 ^ (n - k)) in
  let lo := a / b in
  let hi := lo + 1 in
  let upper := if hi =? 10 ^ k then (10 ^ (k - 1), n + 1) else (hi, n) in
  (* is the upper candidate strictly nearer, or as near and even? *)
  let nearer_up :=
    match 2 * a ?= (2 * lo + 1) * b with
    | Gt => true
    | Eq => Z.odd lo
    | Lt => false
    end in
  ((lo, n), upper, nearer_up).

(** The shortest digits [s] and exponent [n] such that [s * 10^(n-k)]
    reads back as [x], the nearest to [x] when two have [k] digits. *)
Fixpoint shortest (fuel : nat) (x : float) (num den n k : Z) : Z * Z * Z :=
  let '((lo, n_lo), (hi, n_hi), nearer_up) := candidates num den n k in
  let ok_lo :=
    (10 ^ (k - 1) <=? lo) && PrimFloat.Leibniz.eqb (decimal_float false lo (n_lo - k)) x in
  let ok_hi := PrimFloat.Leibniz.eqb (decimal_float false hi (n_hi - k)) x in
  match fuel with
  | O => (lo, n_lo, k)
  | S fuel' =>
      if ok_lo && ok_hi then
        if nearer_up then (hi, n_hi, k) else (lo, n_lo, k)
      else if ok_lo then (lo, n_lo, k)
      else if ok_hi then (hi, n_hi, k)
      else shortest fuel' x num den n (k + 1)
  end.

(** The text of a positive finite Number from its digits [ds] ([k] of
    them) and exponent [n]. *)
Definition layout (ds : string) (k n : Z) : string :=
  if (k <=? n) && (n <=? 21) then (ds ++ zeros (Z.to_nat (n - k)))%string
  else if (0 <? n) && (n <=? 21) then
    (take (Z.to_nat n) ds ++ "." ++ drop (Z.to_nat n) ds)%string
  else if (-6 <? n) && (n <=? 0) then
    ("0." ++ zeros (Z.to_nat (- n)) ++ ds)%string
  else
    let e := n - 1 in
    let sign : string := if 0 <=? e then "+"%string else "-"%string in
    let exponent := (sign ++ decimal_digits (Z.abs e))%string in
    if k =? 1 then (ds ++ "e" ++ exponent)%string
    else (take 1 ds ++ "." ++ drop 1 ds ++ "e" ++ exponent)%string.

Definition positive_to_string (x : float) (m : positive) (e : Z) : string :=
  let '(num, den) :=
    if 0 <=? e then (Z.pos m * 2 ^ e, 1) else (Z.pos m, 2 ^ (- e)) in
  let n := decimal_exponent num den in
  let '(s, n', k) := shortest 17 x num den n 1 in
  layout (decimal_digits s) k n'.

Definition number_to_string (x : float) : string :=
  match Prim2SF x with
  | S754_nan => "NaN"
  | S754_zero _ => "0"
  | S754_infinity false => "Infinity"
  | S754_infinity true => "-Infinity"
  | S754_finite false m e => positive_to_string x m e
  | S754_finite true m e => ("-" ++ positive_to_string (- x)%float m e)%string
  end.

(** ** String to Number (StringToNumber) *)

Fixpoint read_radix_digits (radix acc count : Z) (s : string) : Z * Z * string :=
  match s with
  | String c s' =>
      let n := Z.of_nat (nat_of_ascii c) in
      let d :=
        if (48 <=? n) && (n <=? 57) then n - 48
        else if (97 <=? n) && (n <=? 122) then n - 87
        else if (65 <=? n) && (n <=? 90) then n - 55
        else radix in
      if d <? radix then read_radix_digits radix (radix * acc + d) (count + 1) s'
      else (acc, count, s)
  | EmptyString => (acc, count, s)
  end.

(** A literal [0x..], [0o..] or [0b..] that is all of [s]. *)
Definition radix_literal (s : string) : option float :=
  match s with
  | String "0" (String p t) =>
      let radix :=
        if Ascii.eqb p "x" || Ascii.eqb p "X" then 16
        else if Ascii.eqb p "o" || Ascii.eqb p "O" then 8
        else if Ascii.eqb p "b" || Ascii.eqb p "B" then 2
        else 0 in
      if radix =? 0 then None
      else
        let '(v, n, rest) := read_radix_digits radix 0 0 t in
        if (0 <? n) && negb (nonempty rest)
        then Some (decimal_float false v 0) else None
  | _ => None
  end.

(** A decimal literal that is all of [s]: digits with an optional
    fraction, or a fraction alone, and an optional exponent. *)
Definition decimal_literal (negative : bool) (s : string) : option float :=
  let '(int, n_int, s1) := read_digits 0 0 s in
  let '(m, n_frac, s2) :=
    match s1 with
    | String "." t => let '(v, n, rest) := read_digits int 0 t in (v, n, rest)
    | _ => (int, 0, s1)
    end in
  if (n_int + n_frac =? 0) then None
  else
    let '(e, s3) := read_exponent s2 in
    if nonempty s3 then None
    else Some (decimal_float negative m (e - n_frac)).

Definition string_to_number (text : string) : float :=
  let s := trim text in
  if negb (nonempty s) then zero
  else
    match radix_literal s with
    | Some x => x
    | None =>
        let '(negative, body) :=
          match s with
          | String "-" t => (true, t)
          | String "+" t => (false, t)
          | _ => (false, s)
          end in
        if (body =? "Infinity")%string
        then (if negative then neg_infinity else infinity)
        else match decimal_literal negative body with
             | Some x => x
             | None => nan
             end
    end.

(** ** JSON text to value ([JSON.parse]) *)

Definition is_json_space (c : ascii) : bool :=
  let n := nat_of_ascii c in
  (n =? 32)%nat || (n =? 9)%nat || (n =? 10)%nat || (n =? 13)%nat.

Fixpoint skip_space (s : string) : string :=
  match s with
  | String c s' => if is_json_space c then skip_space s' else s
  | EmptyString => s
  end.

Definition hex_value (c : ascii) : option nat :=
  let n := nat_of_ascii c in
  if (48 <=? n)%nat && (n <=? 57)%nat then Some (n - 48)%nat
  else if (97 <=? n)%nat && (n <=? 102)%nat then Some (n - 87)%nat
  else if (65 <=? n)%nat && (n <=? 70)%nat then Some (n - 55)%nat
  else None.

(** The code unit of the escape [\c], for the one-letter escapes. *)
Definition simple_escape (c : ascii) : option ascii :=
  if Ascii.eqb c "034" then Some "034"%char
  else if Ascii.eqb c "\" then Some "\"%char
  else if Ascii.eqb c "/" then Some "/"%char
  else if Ascii.eqb c "b" then Some "008"%char
  else if Ascii.eqb c "f" then Some "012"%char
  else if Ascii.eqb c "n" then Some "010"%char
  else if Ascii.eqb c "r" then Some "013"%char
  else if Ascii.eqb c "t" then Some "009"%char
  else None.

Definition prepend (c : ascii) (r : option (string * string))
  : option (string * string) :=
  match r with
  | Some (body, rest) => Some (String c body, rest)
  | None => None
  end.

(** The code unit written [\uh1h2h3h4], when it is below 256. *)
Definition unicode_escape (h1 h2 h3 h4 : ascii) : option ascii :=
  match hex_value h1, hex_value h2, hex_value h3, hex_value h4 with
  | Some 0%nat, Some 0%nat, Some c, Some d => Some (ascii_of_nat (16 * c + d))
  | _, _, _, _ => None
  end.

(** A string after its opening quote: its code units and what follows
    the closing quote. *)
Fixpoint read_chars (s : string) : option (string * string) :=
  match s with
  | EmptyString => None
  | String c s' =>
      if Ascii.eqb c "034" then Some (EmptyString, s')
      else if Ascii.eqb c "\" then
        match s' with
        | String "u" (String h1 (String h2 (String h3 (String h4 s'')))) =>
            match unicode_escape h1 h2 h3 h4 with
            | Some u => prepend u (read_chars s'')
            | None => None
            end
        | String e s'' =>
            match simple_escape e with
            | Some u => prepend u (read_chars s'')
            | None => None
            end
        | EmptyString => None
        end
      else if (nat_of_ascii c <? 32)%nat then None
      else prepend c (read_chars s')
  end.

(** Is [k] the canonical text of an array index? *)
Definition array_index (k : string) : option Z :=
  let '(v, n, rest) := read_digits 0 0 k in
  let canonical :=
    match k with
    | String "0" EmptyString => true
    | String "0" _ => false
    | _ => true
    end in
  if (0 <? n) && negb (nonempty rest) && canonical && (v <? 2 ^ 32 - 1)
  then Some v else None.

(** [CreateDataProperty]: a new key goes last, a known key keeps its
    place and takes the new value. *)
Fixpoint define_property (k : string) (v : value) (fields : list (string * value))
  : list (string * value) :=
  match fields with
  | [] => [(k, v)]
  | (k', v') :: rest =>
      if (k' =? k)%string then (k, v) :: rest
      else (k', v') :: define_property k v rest
  end.

Fixpoint insert_index (i : Z) (kv : string * value)
  (sorted : list (Z * (string * value))) : list (Z * (string * value)) :=
  match sorted with
  | [] => [(i, kv)]
  | (j, kv') :: rest =>
      if i <? j then (i, kv) :: sorted else (j, kv') :: insert_index i kv rest
  end.

(** The own properties in the order of enumeration: array indices in
    ascending order, then the other keys in the order of creation. *)
Definition property_order (fields : list (string * value))
  : list (string * value) :=
  let created :=
    fold_left (fun acc kv => define_property (fst kv) (snd kv) acc) fields [] in
  let indices :=
    fold_left (fun acc kv =>
                 match array_index (fst kv) with
                 | Some i => insert_index i kv acc
                 | None => acc
                 end) created [] in
  let others :=
    filter (fun kv => match array_index (fst kv) with
                      | Some _ => false
                      | None => true
                      end) created in
  (map snd indices ++ others)%list.

Fixpoint read_value (fuel : nat) (s : string) : option (value * string) :=
  match fuel with
  | O => None
  | S fuel' =>
      match skip_space s with
      | String "{" r =>
          match skip_space r with
          | String "}" r' => Some (Obj [], r')
          | r' => read_members fuel' r' []
          end
      | String "[" r =>
          match skip_space r with
          | String "]" r' => Some (Arr [], r')
          | r' => read_elements fuel' r' []
          end
      | String "034" r =>
          match read_chars r with
          | Some (body, rest) => Some (Str body, rest)
          | None => None
          end
      | s' =>
          if startsWith "true" s' then Some (Bool true, drop 4 s')
          else if startsWith "false" s' then Some (Bool false, drop 5 s')
          else if startsWith "null" s' then Some (Null, drop 4 s')
          else match read_number s' with
               | Some (x, rest) => Some (Num x, rest)
               | None => None
               end
      end
  end
with read_elements (fuel : nat) (s : string) (acc : list value)
  : option (value * string) :=
  match fuel with
  | O => None
  | S fuel' =>
      match read_value fuel' s with
      | Some (v, r) =>
          match skip_space r with
          | String "," r' => read_elements fuel' r' (v :: acc)
          | String "]" r' => Some (Arr (rev (v :: acc)), r')
          | _ => None
          end
      | None => None
      end
  end
with read_members (fuel : nat) (s : string) (acc : list (string * value))
  : option (value * string) :=
  match fuel with
  | O => None
  | S fuel' =>
      match skip_space s with
      | String "034" r =>
          match read_chars r with
          | Some (k, r1) =>
              match skip_space r1 with
              | String ":" r2 =>
                  match read_value fuel' r2 with
                  | Some (v, r3) =>
                      match skip_space r3 with
                      | String "," r4 => read_members fuel' r4 ((k, v) :: acc)
                      | String "}" r4 =>
                          Some (Obj (property_order (rev ((k, v) :: acc))), r4)
                      | _ => None
                      end
                  | None => None
                  end
              | _ => None
              end
          | None => None
          end
      | _ => None
      end
  end.

Definition json_parse (text : string) : option value :=
  match read_value (2 * String.length text + 2) text with
  | Some (v, rest) => if nonempty (skip_space rest) then None else Some v
  | None => None
  end.

(** ** Value to JSON text ([JSON.stringify(v, null, 2)]) *)

Definition hex_digit (n : nat) : ascii :=
  if (n <? 10)%nat then ascii_of_nat (48 + n) else ascii_of_nat (87 + n).

Fixpoint quote_chars (s : string) : string :=
  match s with
  | EmptyString => EmptyString
  | String c s' =>
      let n := nat_of_ascii c in
      let rest := quote_chars s' in
      if Ascii.eqb c "034" then String "\" (String "034" rest)
      else if Ascii.eqb c "\" then String "\" (String "\" rest)
      else if (n =? 8)%nat then String "\" (String "b" rest)
      else if (n =? 9)%nat then String "\" (String "t" rest)
      else if (n =? 10)%nat then String "\" (String "n" rest)
      else if (n =? 12)%nat then String "\" (String "f" rest)
      else if (n =? 13)%nat then String "\" (String "r" rest)
      else if (n <? 32)%nat then
        ("\u00" ++ String (hex_digit (n / 16)) (String (hex_digit (n mod 16)) rest))%string
      else String c rest
  end.

Definition quote (s : string) : string :=
  String "034" (quote_chars s ++ String "034" EmptyString)%string.

Definition is_finite (x : float) : bool :=
  match Prim2SF x with
  | S754_nan | S754_infinity _ => false
  | _ => true
  end.

Definition line_feed : string := String newline EmptyString.

(** A value at the indentation [indent]; [None] where [JSON.stringify]
    gives [undefined]. *)
Fixpoint print (indent : string) (v : value) : option string :=
  let inner := (indent ++ "  ")%string in
  let separator := ("," ++ line_feed ++ inner)%string in
  match v with
  | Undefined => None
  | Null => Some "null"%string
  | Bool true => Some "true"%string
  | Bool false => Some "false"%string
  | Num x => Some (if is_finite x then number_to_string x else "null"%string)
  | Str s => Some (quote s)
  | Arr [] => Some "[]"%string
  | Arr items =>
      let texts :=
        map (fun x => match print inner x with
                      | Some t => t
                      | None => "null"%string
                      end) items in
      Some ("[" ++ line_feed ++ inner ++ join separator texts
                ++ line_feed ++ indent ++ "]")%string
  | Obj fields =>
      let texts :=
        flat_map (fun kv => match print inner (snd kv) with
                            | Some t => [(quote (fst kv) ++ ": " ++ t)%string]
                            | None => []
                            end) fields in
      match texts with
      | [] => Some "{}"%string
      | _ => Some ("{" ++ line_feed ++ inner ++ join separator texts
                       ++ line_feed ++ indent ++ "}")%string
      end
  end.

Definition json_stringify (v : value) : string :=
  match print "" v with
  | Some t => t
  | None => EmptyString
  end.

(** ** Stand-ins for [Utils] *)

Fixpoint escape_chars (s : string) : string :=
  match s with
  | EmptyString => EmptyString
  | String c s' =>
      let rest := escape_chars s' in
      if Ascii.eqb c "&" then ("&amp;" ++ rest)%string
      else if Ascii.eqb c "<" then ("&lt;" ++ rest)%string
      else if Ascii.eqb c ">" then ("&gt;" ++ rest)%string
      else if (nat_of_ascii c =? 160)%nat then ("&nbsp;" ++ rest)%string
      else String c rest
  end.

Fixpoint line_breaks (s : string) : string :=
  match s with
  | EmptyString => EmptyString
  | String c s' =>
      if (nat_of_ascii c =? 10)%nat then ("<br>" ++ line_breaks s')%string
      else String c (line_breaks s')
  end.

#[local] Instance host : Host := {|
  JSON_parse := json_parse;
  JSON_stringify := json_stringify;
  NumberToString := number_to_string;
  StringToNumber := string_to_number
|}.

(** The escaping of the helper [escapeHtml] that fileUpload.js itself
    defines: the text assigned to [textContent], read back as HTML. *)
Definition escapeHtml (v : value) : exc string :=
  exc_bind (to_textContent v) (fun t => Ok (escape_chars t)).

(** A message formatter: escaped text with line breaks as [<br>]. *)
Definition formatMessage (v : value) : exc string :=
  exc_bind (to_textContent v) (fun t => Ok (line_breaks (escape_chars t))).

#[local] Instance utils : UtilsScript := {|
  Utils_escapeHtml := escapeHtml;
  Utils_formatMessage := formatMessage
|}.

End Reference.

Definition reference_host : JSValue.Host := Reference.host.
Definition reference_utils : JSValue.UtilsScript := Reference.utils.


(* ================================================================== *)
(** * Sample streams *)

Module Samples.
Import JSString JSNumber JSValue FileUpload.

(** The two records of the example of the specification. *)
Definition progress_json : string := dq "{'type':'progress','percent':50}".
Definition complete_json : string :=
  dq "{'type':'complete','document_id':'abc123'}".

Definition progress_record : value :=
  Obj [("type", Str "progress"); ("percent", Num 50)].
Definition complete_record : value :=
  Obj [("type", Str "complete"); ("document_id", Str "abc123")].

(** An [error] record with a [detail], and one without. *)
Definition error_json : string := dq "{'type':'error','detail':'disk full'}".
Definition bare_error_json : string := dq "{'type':'error'}".
Definition bare_error_record : value := Obj [("type", Str "error")].

(** A record that does not parse. *)
Definition malformed_json : string := "{not json".

(** The response of the example, delivered at [readyState] 3 and then 4. *)
Definition two_notifications : list (nat * list string) :=
  [(3, [progress_json]); (4, [complete_json])].

(** A progress record with a plain status, as either path may receive. *)
Definition status_record : value :=
  Obj [("type", Str "progress"); ("percent", Num 10);
       ("stage", Str "Reading pages")].

(** A progress record of the PDF path with one of the listed statuses. *)
Definition listed_status_record : value :=
  Obj [("type", Str "progress"); ("percent", Num 30);
       ("stage", Str "Text extraction complete")].

(** [n] code units of text. *)
Fixpoint filler (n : nat) : string :=
  match n with
  | O => EmptyString
  | S n' => String "x" (filler n')
  end.

(** A piece of the structured document of 2000 code units. *)
Definition long_structured_record : value :=
  Obj [("type", Str "progress"); ("percent", Num 40);
       ("stage", Str ("STRUCTURED_CHUNK:" ++ filler 2000))].


(** A piece of the structured document. *)
Definition structured_record : value :=
  Obj [("type", Str "progress"); ("percent", Num 40);
       ("stage", Str (dq "STRUCTURED_CHUNK:{'title': 'Re"))].

(** One complete object followed by the beginning of more text. *)
Definition object_text : string := dq "{'a':1}".
Definition object_and_more : string := dq "{'a':1} and th".

(** Balanced text that is not JSON, followed by more text. *)
Definition balanced_not_json : string := "{a}x".

(** Two pieces of one document, as two records of the PDF path. *)
Definition first_piece_record : value :=
  Obj [("type", Str "progress"); ("percent", Num 40);
       ("stage", Str (dq "STRUCTURED_CHUNK:{'a':1}"))].
Definition second_piece_record : value :=
  Obj [("type", Str "progress"); ("percent", Num 40);
       ("stage", Str (dq "STRUCTURED_CHUNK:{'b"))].

(** Results of two searches, and a renderer of one result. *)
Definition old_results : value :=
  Arr [Obj [("document_id", Str "doc-1"); ("content", Str "first")]].
Definition sample_renderer (result : value) : exc string :=
  Ok "<div class='result-item'></div>".
Definition after_first_search : Search.window :=
  {| Search.currentSearchResults := old_results;
     Search.searchResults := Search.Rendered "" |}.

(** A chat with a history of 99 entries. *)
Definition long_chat : Chat.chat :=
  {| Chat.chatHistory :=
       repeat {| Chat.role := "user"; Chat.content := Str "hello" |} 99;
     Chat.chatMessages := [];
     Chat.typing := false |}.
Definition reply : value := Obj [("response", Str "Hi there")].

End Samples.

(* ================================================================== *)
(** * Further parts of the host and of the [Utils] script *)

Module Platform.
Import JSString JSNumber JSValue.

(** Two more built-ins of the host. *)
Class HostNumber : Type := {
  (** [Math.round(x)]. *)
  Math_round : float -> float;
  (** [x.toFixed(3)]. *)
  toFixed3 : float -> string
}.

(** Two more helpers of the [Utils] script, which is not among the
    sources: each is any function from its arguments to a result or a
    throw. What [showNotification] puts on the page is kept apart from the
    state of the functions that call it. *)
Class UtilsPage : Type := {
  (** [Utils.formatFileSize(bytes)]. *)
  Utils_formatFileSize : float -> exc string;
  (** [Utils.showNotification(message, type)]. *)
  Utils_showNotification : string -> string -> exc unit
}.

(** [s.toLowerCase()] on code units below 256: the letters A to Z and the
    capital letters of Latin-1. *)
Definition lower (c : ascii) : ascii :=
  let n := nat_of_ascii c in
  if ((65 <=? n) && (n <=? 90))%nat
     || ((192 <=? n) && (n <=? 222) && negb (n =? 215))%nat
  then ascii_of_nat (n + 32) else c.

Fixpoint toLowerCase (s : string) : string :=
  match s with
  | EmptyString => EmptyString
  | String c s' => String (lower c) (toLowerCase s')
  end.

(** [s.endsWith(p)]. *)
Definition endsWith (p s : string) : bool :=
  (String.length p <=? String.length s)%nat
  && (drop (String.length s - String.length p) s =? p)%string.

(** The text [s] between quotation marks. *)
Definition quoted (s : string) : string :=
  String "034"%char (s ++ String "034"%char EmptyString).

(** [error.message] of what a [catch] has caught, where the thrown value
    is an [Error] made by the source; the message of an error thrown by
    the host is the host's. *)
Definition message_of (host_message : error -> string) (e : error) : string :=
  match e with
  | Error m => m
  | _ => host_message e
  end.

End Platform.

(* ================================================================== *)
(** * The events of an upload request (fileUpload.js) *)

Module Xhr.
Import JSString JSNumber JSValue FileUpload Platform.

(** The events that [uploadImageWithStreaming] and
    [uploadPdfWithStreaming] listen to, on [xhr.upload] and on [xhr], with
    what the listener reads at that moment. *)
Inductive xhr_event : Type :=
| UploadProgress (lengthComputable : bool) (loaded total : float)
| ReadyStateChange (readyState : nat) (responseText : string)
| Load (status : nat) (statusText : string)
| NetworkError
| Aborted.

Section Listen.
Context {host : Host} {utils : UtilsScript} {numbers : HostNumber}.

(** The [progress] listener of [xhr.upload], the same in both upload
    functions. *)
Definition onprogress (lengthComputable : bool) (loaded total : float)
  (st : stream) : stream :=
  if lengthComputable then
    let percentComplete := ((loaded / total) * 100)%float in
    let totalProgress := (percentComplete * 0x1.999999999999ap-3)%float in
    {| buffer := buffer st;
       item := set_textContent
                 ("Uploading file... "
                    ++ NumberToString (Math_round percentComplete) ++ "%")
                 (set_width (NumberToString totalProgress ++ "%") (item st));
       console := console st |}
  else st.

(** The listener of the event [e]. *)
Definition listen (k : file_kind) (st : stream) (e : xhr_event) : stream :=
  match e with
  | UploadProgress lengthComputable loaded total =>
      onprogress lengthComputable loaded total st
  | ReadyStateChange readyState responseText =>
      onreadystatechange (on_data k) readyState responseText st
  | Load status statusText => onload status statusText st
  | NetworkError => onerror st
  | Aborted => onabort st
  end.



End Listen.

End Xhr.

(* ================================================================== *)
(** * [FileUploadManager.uploadFiles] (fileUpload.js) *)

Module UploadFiles.
Import JSString JSNumber JSValue FileUpload Platform Xhr.

(** What [uploadFiles] reads of a [File]. *)
Record file : Type := { name : string; type : string; size : float }.

(** A [.file-item] element: the name and the size it shows, the parts
    that the stream handlers write, and its class list. *)
Record file_item : Type := {
  file_name : string;
  file_size : string;
  view : upload;
  classes : list string
}.

(** The items that a call of [uploadFiles] has put into [#fileList], and
    its calls of [Utils.showNotification], each with its message and its
    type. *)
Record page : Type := {
  fileItems : list file_item;
  notifications : list (string * string)
}.

(** How far a call of [uploadFiles] gets: it stays suspended at [await]
    while an upload is pending, it returns, or it rejects. *)
Inductive outcome : Type :=
| Suspended
| Returned
| Threw (e : error).

(** The choice of the upload function from the type and the name. *)
Definition route (f : file) : option file_kind :=
  let fileName := toLowerCase (name f) in
  let fileType := toLowerCase (type f) in
  if startsWith "image/" fileType then Some ImageFile
  else if (fileType =? "application/pdf")%string || endsWith ".pdf" fileName
  then Some PdfFile
  else None.

(** [classList.add(c)]. *)
Definition add_class (c : string) (cs : list string) : list string :=
  if existsb (String.eqb c) cs then cs else (cs ++ [c])%list.

(** The element of index [i] replaced by its image under [f]. *)
Fixpoint update {A : Type} (i : nat) (f : A -> A) (l : list A) : list A :=
  match l, i with
  | [], _ => []
  | x :: l', O => f x :: l'
  | x :: l', S i' => x :: update i' f l'
  end.

Definition set_view (u : upload) (it : file_item) : file_item :=
  {| file_name := file_name it; file_size := file_size it; view := u;
     classes := classes it |}.

Definition set_classes (cs : list string) (it : file_item) : file_item :=
  {| file_name := file_name it; file_size := file_size it; view := view it;
     classes := cs |}.

Section UploadFiles.
Context {host : Host} {utils : UtilsScript} {numbers : HostNumber}
        {page_utils : UtilsPage}.

(** [Utils.showNotification(message, type)]: the call is recorded, and
    what the helper throws is passed on. *)
Definition showNotification (message kind : string) (pg : page)
  : exc unit * page :=
  (Utils_showNotification message kind,
   {| fileItems := fileItems pg;
      notifications := (notifications pg ++ [(message, kind)])%list |}).

(** One turn of the first [forEach]: the item of [file], and the upload
    function that is called for it, if any. *)
Definition create_item (f : file) : exc (file_item * option file_kind) :=
  exc_bind (Utils_escapeHtml (Str (name f))) (fun shown_name =>
  exc_bind (Utils_formatFileSize (size f)) (fun shown_size =>
  let fileItem := {| file_name := shown_name; file_size := shown_size;
                     view := new_upload; classes := ["file-item"] |} in
  match route f with
  | Some k => Ok (fileItem, Some k)
  | None =>
      Ok (set_classes (add_class "file-error" (classes fileItem))
            (set_view (set_textContent "Unsupported file type" new_upload)
               fileItem),
          None)
  end)).

(** The first [forEach]: [fileItems] and, for each promise pushed to
    [uploadPromises], the index of its file and its upload function. A
    throw leaves what the earlier turns have done. *)
Fixpoint create_items (files : list file) (index : nat)
  (fileItems : list file_item) (uploadPromises : list (nat * file_kind))
  : exc unit * (list file_item * list (nat * file_kind)) :=
  match files with
  | [] => (Ok tt, (fileItems, uploadPromises))
  | f :: rest =>
      match create_item f with
      | Throw e => (Throw e, (fileItems, uploadPromises))
      | Ok (fileItem, started) =>
          create_items rest (S index) (fileItems ++ [fileItem])%list
            (match started with
             | Some k => (uploadPromises ++ [(index, k)])%list
             | None => uploadPromises
             end)
      end
  end.

(** The request of one upload, run on the item of its file: [events] are
    the events of its [xhr], in order. *)
Definition run_upload (k : file_kind) (events : list xhr_event)
  (it : file_item) : file_item :=
  set_view
    (item (fold_left (listen k) events
             {| buffer := ""; item := view it; console := [] |}))
    it.

(** The uploads that were started, each with the events of its request
    that arrive before the results are shown; [traffic] lists them in the
    order of [uploadPromises]. An upload writes to its own item only, so
    the order in which the requests take turns does not show. *)
Fixpoint run_uploads (uploadPromises : list (nat * file_kind))
  (traffic : list (list xhr_event)) (fileItems : list file_item)
  : list file_item :=
  match uploadPromises with
  | [] => fileItems
  | (i, k) :: rest =>
      run_uploads rest (tl traffic)
        (update i (run_upload k (hd [] traffic)) fileItems)
  end.

(** The promise that [uploadPromises] holds for the file of index [i]. *)
Definition promise_of (fileItems : list file_item) (i : nat) : promise :=
  match nth_error fileItems i with
  | Some it => settled (view it)
  | None => Pending
  end.

Definition is_pending (p : promise) : bool :=
  match p with
  | Pending => true
  | _ => false
  end.

(** What the second [forEach] writes to the item at a result that is
    fulfilled, and at one that is rejected for the reason [r]. *)
Definition show_success (it : file_item) : file_item :=
  set_classes (add_class "file-success" (classes it))
    (set_view (set_textContent "Uploaded successfully" (view it)) it).

Definition show_failure (r : string) (it : file_item) : file_item :=
  set_classes (add_class "file-error" (classes it))
    (set_view (set_textContent ("Upload failed: " ++ r) (view it)) it).

(** One turn of [results.forEach((result, index) => ...)]. *)
Definition show_result (files : list file) (index : nat) (result : promise)
  (pg : page) : exc unit * page :=
  match nth_error (fileItems pg) index, nth_error files index with
  | Some _, Some f =>
      match result with
      | Fulfilled _ =>
          showNotification
            ("File " ++ quoted (name f) ++ " uploaded successfully!") "success"
            {| fileItems := update index show_success (fileItems pg);
               notifications := notifications pg |}
      | Rejected reason =>
          match ToString reason with
          | Throw e => (Throw e, pg)
          | Ok r =>
              showNotification
                ("Failed to upload " ++ quoted (name f) ++ ": " ++ r) "error"
                {| fileItems := update index (show_failure r) (fileItems pg);
                   notifications := notifications pg |}
          end
      | Pending => (Ok tt, pg)
      end
  | _, _ => (Throw TypeError, pg)
  end.

Fixpoint show_results (files : list file) (results : list promise)
  (index : nat) (pg : page) : exc unit * page :=
  match results with
  | [] => (Ok tt, pg)
  | result :: rest =>
      match show_result files index result pg with
      | (Ok _, pg') => show_results files rest (S index) pg'
      | (Throw e, pg') => (Throw e, pg')
      end
  end.

(** [uploadFiles(files)], the page having [#fileList] and [#fileInput],
    up to the installation of the click handler that removes the items.
    The page of the result holds the items and the notifications of this
    call. [traffic] lists the events of the requests in the order of
    [uploadPromises]; [host_message] is the message the host gives to an
    error of its own. The console is left out. *)
Definition uploadFiles (host_message : error -> string) (files : list file)
  (traffic : list (list xhr_event)) : outcome * page :=
  match create_items files 0 [] [] with
  | (Throw e, (fileItems1, _)) =>
      (Threw e, {| fileItems := fileItems1; notifications := [] |})
  | (Ok _, (fileItems1, uploadPromises)) =>
      let fileItems2 := run_uploads uploadPromises traffic fileItems1 in
      let results :=
        map (fun p => promise_of fileItems2 (fst p)) uploadPromises in
      let pg2 := {| fileItems := fileItems2; notifications := [] |} in
      if existsb is_pending results then (Suspended, pg2)
      else
        match show_results files results 0 pg2 with
        | (Ok _, pg3) => (Returned, pg3)
        | (Throw e, pg3) =>
            match showNotification
                    ("Upload failed: " ++ message_of host_message e) "error"
                    pg3 with
            | (Ok _, pg4) => (Returned, pg4)
            | (Throw e', pg4) => (Threw e', pg4)
            end
        end
  end.

(** [handleFiles(files)]: nothing for an empty list; otherwise the items
    of an earlier call are removed and [uploadFiles] runs. *)
Definition handleFiles (host_message : error -> string) (files : list file)
  (traffic : list (list xhr_event)) : outcome * page :=
  match files with
  | [] => (Returned, {| fileItems := []; notifications := [] |})
  | _ => uploadFiles host_message files traffic
  end.

(** ** Vocabulary of the statements *)

(** The helpers format the name and the size of [f]. *)
Definition formats (f : file) : Prop :=
  exists n sz, Utils_escapeHtml (Str (name f)) = Ok n
               /\ Utils_formatFileSize (size f) = Ok sz.

(** The item that the first [forEach] makes for [f]. *)
Definition created_for (f : file) (it : file_item) : Prop :=
  file_name it = match Utils_escapeHtml (Str (name f)) with
                 | Ok n => n
                 | Throw _ => ""
                 end
  /\ (route f <> None -> view it = new_upload /\ classes it = ["file-item"])
  /\ (route f = None ->
      view it = set_textContent "Unsupported file type" new_upload
      /\ classes it = ["file-item"; "file-error"]).

(** What the second [forEach] makes of an item at a result. *)
Definition shown (result : promise) (it : file_item) : file_item :=
  match result with
  | Fulfilled _ => show_success it
  | Rejected reason =>
      match ToString reason with
      | Ok r => show_failure r it
      | Throw _ => it
      end
  | Pending => it
  end.

(** The notification of a result for the file [f]. *)
Definition note (f : file) (result : promise) : string * string :=
  match result with
  | Fulfilled _ =>
      ("File " ++ quoted (name f) ++ " uploaded successfully!", "success")
  | Rejected reason =>
      ("Failed to upload " ++ quoted (name f) ++ ": "
         ++ match ToString reason with Ok r => r | Throw _ => "" end,
       "error")
  | Pending => ("", "")
  end.

(** A result that the second [forEach] can show. *)
Definition showable (result : promise) : Prop :=
  match result with
  | Fulfilled _ => True
  | Rejected reason => exists r, ToString reason = Ok r
  | Pending => False
  end.

(** How a request that starts on a fresh item ends. *)
Definition ends (k : file_kind) (events : list xhr_event) : promise :=
  settled (item (fold_left (listen k) events new_stream)).

(** The results of [Promise.allSettled], in the order of the promises. *)
Fixpoint ends_of (started : list (nat * file_kind))
  (traffic : list (list xhr_event)) : list promise :=
  match started with
  | [] => []
  | (_, k) :: rest => ends k (hd [] traffic) :: ends_of rest (tl traffic)
  end.

End UploadFiles.

(** The promises that the first [forEach] pushes for [files], the first
    file having the index [index]: one for each file with an upload
    function, in the order of the files. *)
Fixpoint started_from (index : nat) (files : list file)
  : list (nat * file_kind) :=
  match files with
  | [] => []
  | f :: rest =>
      match route f with
      | Some k => (index, k) :: started_from (S index) rest
      | None => started_from (S index) rest
      end
  end.

End UploadFiles.

(* ================================================================== *)
(** * [SearchManager.performSearch] (fileUpload.js) *)

Module SearchRequest.
Import JSString JSNumber JSValue Platform Search.

(** What [performSearch] and [sendMessage] read of the [Response] that
    [fetch] resolves with; [json] is what [response.json()] gives or
    rejects with. *)
Record response : Type := {
  ok : bool;
  status : nat;
  statusText : string;
  json : exc value
}.

Section PerformSearch.
Context {host : Host} {page_utils : UtilsPage}.
Variable renderResultItem : value -> exc string.

(** [throw new Error(`HTTP ${response.status}: ${response.statusText}`)]. *)
Definition http_error (r : response) : error :=
  Error ("HTTP " ++ NumberToString (of_nat (status r)) ++ ": " ++ statusText r).

(** The [try] block of [performSearch]: [fetched] is what [await fetch]
    gives or throws. *)
Definition search_attempt (fetched : exc response) (w : window)
  : exc unit * window :=
  match fetched with
  | Throw e => (Throw e, w)
  | Ok r =>
      if negb (ok r) then (Throw (http_error r), w)
      else
        match json r with
        | Throw e => (Throw e, w)
        | Ok data => displaySearchResults renderResultItem (or_else data (Arr [])) w
        end
  end.

(** [performSearch()]: [input] is [searchInput.value]. The result holds
    what the last call of [Utils.showNotification] gave, the window, and
    the notifications of this call. The console is left out. *)
Definition performSearch (host_message : error -> string) (input : string)
  (fetched : exc response) (w : window)
  : exc unit * window * list (string * string) :=
  let query := trim input in
  if negb (nonempty query) then
    (Utils_showNotification "Please enter a search query" "warning", w,
     [("Please enter a search query", "warning")])
  else
    let w1 := {| currentSearchResults := currentSearchResults w;
                 searchResults := Loading |} in
    match search_attempt fetched w1 with
    | (Ok _, w2) => (Ok tt, w2, [])
    | (Throw e, w2) =>
        let message := "Search failed: " ++ message_of host_message e in
        (Utils_showNotification message "error",
         {| currentSearchResults := currentSearchResults w2;
            searchResults := SearchFailed e |},
         [(message, "error")])
    end.

End PerformSearch.

End SearchRequest.

(* ================================================================== *)
(** * The request of [ChatManager.sendMessage] (resultRenderer.js) *)

Module ChatRequest.
Import JSString JSNumber JSValue Platform Chat SearchRequest.

(** [s.includes(p)]. *)
Fixpoint includes (p s : string) : bool :=
  startsWith p s
  || match s with
     | EmptyString => false
     | String _ s' => includes p s'
     end.

Section Sources.
Context {host : Host} {numbers : HostNumber}.

(** [typeof result.similarity === 'number' ?
     result.similarity.toFixed(3) : 'N/A']. *)
Definition score (result : value) : exc string :=
  exc_bind (get result "similarity") (fun similarity =>
  match similarity with
  | Num x => Ok (toFixed3 x)
  | _ => Ok "N/A"
  end).

(** [v.substring(0, 8)]: only a string has a callable [substring]. *)
Definition substring_0_8 (v : value) : exc string :=
  match v with
  | Str s => Ok (take 8 s)
  | _ => Throw TypeError
  end.

(** The callback of [window.currentSearchResults.map] in [sendMessage]:
    the text that stands for one search result. *)
Definition source_of (result : value) : exc string :=
  exc_bind (get result "document_id") (fun document_id =>
  if truthy document_id then
    exc_bind (get result "structured_json") (fun structured_json =>
    let content :=
      if truthy structured_json then Ok structured_json
      else exc_bind (get result "content") (fun c =>
           Ok (or_else c (Str "No content available"))) in
    exc_bind content (fun content =>
    let formattedContent :=
      match content with
      | Arr _ | Obj _ => Str (JSON_stringify content)
      | _ => content
      end in
    exc_bind (substring_0_8 document_id) (fun id =>
    exc_bind (score result) (fun sc =>
    exc_bind (ToString formattedContent) (fun text =>
    Ok ("Document " ++ id ++ "... (Score: " ++ sc ++ "): " ++ text))))))
  else
    exc_bind (get result "caption") (fun c =>
    let caption := or_else c (Str "No caption available") in
    exc_bind (get result "ocr_text") (fun o =>
    let ocrText := or_else o (Str "") in
    exc_bind (get result "id") (fun id_value =>
    exc_bind (substring_0_8 id_value) (fun id =>
    exc_bind (score result) (fun sc =>
    exc_bind (ToString caption) (fun cap =>
    exc_bind (if truthy ocrText
              then exc_bind (ToString ocrText) (fun t => Ok (" | OCR: " ++ t))
              else Ok "") (fun ocr =>
    Ok ("Image " ++ id ++ "... (Score: " ++ sc ++ "): Caption: " ++ cap
          ++ ocr))))))))).

Fixpoint sources_of (results : list value) : exc (list string) :=
  match results with
  | [] => Ok []
  | r :: rest =>
      exc_bind (source_of r) (fun s =>
      exc_bind (sources_of rest) (fun ss => Ok (s :: ss)))
  end.

(** The preparation of [sources] from [window.currentSearchResults]. *)
Definition prepare_sources (store : value) : exc (list string) :=
  if truthy store then
    exc_bind (get store "length") (fun len =>
    exc_bind (ToNumber len) (fun n =>
    if (0 <? n)%float then
      match store with
      | Arr results => sources_of results
      | _ => Throw TypeError
      end
    else Ok []))
  else Ok [].

End Sources.

(** ** The reading of the response *)

(** The reading of a streamed response: the variables [responseText] and
    [data] of [sendMessage], and the HTML last put into the typing
    indicator, if any. *)
Record reading : Type := {
  responseText : string;
  data : value;
  partial : option string
}.

(** The object [{ response: text }]. *)
Definition response_of (text : string) : value := Obj [("response", Str text)].

Definition start_reading : reading :=
  {| responseText := ""; data := response_of ""; partial := None |}.

Section Reading.
Context {host : Host} {utils : UtilsScript}.

(** One turn of [for (const line of lines)] in the streaming branch, the
    inner [try] and its [catch] included, the page having the typing
    indicator. *)
Definition on_chat_line (line : string) (r : reading) : reading :=
  if startsWith "data: " line then
    match JSON_parse (drop 6 line) with
    | None => r
    | Some jsonData =>
        match get jsonData "content" with
        | Throw _ => r
        | Ok content =>
            if truthy content then
              match ToString content with
              | Throw _ => r
              | Ok c =>
                  let text := responseText r ++ c in
                  {| responseText := text; data := data r;
                     partial := match Utils_formatMessage (Str text) with
                                | Ok html => Some html
                                | Throw _ => partial r
                                end |}
              end
            else if is_str (get_opt jsonData "type") "complete" then
              {| responseText := responseText r;
                 data := response_of (responseText r);
                 partial := partial r |}
            else r
        end
    end
  else r.

(** One turn of [while (true)]: a chunk that the reader has given,
    decoded. *)
Definition on_chat_chunk (r : reading) (chunk : string) : reading :=
  fold_left (fun r line => on_chat_line line r) (split newline chunk) r.

(** The streaming branch: the reader gives [chunks] and then is done, or
    its next [read()] rejects. *)
Definition read_stream (chunks : list string) (ended : exc unit) : value :=
  match ended with
  | Throw _ =>
      response_of "Streaming failed, but response may be available"
  | Ok _ =>
      let r := fold_left on_chat_chunk chunks start_reading in
      if negb (truthy (get_opt (data r) "response")) && nonempty (responseText r)
      then response_of (responseText r)
      else data r
  end.

(** [sendMessage] from the response of [fetch] to the value of [data]:
    [content_type] is the header of that name, and [chunks] and [ended]
    tell how a streamed body arrives. *)
Definition read_response (r : response) (content_type : option string)
  (chunks : list string) (ended : exc unit) : exc value :=
  if negb (ok r) then Throw (http_error r)
  else
    match content_type with
    | Some t =>
        if nonempty t && includes "text/event-stream" t
        then Ok (read_stream chunks ended)
        else Ok (match json r with
                 | Ok d => d
                 | Throw _ => response_of "Failed to parse response"
                 end)
    | None =>
        Ok (match json r with
            | Ok d => d
            | Throw _ => response_of "Failed to parse response"
            end)
    end.

(** ** Vocabulary of the statements *)

(** The text of a record that carries the piece [c] of the answer. *)
Definition says (json c : string) : Prop :=
  lacks newline json = true
  /\ c <> ""
  /\ exists d, JSON_parse json = Some d /\ get d "content" = Ok (Str c).

(** The text of a record that ends the answer. *)
Definition completes (json : string) : Prop :=
  lacks newline json = true
  /\ exists d, JSON_parse json = Some d
               /\ truthy (get_opt d "content") = false
               /\ get d "type" = Ok (Str "complete").

(** The lines of the chunks, read one after the other. *)
Definition read_lines (lines : list string) (r : reading) : reading :=
  fold_left (fun r line => on_chat_line line r) lines r.

End Reading.

Section Request.
Context {host : Host} {utils : UtilsScript} {numbers : HostNumber}.

(** The first part of the [try] block of [sendMessage]: the sources are
    prepared from [store], the request is sent, and [answer] gives, for
    the sources sent, what [fetch] and the reading of the response come
    to. *)
Definition request (store : value) (answer : list string -> exc value)
  : exc value :=
  exc_bind (prepare_sources store) answer.

End Request.

(** ** The other methods of [ChatManager] *)

(** [clearChat()]: the messages, the typing indicator among them, and the
    history are emptied; the notification that follows touches neither. *)
Definition clearChat (s : chat) : chat :=
  {| chatHistory := []; chatMessages := []; typing := false |}.

(** What happens to a chat manager: a message is sent, or the chat is
    cleared. *)
Inductive chat_event : Type :=
| Send (input : string) (request : exc value)
| Clear.

Section Session.
Context {utils : UtilsScript}.

Definition chat_step (s : chat) (e : chat_event) : chat :=
  match e with
  | Send input request => snd (sendMessage input request s)
  | Clear => clearChat s
  end.

End Session.

(** A history made of exchanges: a message of the user followed by the
    answer of the assistant, again and again. *)
Fixpoint exchanges (h : list entry) : Prop :=
  match h with
  | [] => True
  | u :: a :: rest =>
      role u = "user" /\ role a = "assistant" /\ exchanges rest
  | _ => False
  end.

End ChatRequest.

(* ================================================================== *)
(** * More of the reference host

    Executable versions of the further built-ins, and stand-ins for the
    further helpers of [Utils], for running the examples. *)

Module ReferencePage.
Import JSString JSNumber JSValue Platform Reference.
Local Open Scope Z_scope.

(** The Number of an integer, rounded to nearest when it is too large to
    be exact. *)
Definition of_integer (n : Z) : float :=
  if n =? 0 then zero
  else if n <? 0
  then (- SF2Prim (binary_normalize prec emax (- n) 0 false))%float
  else SF2Prim (binary_normalize prec emax n 0 false).

(** [Math.round(x)]: the integer nearest to [x], the greater one of two
    that are as near; [-0] for what rounds to zero from below. *)
Definition math_round (x : float) : float :=
  match Prim2SF x with
  | S754_finite s m e =>
      if 0 <=? e then x
      else
        let d := 2 ^ (- e) in
        let a := if s then - Z.pos m else Z.pos m in
        let n := (2 * a + d) / (2 * d) in
        if n =? 0 then (if s then neg_zero else zero) else of_integer n
  | _ => x
  end.

(** [x.toFixed(3)]: the decimal with three digits after the point that is
    nearest to [x], the greater one in magnitude of two that are as near;
    from [1e21] on, the text of the Number. *)
Definition to_fixed3 (x : float) : string :=
  match Prim2SF x with
  | S754_nan => "NaN"
  | S754_infinity false => "Infinity"
  | S754_infinity true => "-Infinity"
  | S754_zero _ => "0.000"
  | S754_finite s m e =>
      if (decimal_float false 1 21 <=? abs x)%float then number_to_string x
      else
        let n :=
          if 0 <=? e then Z.pos m * 2 ^ e * 1000
          else (2 * 1000 * Z.pos m + 2 ^ (- e)) / (2 * 2 ^ (- e)) in
        let ds := decimal_digits n in
        let padded := (zeros (4 - String.length ds) ++ ds)%string in
        let k := (String.length padded - 3)%nat in
        ((if s then "-" else "") ++ take k padded ++ "." ++ drop k padded)%string
  end.

#[local] Instance numbers : HostNumber := {|
  Math_round := math_round;
  toFixed3 := to_fixed3
|}.

(** A formatter of sizes, and a [showNotification] that returns. *)
Definition formatFileSize (bytes : float) : exc string :=
  Ok (number_to_string bytes ++ " Bytes")%string.

#[local] Instance page_utils : UtilsPage := {|
  Utils_formatFileSize := formatFileSize;
  Utils_showNotification := fun _ _ => Ok tt
|}.

(** The name of the error, for the message of an error of the host. *)
Definition host_message (e : error) : string :=
  match e with
  | SyntaxError => "SyntaxError"
  | TypeError => "TypeError"
  | Error m => m
  end.

End ReferencePage.

Definition reference_numbers : Platform.HostNumber := ReferencePage.numbers.
Definition reference_page_utils : Platform.UtilsPage :=
  ReferencePage.page_utils.

(* ================================================================== *)
(** * More sample data *)

Module Scenarios.
Import JSString JSNumber JSValue FileUpload Platform Xhr UploadFiles
       SearchRequest ChatRequest Samples.


(** A stream that has rejected its promise, and events that follow. *)
Definition failed_stream : stream :=
  {| buffer := ""; item := set_settled (Rejected (Str "disk full")) new_upload;
     console := [] |}.
Definition late_events : list xhr_event :=
  [ReadyStateChange 4 (terminated [data_line complete_json]);
   Load 500 "Internal Server Error"; NetworkError; Aborted].


(** A record of a type that the handlers do not know. *)
Definition heartbeat_record : value := Obj [("type", Str "heartbeat")].

(** Two pieces of a caption. *)
Definition caption_records : list value :=
  [Obj [("type", Str "progress"); ("percent", Num 30);
        ("stage", Str "CAPTION_CHUNK:a cat")];
   Obj [("type", Str "progress"); ("percent", Num 35);
        ("stage", Str "CAPTION_CHUNK: on a mat")]].

(** A stage with text read from the image, the prefix occurring twice. *)
Definition ocr_record : value :=
  Obj [("type", Str "progress"); ("percent", Num 60);
       ("stage", Str "OCR_TEXT:EXIT OCR_TEXT:12")].

(** A [complete] record whose keywords are not a list. *)
Definition unrenderable_record : value :=
  Obj [("type", Str "complete"); ("document_id", Str "d");
       ("keywords", Str "k")].

(** Three files: one without an upload function, an image and a PDF. *)
Definition notes_file : file :=
  {| name := "notes.txt"; type := "text/plain"; size := 120 |}.
Definition photo_file : file :=
  {| name := "Photo.PNG"; type := "image/png"; size := 2048 |}.
Definition paper_file : file :=
  {| name := "paper.PDF"; type := ""; size := 4096 |}.

(** The events of a request that ends with a [complete] record, of one
    that ends with an [error] record, and of one that ends with neither. *)
Definition complete_stream : list xhr_event :=
  [UploadProgress true 2048 2048;
   ReadyStateChange 3 (terminated [data_line progress_json]);
   ReadyStateChange 4
     (terminated [data_line progress_json; data_line complete_json]);
   Load 200 "OK"].
Definition error_stream : list xhr_event :=
  [ReadyStateChange 4 (terminated [data_line error_json]); Load 200 "OK"].
Definition open_stream : list xhr_event :=
  [ReadyStateChange 4 (terminated [data_line progress_json]); Load 200 "OK"].

(** Responses of the search engine and of the agent. *)
Definition ok_response (body : exc value) : response :=
  {| ok := true; status := 200; statusText := "OK"; json := body |}.
Definition error_body : value := Obj [("detail", Str "index not ready")].

(** An image result without an [id]. *)
Definition captioned_result : value := Obj [("caption", Str "a cat")].

(** The records of a streamed answer. *)
Definition hel_json : string := dq "{'content':'Hel'}".
Definition lo_json : string := dq "{'type':'chunk','content':'lo'}".
Definition done_json : string := dq "{'type':'complete'}".

Definition empty_chat : Chat.chat :=
  {| Chat.chatHistory := []; Chat.chatMessages := []; Chat.typing := false |}.

(** Two messages, a clearing and a third message. *)
Definition session : list chat_event :=
  [Send "hello" (Ok reply); Send "again" (Throw TypeError); Clear;
   Send "and now?" (Ok reply)].

End Scenarios.

(* ================================================================== *)
(** * Part II: facts and theorems *)

(* ================================================================== *)
(** * Facts about strings *)

Module JSStringFacts.
Import JSString.

Lemma append_nil_r (s : string) : s ++ "" = s.
Proof. induction s as [|c s IH]; simpl; [reflexivity | now rewrite IH]. Qed.

Lemma append_assoc (a b c : string) : (a ++ b) ++ c = a ++ (b ++ c).
Proof. induction a as [|x a IH]; simpl; [reflexivity | now rewrite IH]. Qed.

Lemma length_append (a b : string) :
  String.length (a ++ b) = String.length a + String.length b.
Proof. induction a as [|x a IH]; simpl; [reflexivity | now rewrite IH]. Qed.

Lemma drop_length_append (a b : string) : drop (String.length a) (a ++ b) = b.
Proof. induction a as [|x a IH]; simpl; [now destruct b | exact IH]. Qed.

Lemma drop_all (s : string) : drop (String.length s) s = "".
Proof. induction s as [|x s IH]; simpl; [reflexivity | exact IH]. Qed.

Lemma take_length_append (a b : string) : take (String.length a) (a ++ b) = a.
Proof. induction a as [|x a IH]; simpl; [now destruct b | now rewrite IH]. Qed.

Lemma startsWith_append (p s : string) : startsWith p (p ++ s) = true.
Proof.
  unfold startsWith. induction p as [|c p IH]; simpl.
  - now destruct s.
  - destruct (ascii_dec c c) as [_|N]; [exact IH | now elim N].
Qed.

Lemma startsWith_empty (p : string) : p <> "" -> startsWith p "" = false.
Proof. unfold startsWith. destruct p; [congruence | reflexivity]. Qed.

Lemma split_nonnil (sep : ascii) (s : string) : split sep s <> [].
Proof.
  destruct s as [|c s]; simpl; [discriminate|].
  destruct (Ascii.eqb c sep); [discriminate|].
  destruct (split sep s); discriminate.
Qed.

(** A piece free of the separator, followed by the separator, is split
    off whole. *)
Lemma split_line (sep : ascii) (l rest : string) :
  lacks sep l = true ->
  split sep (l ++ String sep rest) = l :: split sep rest.
Proof.
  induction l as [|c l IH]; simpl; intros H.
  - now rewrite Ascii.eqb_refl.
  - apply andb_prop in H as [Hc Hl].
    apply negb_true_iff in Hc. rewrite Hc, (IH Hl). reflexivity.
Qed.

Lemma replace_unfold (pat rep s : string) :
  replace pat rep s =
  if startsWith pat s then rep ++ drop (String.length pat) s
  else match s with
       | EmptyString => EmptyString
       | String c s' => String c (replace pat rep s')
       end.
Proof. destruct s; reflexivity. Qed.

Lemma replace_prefix (p s : string) : replace p "" (p ++ s) = s.
Proof.
  rewrite replace_unfold, startsWith_append. apply drop_length_append.
Qed.

(** ** Words *)









End JSStringFacts.

(* ================================================================== *)
(** * Facts about numbers *)

Module JSNumberFacts.
Import JSNumber.
Local Open Scope Z_scope.

(** ** Binary64 facts used for the progress estimates

    The quotient of two integers [d <= n] below [2^53] is at least one,
    so that [Math.min(n / d, 1)] is exactly one. *)

Lemma digits2_size (p : positive) : digits2_pos p = Pos.size p.
Proof. induction p; simpl; congruence. Qed.

Lemma size_bounds (p : positive) :
  (2 ^ (Z.pos (Pos.size p) - 1) <= Z.pos p < 2 ^ Z.pos (Pos.size p))%Z.
Proof.
  split.
  - pose proof (Pos.size_le p) as H.
    assert (Z.pos (2 ^ Pos.size p) <= Z.pos (p~0))%Z as H' by exact H.
    rewrite Pos2Z.inj_pow in H'.
    replace (Z.pos (Pos.size p)) with (Z.succ (Z.pos (Pos.size p) - 1)) in H' by lia.
    rewrite Z.pow_succ_r in H' by lia. lia.
  - pose proof (Pos.size_gt p) as H.
    assert (Z.pos p < Z.pos (2 ^ Pos.size p))%Z as H' by exact H.
    now rewrite Pos2Z.inj_pow in H'.
Qed.

Lemma digits_of_bounds (p : positive) (n : Z) :
  (0 < n)%Z -> (2 ^ (n - 1) <= Z.pos p < 2 ^ n)%Z -> Z.pos (digits2_pos p) = n.
Proof.
  intros Hn [Hlo Hhi]. rewrite digits2_size.
  destruct (size_bounds p) as [Slo Shi].
  set (k := Z.pos (Pos.size p)) in *.
  assert (0 < k)%Z by (unfold k; lia).
  destruct (Z.lt_trichotomy k n) as [L|[E|G]]; [|exact E|].
  - assert (2 ^ k <= 2 ^ (n - 1))%Z by (apply Z.pow_le_mono_r; lia). lia.
  - assert (2 ^ n <= 2 ^ (k - 1))%Z by (apply Z.pow_le_mono_r; lia). lia.
Qed.


Lemma fexp_normal (e : Z) : -1021 <= e -> fexp prec emax e = e - 53.
Proof. intros H. unfold fexp, SpecFloat.emin, prec, emax. lia. Qed.

Lemma shr_m_shr_1 (m : Z) (r s : bool) :
  0 <= m -> shr_m (shr_1 (Build_shr_record m r s)) = m / 2.
Proof.
  intros H. rewrite <- Z.div2_div.
  destruct m as [|p|p]; [reflexivity| |lia].
  destruct p; reflexivity.
Qed.

Lemma shr_fexp_keep (m : positive) (e : Z) (l : location) :
  2 ^ 52 <= Z.pos m < 2 ^ 53 -> -1074 <= e ->
  shr_fexp prec emax (Z.pos m) e l = (shr_record_of_loc (Z.pos m) l, e).
Proof.
  intros Hm He. unfold shr_fexp. cbn [Zdigits2].
  rewrite (digits_of_bounds m 53) by (simpl; lia).
  rewrite fexp_normal by lia.
  replace (53 + e - 53 - e) with 0 by lia. reflexivity.
Qed.

Lemma shr_fexp_halve (m : positive) (e : Z) (l : location) :
  2 ^ 53 <= Z.pos m < 2 ^ 54 -> -1075 <= e ->
  shr_fexp prec emax (Z.pos m) e l = (shr_1 (shr_record_of_loc (Z.pos m) l), e + 1).
Proof.
  intros Hm He. unfold shr_fexp. cbn [Zdigits2].
  rewrite (digits_of_bounds m 54) by (simpl; lia).
  rewrite fexp_normal by lia.
  replace (54 + e - 53 - e) with 1 by lia. reflexivity.
Qed.

Lemma round_nearest_even_bounds (m : Z) (l : location) :
  m <= round_nearest_even m l <= m + 1.
Proof.
  unfold round_nearest_even.
  destruct l as [|[| |]]; try lia. destruct (Z.even m); lia.
Qed.

(** A finite or infinite positive float that is at least one. *)
Definition at_least_one (x : spec_float) : Prop :=
  x = S754_infinity false \/
  exists m e, x = S754_finite false m e /\ 2 ^ 52 <= Z.pos m /\ -52 <= e.

Lemma shr_record_of_loc_m (m : Z) (l : location) : shr_m (shr_record_of_loc m l) = m.
Proof. destruct l as [|[| |]]; reflexivity. Qed.

(** Second half of [binary_round_aux]: a mantissa of 53 bits, or [2^53],
    at an exponent of at least -52. *)
Lemma round_finish (r e : Z) :
  2 ^ 52 <= r <= 2 ^ 53 -> -52 <= e ->
  at_least_one
    (let '(mrs, e') := shr_fexp prec emax r e loc_Exact in
     match shr_m mrs with
     | Z0 => S754_zero false
     | Zpos m => if e' <=? emax - prec then S754_finite false m e' else S754_infinity false
     | Zneg _ => S754_nan
     end).
Proof.
  intros Hr He.
  destruct r as [|p|p]; try lia.
  destruct (Z.eq_dec (Z.pos p) (2 ^ 53)) as [E|N].
  - rewrite shr_fexp_halve by lia.
    rewrite E. cbn [shr_record_of_loc]. rewrite shr_m_shr_1 by lia.
    change (2 ^ 53 / 2) with (Z.pos (2 ^ 52)).
    destruct (e + 1 <=? emax - prec); [right|left; reflexivity].
    eexists _, _. split; [reflexivity|]. split; [reflexivity | lia].
  - rewrite shr_fexp_keep by lia. cbn [shr_record_of_loc shr_m].
    destruct (e <=? emax - prec); [right|left; reflexivity].
    eexists _, _. split; [reflexivity|]. lia.
Qed.

Lemma binary_round_aux_at_least_one (q e : Z) (l : location) :
  (2 ^ 53 <= q < 2 ^ 54 /\ -53 <= e) \/ (2 ^ 52 <= q < 2 ^ 53 /\ -52 <= e) ->
  at_least_one (binary_round_aux prec emax false q e l).
Proof.
  intros H. unfold binary_round_aux.
  destruct q as [|p|p]; try lia.
  destruct H as [[Hq He]|[Hq He]].
  - rewrite shr_fexp_halve by lia.
    set (mrs := shr_1 (shr_record_of_loc (Z.pos p) l)).
    assert (Hm : shr_m mrs = Z.pos p / 2).
    { unfold mrs. destruct l as [|[| |]]; cbn [shr_record_of_loc]; apply shr_m_shr_1; lia. }
    pose proof (round_nearest_even_bounds (shr_m mrs) (loc_of_shr_record mrs)) as Hr.
    rewrite Hm in Hr.
    assert (2 ^ 52 <= Z.pos p / 2 < 2 ^ 53).
    { split; [apply Z.div_le_lower_bound | apply Z.div_lt_upper_bound]; lia. }
    rewrite Hm. apply round_finish; lia.
  - rewrite shr_fexp_keep by lia.
    rewrite shr_record_of_loc_m.
    pose proof (round_nearest_even_bounds (Z.pos p)
                  (loc_of_shr_record (shr_record_of_loc (Z.pos p) l))) as Hr.
    apply round_finish; lia.
Qed.

Lemma SFdiv_at_least_one (mx my : positive) (ex ey : Z) :
  2 ^ 52 <= Z.pos mx < 2 ^ 53 -> 2 ^ 52 <= Z.pos my < 2 ^ 53 ->
  ey < ex \/ (ex = ey /\ Z.pos my <= Z.pos mx) ->
  at_least_one (SFdiv prec emax (S754_finite false mx ex) (S754_finite false my ey)).
Proof.
  intros Hx Hy Hord.
  unfold SFdiv, SFdiv_core_binary. cbn [Zdigits2 xorb].
  rewrite (digits_of_bounds mx 53), (digits_of_bounds my 53) by (simpl; lia).
  rewrite fexp_normal by lia.
  rewrite Z.min_l by lia.
  replace (ex - ey - (53 + ex - (53 + ey) - 53)) with 53 by lia.
  rewrite Z.shiftl_mul_pow2 by lia.
  pose proof (Z_div_mod (Z.pos mx * 2 ^ 53) (Z.pos my) eq_refl) as D.
  destruct (Z.div_eucl (Z.pos mx * 2 ^ 53) (Z.pos my)) as [q r].
  destruct D as [D Hr].
  apply binary_round_aux_at_least_one.
  destruct Hord as [Hlt | [-> Hle]].
  - assert (2 ^ 52 <= q < 2 ^ 54) by nia.
    destruct (Z_lt_le_dec q (2 ^ 53)); [right | left]; lia.
  - left. split; [nia | lia].
Qed.

Lemma iter_xO_pow (m k : positive) : Z.pos (Pos.iter xO m k) = Z.pos m * 2 ^ Z.pos k.
Proof.
  induction k as [|k IH] using Pos.peano_ind.
  - simpl. lia.
  - rewrite Pos.iter_succ, Pos2Z.inj_succ, Z.pow_succ_r by lia.
    rewrite Pos2Z.inj_xO, IH. lia.
Qed.

(** An integer below [2^53] is converted exactly: its 53-bit normal form. *)
Lemma binary_normalize_exact (m : positive) :
  Z.pos m < 2 ^ 53 ->
  exists m' : positive,
    binary_normalize prec emax (Z.pos m) 0 false
      = S754_finite false m' (Z.pos (digits2_pos m) - 53)
    /\ Z.pos m' = Z.pos m * 2 ^ (53 - Z.pos (digits2_pos m))
    /\ 2 ^ 52 <= Z.pos m' < 2 ^ 53.
Proof.
  intros Hm.
  set (d := Z.pos (digits2_pos m)).
  assert (Hd : 2 ^ (d - 1) <= Z.pos m < 2 ^ d).
  { unfold d. rewrite digits2_size. apply size_bounds. }
  assert (Hd53 : 0 < d <= 53).
  { split; [unfold d; lia|].
    destruct (Z_le_gt_dec d 53) as [L|G]; [exact L|].
    assert (2 ^ 53 <= 2 ^ (d - 1)) by (apply Z.pow_le_mono_r; lia). lia. }
  assert (Hshift : exists m' : positive,
             shl_align m 0 (d - 53) = (m', d - 53)
             /\ Z.pos m' = Z.pos m * 2 ^ (53 - d)).
  { unfold shl_align. destruct (d - 53 - 0) as [|k|k] eqn:E; try lia.
    - exists m. replace (d - 53) with 0 by lia. split; [reflexivity|].
      replace (53 - 0) with 53 by lia. replace d with 53 by lia. simpl. lia.
    - eexists. split; [reflexivity|]. rewrite iter_xO_pow.
      replace (53 - d) with (Z.pos k) by lia. reflexivity. }
  destruct Hshift as (m' & Hsh & Hval).
  assert (Hm' : 2 ^ 52 <= Z.pos m' < 2 ^ 53).
  { rewrite Hval.
    replace (2 ^ 52) with (2 ^ (d - 1) * 2 ^ (53 - d))
      by (rewrite <- Z.pow_add_r by lia; f_equal; lia).
    replace (2 ^ 53) with (2 ^ d * 2 ^ (53 - d))
      by (rewrite <- Z.pow_add_r by lia; f_equal; lia).
    assert (0 < 2 ^ (53 - d)) by (apply Z.pow_pos_nonneg; lia).
    nia. }
  exists m'. split; [|split; assumption].
  unfold binary_normalize, binary_round.
  fold d. rewrite Z.add_0_r, fexp_normal by lia. rewrite Hsh.
  unfold binary_round_aux.
  rewrite shr_fexp_keep by lia. cbn [shr_record_of_loc shr_m loc_of_shr_record round_nearest_even].
  rewrite shr_fexp_keep by lia. cbn [shr_record_of_loc shr_m].
  replace (d - 53 <=? emax - prec) with true; [reflexivity|].
  symmetry. apply Z.leb_le. unfold emax, prec. lia.
Qed.

(** The Number of a positive integer below [2^53]. *)
Lemma Prim2SF_of_nat (n : nat) :
  (0 < n)%nat -> Z.of_nat n < 2 ^ 53 ->
  exists m : positive,
    Prim2SF (of_nat n)
      = S754_finite false m (Z.pos (digits2_pos (Pos.of_nat n)) - 53)
    /\ Z.pos m = Z.of_nat n * 2 ^ (53 - Z.pos (digits2_pos (Pos.of_nat n)))
    /\ 2 ^ 52 <= Z.pos m < 2 ^ 53.
Proof.
  intros Hpos Hlt. unfold of_nat.
  rewrite of_uint63_spec, Uint63.of_Z_spec.
  rewrite Z.mod_small
    by (split; [lia | apply Z.lt_trans with (2 ^ 53); [exact Hlt | reflexivity]]).
  assert (E : Z.of_nat n = Z.pos (Pos.of_nat n)).
  { destruct n; [lia|]. now rewrite <- Pos.of_nat_succ, Zpos_P_of_succ_nat, Nat2Z.inj_succ. }
  rewrite E in Hlt |- *.
  destruct (binary_normalize_exact (Pos.of_nat n) Hlt) as (m & H1 & H2 & H3).
  exists m. auto.
Qed.

(** The quotient of an integer by a smaller positive one is at least one. *)
Lemma div_at_least_one (n d : nat) :
  (0 < d <= n)%nat -> Z.of_nat n < 2 ^ 53 ->
  at_least_one (Prim2SF (of_nat n / of_nat d)).
Proof.
  intros [Hd Hdn] Hn.
  destruct (Prim2SF_of_nat n) as (mx & Ex & Vx & Bx); [lia | exact Hn |].
  destruct (Prim2SF_of_nat d) as (my & Ey & Vy & By); [lia | lia |].
  rewrite FloatAxioms.div_spec, Ex, Ey. unfold SF64div.
  set (dx := Z.pos (digits2_pos (Pos.of_nat n))) in *.
  set (dy := Z.pos (digits2_pos (Pos.of_nat d))) in *.
  assert (Hx : 2 ^ (dx - 1) <= Z.of_nat n < 2 ^ dx).
  { unfold dx. rewrite digits2_size.
    replace (Z.of_nat n) with (Z.pos (Pos.of_nat n)); [apply size_bounds|].
    destruct n; [lia|]. now rewrite <- Pos.of_nat_succ, Zpos_P_of_succ_nat, Nat2Z.inj_succ. }
  assert (Hy : 2 ^ (dy - 1) <= Z.of_nat d < 2 ^ dy).
  { unfold dy. rewrite digits2_size.
    replace (Z.of_nat d) with (Z.pos (Pos.of_nat d)); [apply size_bounds|].
    destruct d; [lia|]. now rewrite <- Pos.of_nat_succ, Zpos_P_of_succ_nat, Nat2Z.inj_succ. }
  assert (Hdx : 0 < dx) by (unfold dx; lia).
  assert (Hdy : 0 < dy) by (unfold dy; lia).
  assert (Hle : dy <= dx).
  { destruct (Z_le_gt_dec dy dx) as [L|G]; [exact L|].
    assert (2 ^ dx <= 2 ^ (dy - 1)) by (apply Z.pow_le_mono_r; lia). lia. }
  apply SFdiv_at_least_one; [exact Bx | exact By |].
  destruct (Z.eq_dec dx dy) as [E|N]; [right | left; lia].
  split; [lia|]. rewrite Vx, Vy, E.
  apply Z.mul_le_mono_nonneg_r; [apply Z.pow_nonneg|]; lia.
Qed.

Lemma at_least_one_not_nan (x : float) :
  at_least_one (Prim2SF x) -> is_nan x = false.
Proof.
  intros H. unfold is_nan. rewrite FloatAxioms.eqb_spec. unfold SFeqb.
  destruct H as [-> | (m & e & -> & _)]; simpl; [reflexivity|].
  now rewrite Z.compare_refl, Pos.compare_cont_refl.
Qed.

Lemma at_least_one_not_below (x : float) :
  at_least_one (Prim2SF x) -> (x <? 1)%float = false.
Proof.
  intros H. rewrite FloatAxioms.ltb_spec. unfold SFltb.
  change (Prim2SF 1) with (S754_finite false (Z.to_pos (2 ^ 52)) (-52)).
  assert (Hk : Z.pos (Z.to_pos (2 ^ 52)) = 2 ^ 52) by reflexivity.
  revert Hk. generalize (Z.to_pos (2 ^ 52)). intros k Hk.
  destruct H as [-> | (m & e & -> & Hm & He)]; unfold SFcompare;
    [reflexivity|].
  destruct (Z.compare_spec e (-52)) as [E|L|G]; [|lia|reflexivity].
  rewrite Pos.compare_cont_spec.
  destruct (Pos.compare_spec m k) as [C|C|C]; try reflexivity.
  exfalso. assert (Z.pos m < Z.pos k) by exact C. lia.
Qed.

Lemma at_least_one_not_neg_zero (x : float) :
  at_least_one (Prim2SF x) -> is_neg_zero x = false.
Proof.
  intros H. unfold is_neg_zero. rewrite classify_spec.
  unfold SF64classify, SFclassify.
  destruct H as [-> | (m & e & -> & _)]; [reflexivity|].
  destruct (Z.eqb (Z.pos (digits2_pos m)) prec); reflexivity.
Qed.

(** [Math.min(x, 1)] is one as soon as [x] is at least one. *)
Lemma Math_min_saturates (x : float) :
  at_least_one (Prim2SF x) -> Math_min x 1 = 1%float.
Proof.
  intros H. unfold Math_min.
  rewrite (at_least_one_not_nan x H), (at_least_one_not_below x H),
    (at_least_one_not_neg_zero x H).
  change (is_nan 1) with false. simpl.
  now destruct (1 <? x)%float.
Qed.

(** [Math.min(n / d, 1)] for integers [0 < d <= n] below [2^53]. *)
Lemma Math_min_quotient_saturates (n d : nat) :
  (0 < d <= n)%nat -> Z.of_nat n < 2 ^ 53 ->
  Math_min (of_nat n / of_nat d) 1 = 1%float.
Proof. intros H Hn. apply Math_min_saturates. now apply div_at_least_one. Qed.


End JSNumberFacts.

(* ================================================================== *)
(** * Facts about the stream decoder *)

Module StreamFacts.
Import JSString JSNumber JSValue FileUpload JSStringFacts.

Section Decoder.
Context {host : Host} {utils : UtilsScript}.

Lemma split_terminated (lines : list string) :
  Forall (fun l => lacks newline l = true) lines ->
  split newline (terminated lines) = (lines ++ [""])%list.
Proof.
  induction 1 as [|l rest Hl _ IH]; simpl; [reflexivity|].
  rewrite (split_line newline l _ Hl). now rewrite IH.
Qed.

Lemma on_lines_app (f : value -> M unit) (l1 l2 : list string) (u : upload) :
  on_lines f (l1 ++ l2) u =
  let '(u1, out1) := on_lines f l1 u in
  let '(u2, out2) := on_lines f l2 u1 in
  (u2, (out1 ++ out2)%list).
Proof.
  revert u. induction l1 as [|l l1 IH]; intros u; simpl.
  - now destruct (on_lines f l2 u).
  - destruct (on_line f l u) as [u1 o1]. rewrite IH.
    destruct (on_lines f l1 u1) as [u2 o2].
    destruct (on_lines f l2 u2) as [u3 o3].
    now rewrite app_assoc.
Qed.

Lemma on_line_blank (f : value -> M unit) (u : upload) :
  on_line f "" u = (u, []).
Proof. reflexivity. Qed.

(** A record whose text parses is handed to the handler; what the handler
    throws is logged after what it logged itself. *)
Lemma on_line_data (f : value -> M unit) (json : string) (data : value)
  (u : upload) :
  JSON_parse json = Some data ->
  on_line f (data_line json) u =
  (fst (snd (f data (u, []))),
   match fst (f data (u, [])) with
   | Ok _ => snd (snd (f data (u, [])))
   | Throw e => (snd (snd (f data (u, []))) ++ [LogError e])%list
   end).
Proof.
  intros H. unfold on_line, data_line.
  rewrite startsWith_append.
  change (drop 6 ("data: " ++ json)) with json. rewrite H.
  destruct (f data (u, [])) as [[[]|e] [u' out]]; reflexivity.
Qed.

(** A record whose text does not parse changes nothing and logs the
    error. *)
Lemma on_line_malformed (f : value -> M unit) (json : string) (u : upload) :
  JSON_parse json = None ->
  on_line f (data_line json) u = (u, [LogError SyntaxError]).
Proof.
  intros H. unfold on_line, data_line.
  rewrite startsWith_append.
  change (drop 6 ("data: " ++ json)) with json. now rewrite H.
Qed.

(** ** Relations kept by every statement of a handler

    [keeps R c]: whatever state [c] starts from, the state it ends in,
    normally or by a throw, is related to it by [R]. *)
Section Keeps.
Variable R : upload * list log_entry -> upload * list log_entry -> Prop.
Hypothesis R_refl : forall s, R s s.
Hypothesis R_trans : forall s1 s2 s3, R s1 s2 -> R s2 s3 -> R s1 s3.

Definition keeps {A : Type} (c : M A) : Prop := forall s, R s (snd (c s)).

Lemma keeps_ret {A : Type} (a : A) : keeps (ret a).
Proof. intros s. apply R_refl. Qed.

Lemma keeps_lift {A : Type} (x : exc A) : keeps (lift x).
Proof. intros s. apply R_refl. Qed.

Lemma keeps_read {A : Type} (f : upload -> A) : keeps (read f).
Proof. intros s. apply R_refl. Qed.

Lemma keeps_bind {A B : Type} (c : M A) (k : A -> M B) :
  keeps c -> (forall a, keeps (k a)) -> keeps (bind c k).
Proof.
  intros Hc Hk s. unfold bind. specialize (Hc s).
  destruct (c s) as [[a|e] s']; simpl in *; [|exact Hc].
  eapply R_trans; [exact Hc | apply Hk].
Qed.

Lemma keeps_assign (f : upload -> upload) :
  (forall u l, R (u, l) (f u, l)) -> keeps (assign f).
Proof. intros H [u l]. apply H. Qed.

Lemma keeps_console_log (e : log_entry) :
  (forall u l, R (u, l) (u, (l ++ [e])%list)) -> keeps (console_log e).
Proof. intros H [u l]. apply H. Qed.

End Keeps.

(** A statement is decomposed along its binds and branches; the
    assignments and console lines are left to [leaf]. *)
Ltac keeps_steps refl trans leaf :=
  repeat first
    [ apply (keeps_bind _ trans); [|intros ?]
    | apply (keeps_ret _ refl)
    | apply (keeps_lift _ refl)
    | apply (keeps_read _ refl)
    | apply keeps_assign; intros ? ?; leaf
    | apply keeps_console_log; intros ? ?; leaf
    | match goal with
      | |- keeps _ (if ?b then _ else _) => destruct b
      | |- keeps _ (match ?x with _ => _ end) => destruct x
      end ].

(** *** The console: after the line for the parsed record, a handler
    logs no further record as parsed *)
Definition quiet (s s' : upload * list log_entry) : Prop :=
  exists out, snd s' = (snd s ++ out)%list /\ parsed_entries out = [].

Lemma quiet_refl (s : upload * list log_entry) : quiet s s.
Proof. exists []. now rewrite app_nil_r. Qed.

Lemma quiet_trans (s1 s2 s3 : upload * list log_entry) :
  quiet s1 s2 -> quiet s2 s3 -> quiet s1 s3.
Proof.
  intros (o1 & E1 & P1) (o2 & E2 & P2). exists (o1 ++ o2)%list.
  rewrite E2, E1, app_assoc. split; [reflexivity|].
  clear E1 E2. induction o1 as [|e o1 IH]; simpl in *; [exact P2|].
  destruct e; try discriminate; auto.
Qed.

Ltac quiet_leaf :=
  first [ exists []; split; [simpl; now rewrite app_nil_r | reflexivity]
        | eexists [_]; split; reflexivity ].

Lemma displayUploadResults_quiet (data : value) :
  keeps quiet (displayUploadResults data).
Proof.
  unfold displayUploadResults, keywords_text.
  keeps_steps quiet_refl quiet_trans quiet_leaf.
Qed.

Lemma pdf_structured_chunk_quiet (chunk : string) :
  keeps quiet (pdf_structured_chunk chunk).
Proof.
  unfold pdf_structured_chunk, displayStreamingJsonChunk.
  keeps_steps quiet_refl quiet_trans quiet_leaf.
Qed.

(** Every handler logs the parsed record once, first. *)
Lemma on_data_log (k : file_kind) (data : value) (u : upload)
  (l : list log_entry) :
  exists out,
    snd (snd (on_data k data (u, l))) = (l ++ LogParsed data :: out)%list
    /\ parsed_entries out = [].
Proof.
  assert (H : forall rest : M unit, keeps quiet rest ->
            exists out,
              snd (snd (bind (console_log (LogParsed data)) (fun _ => rest) (u, l)))
              = (l ++ LogParsed data :: out)%list
              /\ parsed_entries out = []).
  { intros rest Hrest. unfold bind, console_log. simpl.
    destruct (Hrest (u, (l ++ [LogParsed data])%list)) as (out & E & P).
    exists out. simpl in E. rewrite E, <- app_assoc. now split. }
  pose proof displayUploadResults_quiet. pose proof pdf_structured_chunk_quiet.
  destruct k; apply H;
    unfold image_on_progress, pdf_on_progress, on_complete, on_error;
    keeps_steps quiet_refl quiet_trans quiet_leaf; auto.
Qed.

(** *** The promise *)

(** Statements that leave a part [f] of the upload as it is; for the
    promise, [f] is [settled]. *)
Definition kept {A : Type} (f : upload -> A) (s s' : upload * list log_entry)
  : Prop :=
  f (fst s') = f (fst s).

Lemma kept_refl {A : Type} (f : upload -> A) (s : upload * list log_entry) :
  kept f s s.
Proof. reflexivity. Qed.

Lemma kept_trans {A : Type} (f : upload -> A)
  (s1 s2 s3 : upload * list log_entry) :
  kept f s1 s2 -> kept f s2 s3 -> kept f s1 s3.
Proof. unfold kept. congruence. Qed.

Ltac kept_steps f :=
  keeps_steps (kept_refl f) (kept_trans f) ltac:(reflexivity).

Lemma displayUploadResults_kept_settled (data : value) :
  keeps (kept settled) (displayUploadResults data).
Proof. unfold displayUploadResults, keywords_text. kept_steps settled. Qed.


Lemma on_progress_kept_settled (k : file_kind) (data : value) :
  keeps (kept settled)
    (match k with
     | ImageFile => image_on_progress data
     | PdfFile => pdf_on_progress data
     end).
Proof.
  destruct k;
    unfold image_on_progress, pdf_on_progress, pdf_structured_chunk,
      displayStreamingJsonChunk;
    kept_steps settled.
Qed.

(** Statements that leave a settled promise as it is. *)
Definition frozen (s s' : upload * list log_entry) : Prop :=
  settled (fst s) <> Pending -> settled (fst s') = settled (fst s).

Lemma frozen_refl (s : upload * list log_entry) : frozen s s.
Proof. intros _. reflexivity. Qed.

Lemma frozen_trans (s1 s2 s3 : upload * list log_entry) :
  frozen s1 s2 -> frozen s2 s3 -> frozen s1 s3.
Proof. unfold frozen. intros H12 H23 H. rewrite H23; rewrite H12; auto. Qed.

Lemma kept_settled_frozen {A : Type} (c : M A) :
  keeps (kept settled) c -> keeps frozen c.
Proof. intros H s _. apply H. Qed.

Ltac frozen_leaf :=
  first [ intros _; reflexivity
        | let H := fresh in
          intros H; simpl in *;
          match goal with
          | |- context [settled ?u] => destruct (settled u); try reflexivity; now elim H
          end ].

Lemma on_data_frozen (k : file_kind) (data : value) :
  keeps frozen (on_data k data).
Proof.
  pose proof (kept_settled_frozen _ (displayUploadResults_kept_settled data)).
  pose proof (kept_settled_frozen _ (on_progress_kept_settled ImageFile data)).
  pose proof (kept_settled_frozen _ (on_progress_kept_settled PdfFile data)).
  destruct k; unfold on_data, image_on_data, pdf_on_data, on_complete, on_error;
    keeps_steps frozen_refl frozen_trans frozen_leaf; auto.
Qed.

(** Once the promise is settled, no record changes it. *)
Lemma dispatch_frozen (k : file_kind) (data : value) (u : upload) :
  settled u <> Pending -> settled (dispatch k data u) = settled u.
Proof. intros H. exact (on_data_frozen k data (u, []) H). Qed.

(** The upload after one line: unchanged, or one record dispatched. *)
Lemma on_line_upload (k : file_kind) (line : string) (u : upload) :
  fst (on_line (on_data k) line u) = u
  \/ exists data,
       startsWith "data: " line = true
       /\ JSON_parse (drop 6 line) = Some data
       /\ fst (on_line (on_data k) line u) = dispatch k data u.
Proof.
  unfold on_line. destruct (startsWith "data: " line); [|now left].
  destruct (JSON_parse (drop 6 line)) as [data|]; [|now left].
  right. exists data. split; [reflexivity|]. split; [reflexivity|].
  unfold dispatch. destruct (on_data k data (u, [])) as [[[]|e] [u' out]];
    reflexivity.
Qed.

Lemma on_lines_frozen (k : file_kind) (lines : list string) (u : upload) :
  settled u <> Pending ->
  settled (fst (on_lines (on_data k) lines u)) = settled u.
Proof.
  revert u. induction lines as [|line lines IH]; intros u H; simpl; [reflexivity|].
  assert (E : settled (fst (on_line (on_data k) line u)) = settled u).
  { destruct (on_line_upload k line u) as [-> | (data & _ & _ & ->)];
      [reflexivity | now apply dispatch_frozen]. }
  destruct (on_line (on_data k) line u) as [u1 o1]. simpl in E.
  specialize (IH u1). destruct (on_lines (on_data k) lines u1) as [u2 o2].
  simpl in *. rewrite IH; congruence.
Qed.

(** A record that is not terminal leaves the promise as it is. *)
Lemma dispatch_not_terminal (k : file_kind) (data : value) (u : upload) :
  terminal data = false -> settled (dispatch k data u) = settled u.
Proof.
  intros H. unfold terminal, get_opt in H. apply orb_false_elim in H as [Hc He].
  assert (G : forall progress : M unit, keeps (kept settled) progress ->
            settled (fst (snd (bind (console_log (LogParsed data))
              (fun _ => bind (lift (get data "type")) (fun type =>
                 if is_str type "progress" then progress
                 else if is_str type "complete" then on_complete data
                 else if is_str type "error" then on_error data
                 else ret tt)) (u, [])))) = settled u).
  { intros progress Hp. unfold bind, console_log, lift. simpl.
    destruct (get data "type") as [type|e]; [|reflexivity].
    destruct (is_str type "progress"); [apply (Hp (u, _))|].
    rewrite Hc, He. reflexivity. }
  destruct k; apply G.
  - exact (on_progress_kept_settled ImageFile data).
  - exact (on_progress_kept_settled PdfFile data).
Qed.


(** Whether [displayUploadResults] throws depends on the record alone. *)
Definition same_result {A : Type} (c : M A) : Prop :=
  forall s s0, fst (c s) = fst (c s0).

Lemma same_result_bind {A B : Type} (c : M A) (k : A -> M B) :
  same_result c -> (forall a, same_result (k a)) -> same_result (bind c k).
Proof.
  intros Hc Hk s s0. unfold bind. specialize (Hc s s0).
  destruct (c s) as [[a|e] s'], (c s0) as [[a0|e0] s0']; simpl in Hc;
    try discriminate; inversion Hc; subst; [apply Hk | reflexivity].
Qed.

Lemma displayUploadResults_same_result (data : value) :
  same_result (displayUploadResults data).
Proof.
  unfold displayUploadResults, keywords_text.
  repeat first
    [ apply same_result_bind; [|intros ?]
    | match goal with
      | |- same_result (if ?b then _ else _) => destruct b
      end
    | intros ? ?; reflexivity ].
Qed.



(** The handlers at a record of a given type. *)
Lemma on_data_complete (k : file_kind) (data : value)
  (s : upload * list log_entry) :
  get data "type" = Ok (Str "complete") ->
  on_data k data s = on_complete data (fst s, (snd s ++ [LogParsed data])%list).
Proof.
  intros Ht. destruct k; unfold on_data, image_on_data, pdf_on_data;
    unfold bind at 1 2, console_log, lift; simpl; rewrite Ht; reflexivity.
Qed.


Lemma on_data_progress (k : file_kind) (data : value)
  (s : upload * list log_entry) :
  get data "type" = Ok (Str "progress") ->
  on_data k data s =
  match k with
  | ImageFile => image_on_progress data
  | PdfFile => pdf_on_progress data
  end (fst s, (snd s ++ [LogParsed data])%list).
Proof.
  intros Ht. destruct k; unfold on_data, image_on_data, pdf_on_data;
    unfold bind at 1 2, console_log, lift; simpl; rewrite Ht; reflexivity.
Qed.




Lemma parsed_entries_app (a b : list log_entry) :
  parsed_entries (a ++ b) = (parsed_entries a ++ parsed_entries b)%list.
Proof.
  induction a as [|e a IH]; simpl; [reflexivity|].
  destruct e; simpl; rewrite ?IH; reflexivity.
Qed.

Lemma terminated_app (l1 l2 : list string) :
  terminated (l1 ++ l2) = terminated l1 ++ terminated l2.
Proof.
  induction l1 as [|l l1 IH]; simpl; [reflexivity|].
  now rewrite IH, append_assoc.
Qed.

Lemma data_line_lacks_newline (json : string) :
  lacks newline json = true -> lacks newline (data_line json) = true.
Proof. intros H. exact H. Qed.

(** What one record does, as [on_line] reports it. *)
Lemma on_line_record (k : file_kind) (json : string) (data : value)
  (u : upload) :
  JSON_parse json = Some data ->
  fst (on_line (on_data k) (data_line json) u) = dispatch k data u
  /\ parsed_entries (snd (on_line (on_data k) (data_line json) u)) = [data].
Proof.
  intros H. rewrite (on_line_data _ _ _ _ H). split; [reflexivity|].
  destruct (on_data_log k data u []) as (out & E & P). simpl in E |- *.
  destruct (fst (on_data k data (u, []))); rewrite E; simpl;
    [|rewrite parsed_entries_app]; rewrite P; reflexivity.
Qed.

(** Records, all of which parse: each is dispatched once, in order. *)
Lemma on_lines_records (k : file_kind) (jsons : list string)
  (events : list value) (u : upload) :
  Forall2 (fun json data => JSON_parse json = Some data) jsons events ->
  fst (on_lines (on_data k) (map data_line jsons) u)
    = fold_left (fun u data => dispatch k data u) events u
  /\ parsed_entries (snd (on_lines (on_data k) (map data_line jsons) u))
    = events.
Proof.
  intros H. revert u. induction H as [|json data jsons events Hp _ IH]; intros u.
  - split; reflexivity.
  - simpl. destruct (on_line_record k json data u Hp) as [Hu Hl].
    destruct (on_line (on_data k) (data_line json) u) as [u1 o1].
    simpl in Hu, Hl. subst u1.
    destruct (IH (dispatch k data u)) as [IHu IHl].
    destruct (on_lines (on_data k) (map data_line jsons) (dispatch k data u))
      as [u2 o2].
    simpl in *. split; [exact IHu|].
    now rewrite parsed_entries_app, Hl, IHl.
Qed.

(** One notification that brings whole lines. *)
Lemma notify_lines (k : file_kind) (st : stream) (readyState : nat)
  (lines : list string) :
  readyState = 3 \/ readyState = 4 ->
  Forall (fun l => lacks newline l = true) lines ->
  let text := terminated lines in
  let r := on_lines (on_data k) lines (item st) in
  notify k st (readyState, buffer st ++ text) =
  {| buffer := buffer st ++ text;
     item := fst r;
     console := (console st
                   ++ (if nonempty text then [LogNewData text] else [])
                   ++ snd r)%list |}.
Proof.
  intros Hrs Hl text r. subst text r.
  unfold notify, onreadystatechange. simpl fst; simpl snd.
  replace ((readyState =? 3)%nat || (readyState =? 4)%nat) with true
    by (destruct Hrs; subst; reflexivity).
  rewrite drop_length_append, (split_terminated _ Hl), on_lines_app.
  destruct (on_lines (on_data k) lines (item st)) as [u out].
  simpl. now rewrite app_nil_r.
Qed.

Lemma notify_chunks (k : file_kind)
  (chunks : list (nat * list string)) (events : list value) (st : stream) :
  Forall (fun c => fst c = 3 \/ fst c = 4) chunks ->
  Forall2 (fun json data =>
             lacks newline json = true /\ JSON_parse json = Some data)
          (List.concat (map snd chunks)) events ->
  let texts := map (fun c => terminated (map data_line (snd c))) chunks in
  let final :=
    fold_left (notify k)
      (combine (map fst chunks) (responses (buffer st) texts)) st in
  parsed_entries (console final) = (parsed_entries (console st) ++ events)%list
  /\ item final = fold_left (fun u data => dispatch k data u) events (item st)
  /\ buffer final
     = buffer st ++ terminated (map data_line (List.concat (map snd chunks))).
Proof.
  intros Hrs. revert events st.
  induction Hrs as [|[rs jsons] chunks Hr _ IH]; intros events st H; simpl.
  - inversion H; subst. simpl. rewrite app_nil_r, append_nil_r. auto.
  - simpl in H. apply Forall2_app_inv_l in H as (ev1 & ev2 & H1 & H2 & ->).
    assert (Hl : Forall (fun l => lacks newline l = true) (map data_line jsons)).
    { clear - H1. induction H1 as [|? ? ? ? [Hn _] _ IH']; simpl; constructor; auto. }
    assert (Hp : Forall2 (fun json data => JSON_parse json = Some data) jsons ev1).
    { clear - H1. induction H1 as [|? ? ? ? [_ Hp] _ IH']; constructor; auto. }
    rewrite (notify_lines k st rs _ Hr Hl).
    destruct (on_lines_records k jsons ev1 (item st) Hp) as [Hu Hlog].
    match goal with
    | |- context [fold_left _ _ ?s] => specialize (IH ev2 s H2)
    end.
    cbv zeta in IH. cbn [buffer item console] in IH.
    destruct IH as (IHc & IHi & IHb).
    split; [|split].
    + rewrite IHc, !parsed_entries_app, Hlog.
      destruct (nonempty _); simpl; now rewrite app_assoc.
    + rewrite IHi, Hu, fold_left_app. reflexivity.
    + rewrite IHb, map_app, terminated_app, append_assoc. reflexivity.
Qed.

(** ** Records that [displayUploadResults] renders *)

(** The values whose conversion to a string always returns: all but
    arrays and objects. *)
Definition plain (v : value) : bool :=
  match v with
  | Arr _ | Obj _ => false
  | _ => true
  end.

Lemma ToString_plain (v : value) :
  plain v = true -> exists s, ToString v = Ok s.
Proof.
  destruct v as [| |[|]| | | |]; try discriminate; intros _;
    eexists; reflexivity.
Qed.

Lemma join_values_plain (sep : string) (items : list value) :
  forallb plain items = true -> exists ps, join_values sep items = Ok ps.
Proof.
  induction items as [|x items IH]; [now exists []|].
  simpl forallb. intros H. apply andb_prop in H as [Hx Hi].
  destruct (IH Hi) as [ps Hps]. destruct (ToString_plain x Hx) as [p Hp].
  cbn [join_values]. rewrite Hps.
  destruct x; try discriminate; try rewrite Hp; eexists; reflexivity.
Qed.

(** A record with a [document_id], with plain values in the fields that
    are shown and with a list of plain keywords, or none, renders. *)
Lemma document_record_renders (fields : list (string * value)) :
  let data := Obj fields in
  truthy (get_opt data "document_id") = true ->
  forallb (fun k => plain (get_opt data k))
    ["document_id"; "content_length"; "vector_length"; "file_path"] = true ->
  truthy (get_opt data "keywords") = false
  \/ (exists items, get_opt data "keywords" = Arr items
                    /\ forallb plain items = true) ->
  renders data.
Proof.
  intros data Hid Hp Hk. simpl forallb in Hp.
  apply andb_prop in Hp as [P1 Hp]. apply andb_prop in Hp as [P2 Hp].
  apply andb_prop in Hp as [P3 Hp]. apply andb_prop in Hp as [P4 _].
  unfold get_opt, data in *. cbn [get] in *.
  unfold renders, displayUploadResults, keywords_text, bind, lift, assign.
  cbn [get fst snd]. rewrite Hid.
  destruct (ToString_plain _ P1) as [s1 ->].
  destruct (ToString_plain _ P2) as [s2 ->].
  destruct (ToString_plain _ P3) as [s3 ->].
  assert (P5 : plain (or_else
                 match own "file_path" fields with
                 | Some x => x
                 | None => Undefined
                 end (Str "N/A")) = true).
  { unfold or_else.
    match goal with
    | |- context [if truthy ?x then _ else _] => destruct (truthy x)
    end; [exact P4 | reflexivity]. }
  destruct (ToString_plain _ P5) as [s4 E4].
  destruct Hk as [Hk | (items & Hk & Hi)].
  - rewrite Hk. cbn [fst snd ret]. rewrite E4. reflexivity.
  - rewrite Hk. cbn [truthy call_join].
    destruct (join_values_plain ", " items Hi) as [ps ->].
    cbn [exc_bind fst snd]. rewrite E4. reflexivity.
Qed.

(** ** The statements about the decoder *)

(** C1. The response text arrives in any number of notifications, each at
    [readyState] 3 or 4 and each bringing whole lines [data: <json>] whose
    JSON parses. Then the records logged as parsed since the start are the
    parsed lines, in the order of the text and once each; the upload is what
    dispatching these records one after the other gives; and both depend on
    the lines only, not on how they were divided into notifications. *)
Theorem decoder_dispatches_each_line_once (k : file_kind)
  (chunks : list (nat * list string)) (events : list value) (st : stream) :
  buffer st = "" ->
  Forall (fun c => fst c = 3 \/ fst c = 4) chunks ->
  Forall2 (fun json data =>
             lacks newline json = true /\ JSON_parse json = Some data)
          (List.concat (map snd chunks)) events ->
  let texts := map (fun c => terminated (map data_line (snd c))) chunks in
  let final :=
    fold_left (notify k) (combine (map fst chunks) (responses "" texts)) st in
  parsed_entries (console final) = (parsed_entries (console st) ++ events)%list
  /\ item final = fold_left (fun u data => dispatch k data u) events (item st)
  /\ buffer final = terminated (map data_line (List.concat (map snd chunks))).
Proof.
  intros Hb Hrs Hev.
  pose proof (notify_chunks k chunks events st Hrs Hev) as H.
  rewrite Hb in H. exact H.
Qed.

(** C7. A line [data: <text>] whose text does not parse is logged and
    skipped: the upload, its promise included, is as it was before the
    line, and the lines after it are handled as they would be without it. *)
Theorem malformed_line_is_skipped (k : file_kind) (bad : string)
  (before after : list string) (u : upload) :
  JSON_parse bad = None ->
  let r1 := on_lines (on_data k) before u in
  let r2 := on_lines (on_data k) after (fst r1) in
  on_line (on_data k) (data_line bad) (fst r1)
    = (fst r1, [LogError SyntaxError])
  /\ on_lines (on_data k) (before ++ data_line bad :: after) u
     = (fst r2, (snd r1 ++ LogError SyntaxError :: snd r2)%list).
Proof.
  intros H r1 r2. split; [now apply on_line_malformed|].
  rewrite on_lines_app. subst r1 r2.
  destruct (on_lines (on_data k) before u) as [u1 o1]. simpl.
  rewrite (on_line_malformed _ _ _ H).
  now destruct (on_lines (on_data k) after u1) as [u2 o2].
Qed.


End Decoder.

Import Samples.

Lemma decoder_dispatches_each_line_once_witness :
  buffer new_stream = ""
  /\ Forall (fun c => fst c = 3 \/ fst c = 4) two_notifications
  /\ Forall2 (fun json data =>
                lacks newline json = true
                /\ @JSON_parse reference_host json = Some data)
             (List.concat (map snd two_notifications))
             [progress_record; complete_record]
  /\ (parsed_entries
        (console
           (fold_left (@notify reference_host reference_utils ImageFile)
              (combine (map fst two_notifications)
                 (responses ""
                    (map (fun c => terminated (map data_line (snd c)))
                       two_notifications)))
              new_stream))
      = (parsed_entries (console new_stream)
           ++ [progress_record; complete_record])%list
      /\ item
           (fold_left (@notify reference_host reference_utils ImageFile)
              (combine (map fst two_notifications)
                 (responses ""
                    (map (fun c => terminated (map data_line (snd c)))
                       two_notifications)))
              new_stream)
         = fold_left
             (fun u data =>
                @dispatch reference_host reference_utils ImageFile data u)
             [progress_record; complete_record] (item new_stream)
      /\ buffer
           (fold_left (@notify reference_host reference_utils ImageFile)
              (combine (map fst two_notifications)
                 (responses ""
                    (map (fun c => terminated (map data_line (snd c)))
                       two_notifications)))
              new_stream)
         = terminated
             (map data_line (List.concat (map snd two_notifications)))).
Proof.
  assert (Hb : buffer new_stream = "") by reflexivity.
  assert (Hrs : Forall (fun c => fst c = 3 \/ fst c = 4) two_notifications).
  { constructor; [left; reflexivity|].
    constructor; [right; reflexivity|]. constructor. }
  assert (Hev : Forall2 (fun json data =>
                  lacks newline json = true
                  /\ @JSON_parse reference_host json = Some data)
                  (List.concat (map snd two_notifications))
                  [progress_record; complete_record]).
  { repeat constructor; vm_compute; reflexivity. }
  split; [exact Hb|]. split; [exact Hrs|]. split; [exact Hev|].
  exact (@decoder_dispatches_each_line_once reference_host reference_utils
           ImageFile two_notifications [progress_record; complete_record]
           new_stream Hb Hrs Hev).
Defined.

Lemma malformed_line_is_skipped_witness :
  @JSON_parse reference_host malformed_json = None
  /\ @on_line reference_host
       (@on_data reference_host reference_utils ImageFile)
       (data_line malformed_json)
       (fst (@on_lines reference_host
               (@on_data reference_host reference_utils ImageFile)
               [data_line progress_json] new_upload))
     = (fst (@on_lines reference_host
               (@on_data reference_host reference_utils ImageFile)
               [data_line progress_json] new_upload),
        [LogError SyntaxError])
  /\ @on_lines reference_host
       (@on_data reference_host reference_utils ImageFile)
       ([data_line progress_json]
          ++ data_line malformed_json :: [data_line complete_json])%list
       new_upload
     = (fst (@on_lines reference_host
               (@on_data reference_host reference_utils ImageFile)
               [data_line complete_json]
               (fst (@on_lines reference_host
                       (@on_data reference_host reference_utils ImageFile)
                       [data_line progress_json] new_upload))),
        (snd (@on_lines reference_host
                (@on_data reference_host reference_utils ImageFile)
                [data_line progress_json] new_upload)
           ++ LogError SyntaxError
           :: snd (@on_lines reference_host
                     (@on_data reference_host reference_utils ImageFile)
                     [data_line complete_json]
                     (fst (@on_lines reference_host
                             (@on_data reference_host reference_utils ImageFile)
                             [data_line progress_json] new_upload))))%list).
Proof.
  assert (H : @JSON_parse reference_host malformed_json = None)
    by (vm_compute; reflexivity).
  split; [exact H|].
  exact (@malformed_line_is_skipped reference_host reference_utils ImageFile
           malformed_json [data_line progress_json] [data_line complete_json]
           new_upload H).
Defined.


(** A [complete] record that [displayUploadResults] cannot render (its
    [keywords] is a string, which has no [join]): the throw is caught by
    the [catch] of the line, [resolve] is not reached, and the promise
    stays pending. The statements C2 and C3 are about records that
    render. *)
Example complete_record_that_does_not_render :
  ~ @renders reference_host reference_utils
      (Obj [("type", Str "complete"); ("document_id", Str "d");
            ("keywords", Str "k")])
  /\ settled (@dispatch reference_host reference_utils PdfFile
                (Obj [("type", Str "complete"); ("document_id", Str "d");
                      ("keywords", Str "k")]) new_upload) = Pending.
Proof. split; [vm_compute; discriminate | vm_compute; reflexivity]. Qed.

End StreamFacts.

(* ================================================================== *)
(** * Facts about progress records *)

Module ProgressFacts.
Import JSString JSNumber JSValue FileUpload JSStringFacts JSNumberFacts.
Import StreamFacts.

(** A check made for every number below [bound] holds for each of them. *)
Lemma forallb_below (f : nat -> bool) (bound n : nat) :
  forallb f (seq 0 bound) = true -> n < bound -> f n = true.
Proof.
  intros H Hn. rewrite forallb_forall in H. apply H. apply in_seq. lia.
Qed.

(** The bar of the PDF path while the document is structured, as a
    function of the length of [jsonBuffer]. *)
Lemma jsonProgress_saturates (jsonBuffer : string) :
  2000 <= String.length jsonBuffer ->
  (Z.of_nat (String.length jsonBuffer) < 2 ^ 53)%Z ->
  jsonProgress jsonBuffer = 1%float.
Proof.
  intros H Hn. unfold jsonProgress.
  change 2000%float with (of_nat 2000).
  apply Math_min_quotient_saturates; [lia | exact Hn].
Qed.

Lemma jsonProgress_band (jsonBuffer : string) :
  (Z.of_nat (String.length jsonBuffer) < 2 ^ 53)%Z ->
  (50 <=? 20 + 30 + jsonProgress jsonBuffer * 40)%float = true
  /\ (20 + 30 + jsonProgress jsonBuffer * 40 <=? 90)%float = true.
Proof.
  intros Hn.
  destruct (le_lt_dec 2000 (String.length jsonBuffer)) as [L|L].
  - rewrite (jsonProgress_saturates jsonBuffer L Hn). split; reflexivity.
  - unfold jsonProgress.
    pose (check := fun n : nat =>
      ((50 <=? 20 + 30 + Math_min (of_nat n / 2000) 1 * 40)
       && (20 + 30 + Math_min (of_nat n / 2000) 1 * 40 <=? 90))%float).
    assert (H : check (String.length jsonBuffer) = true).
    { apply (forallb_below check 2000); [vm_compute; reflexivity | exact L]. }
    unfold check in H. now apply andb_prop in H.
Qed.



Section Progress.
Context {host : Host} {utils : UtilsScript}.

Lemma and_startsWith_prefix (p s : string) :
  p <> "" -> and_startsWith (Str (p ++ s)) p = Ok true.
Proof.
  intros Hp. unfold and_startsWith, truthy.
  destruct p as [|c p]; [congruence|]. simpl nonempty. cbn iota.
  now rewrite startsWith_append.
Qed.

Lemma and_startsWith_other (p s : string) :
  startsWith p s = false -> and_startsWith (Str s) p = Ok false.
Proof.
  intros H. unfold and_startsWith, truthy.
  destruct (nonempty s); [now rewrite H | reflexivity].
Qed.

(** A stage that the PDF path shows as it is. *)
Lemma is_unlisted_stage_false (s : string) :
  s = "" \/ In s known_stages -> is_unlisted_stage (Str s) = false.
Proof.
  intros [-> | H]; [reflexivity|].
  unfold is_unlisted_stage. apply andb_false_intro2.
  apply not_true_is_false. intros F. rewrite forallb_forall in F.
  specialize (F s H). simpl in F. now rewrite String.eqb_refl in F.
Qed.

Lemma is_unlisted_stage_true (s : string) :
  s <> "" -> ~ In s known_stages -> is_unlisted_stage (Str s) = true.
Proof.
  intros Hs H. unfold is_unlisted_stage. apply andb_true_intro. split.
  - destruct s; [congruence | reflexivity].
  - apply forallb_forall. intros known Hk. simpl.
    apply negb_true_iff, String.eqb_neq. intros ->. contradiction.
Qed.


(** The image path at a progress record whose stage is shown as it is. *)
Lemma image_plain_stage (data : value) (s : string) (p : float) (u : upload) :
  get data "type" = Ok (Str "progress") ->
  get data "percent" = Ok (Num p) ->
  get data "stage" = Ok (Str s) ->
  startsWith "CAPTION_CHUNK:" s = false ->
  startsWith "OCR_TEXT:" s = false ->
  let u' := dispatch ImageFile data u in
  textContent u' = s /\ captionBuffer u' = captionBuffer u
  /\ jsonBuffer u' = jsonBuffer u.
Proof.
  intros Ht Hp Hs Hc Ho. unfold dispatch.
  rewrite (on_data_progress ImageFile data _ Ht).
  unfold image_on_progress, bind, lift, assign, read, console_log.
  cbn [fst snd]. rewrite Hp. cbn [ToNumber]. rewrite Hs.
  rewrite (and_startsWith_other _ _ Hc), (and_startsWith_other _ _ Ho).
  cbn. auto.
Qed.


(** The two branches of the PDF path that take a piece of the document. *)
Lemma pdf_structured_chunk_effect (chunk : string)
  (s : upload * list log_entry) :
  let u' := fst (snd (pdf_structured_chunk chunk s)) in
  jsonBuffer u' = jsonBuffer (fst s) ++ chunk
  /\ captionBuffer u' = captionBuffer (fst s)
  /\ textContent u' = "Structuring document..."
  /\ streaming_json u'
     = Some (streaming_json_text chunk (jsonBuffer (fst s) ++ chunk))
  /\ width u'
     = NumberToString (20 + 30 + jsonProgress (jsonBuffer u') * 40) ++ "%".
Proof. destruct s as [u l]. cbn. auto. Qed.

Lemma pdf_structured_stage (data percent : value) (payload w : string)
  (u : upload) :
  get data "type" = Ok (Str "progress") ->
  get data "percent" = Ok percent ->
  ToString percent = Ok w ->
  get data "stage" = Ok (Str ("STRUCTURED_CHUNK:" ++ payload)) ->
  dispatch PdfFile data u
  = fst (snd (pdf_structured_chunk payload
                (set_width (w ++ "%") u, [LogParsed data]))).
Proof.
  intros Ht Hp Hw Hs. unfold dispatch.
  rewrite (on_data_progress PdfFile data _ Ht).
  unfold pdf_on_progress. unfold bind at 1 2 3 4 5, lift, assign.
  cbn [fst snd]. rewrite Hp, Hw, Hs.
  rewrite and_startsWith_prefix by discriminate.
  unfold bind at 1. cbn [this_string].
  change (String.length "STRUCTURED_CHUNK:") with 17.
  change (drop 17 ("STRUCTURED_CHUNK:" ++ payload)) with payload.
  reflexivity.
Qed.

Lemma pdf_unlisted_stage (data percent : value) (s w : string) (u : upload) :
  get data "type" = Ok (Str "progress") ->
  get data "percent" = Ok percent ->
  ToString percent = Ok w ->
  get data "stage" = Ok (Str s) ->
  startsWith "STRUCTURED_CHUNK:" s = false ->
  is_unlisted_stage (Str s) = true ->
  dispatch PdfFile data u
  = fst (snd (pdf_structured_chunk s
                (set_width (w ++ "%") u, [LogParsed data]))).
Proof.
  intros Ht Hp Hw Hs Hc Hu. unfold dispatch.
  rewrite (on_data_progress PdfFile data _ Ht).
  unfold pdf_on_progress. unfold bind at 1 2 3 4 5, lift, assign.
  cbn [fst snd]. rewrite Hp, Hw, Hs.
  rewrite (and_startsWith_other _ _ Hc), Hu.
  unfold bind at 1. reflexivity.
Qed.

Lemma pdf_listed_stage (data percent : value) (s w : string) (u : upload) :
  get data "type" = Ok (Str "progress") ->
  get data "percent" = Ok percent ->
  ToString percent = Ok w ->
  get data "stage" = Ok (Str s) ->
  startsWith "STRUCTURED_CHUNK:" s = false ->
  is_unlisted_stage (Str s) = false ->
  let u' := dispatch PdfFile data u in
  textContent u' = s /\ jsonBuffer u' = jsonBuffer u
  /\ captionBuffer u' = captionBuffer u.
Proof.
  intros Ht Hp Hw Hs Hc Hu. unfold dispatch.
  rewrite (on_data_progress PdfFile data _ Ht).
  unfold pdf_on_progress, bind, lift, assign.
  cbn [fst snd]. rewrite Hp, Hw, Hs.
  rewrite (and_startsWith_other _ _ Hc), Hu. cbn. auto.
Qed.

(** ** The statements about progress records *)


(** C5, as the code has it. In the PDF path a progress record whose stage
    is [STRUCTURED_CHUNK:] and a payload appends the payload to
    [jsonBuffer]; the estimate is [Math.min(length / 2000, 1)] of the new
    buffer, and the width of the bar is [20 + 30 + estimate * 40] followed
    by [%]: a value between 50 and 90, 50 for an empty buffer and 90 from
    2000 code units on. *)
Theorem structured_chunk_progress (data percent : value) (payload w : string)
  (u : upload) :
  get data "type" = Ok (Str "progress") ->
  get data "percent" = Ok percent ->
  ToString percent = Ok w ->
  get data "stage" = Ok (Str ("STRUCTURED_CHUNK:" ++ payload)) ->
  (Z.of_nat (String.length (jsonBuffer u ++ payload)) < 2 ^ 53)%Z ->
  let u' := dispatch PdfFile data u in
  let estimate := jsonProgress (jsonBuffer u') in
  let displayed := (20 + 30 + estimate * 40)%float in
  jsonBuffer u' = jsonBuffer u ++ payload
  /\ estimate
     = Math_min (of_nat (String.length (jsonBuffer u')) / 2000)%float 1%float
  /\ width u' = NumberToString displayed ++ "%"
  /\ (50 <=? displayed)%float = true
  /\ (displayed <=? 90)%float = true
  /\ (String.length (jsonBuffer u') = 0 -> displayed = 50%float)
  /\ (2000 <= String.length (jsonBuffer u') ->
      estimate = 1%float /\ displayed = 90%float).
Proof.
  intros Ht Hp Hw Hs Hn u' estimate displayed.
  assert (Hu : u' = fst (snd (pdf_structured_chunk payload
                                (set_width (w ++ "%") u, [LogParsed data]))))
    by (apply pdf_structured_stage with (percent := percent); assumption).
  destruct (pdf_structured_chunk_effect payload
              (set_width (w ++ "%") u, [LogParsed data]))
    as (Hj & _ & _ & _ & Hwd).
  rewrite <- Hu in Hj, Hwd. cbn [fst jsonBuffer set_width] in Hj.
  assert (Hn' : (Z.of_nat (String.length (jsonBuffer u')) < 2 ^ 53)%Z)
    by now rewrite Hj.
  destruct (jsonProgress_band (jsonBuffer u') Hn') as [Hlo Hhi].
  split; [exact Hj|]. split; [reflexivity|]. split; [exact Hwd|].
  split; [exact Hlo|]. split; [exact Hhi|]. split.
  - intros H0. unfold displayed, estimate, jsonProgress. now rewrite H0.
  - intros H2000. unfold displayed, estimate.
    rewrite (jsonProgress_saturates (jsonBuffer u') H2000 Hn'). now split.
Qed.


(** C8, as the code has it. A progress record whose stage is a string
    that begins with none of [CAPTION_CHUNK:], [OCR_TEXT:] and
    [STRUCTURED_CHUNK:]: the image path shows the stage as it is and
    leaves both buffers; the PDF path does so when the stage is empty or
    one of its nine listed statuses, and otherwise appends the stage to
    [jsonBuffer] and shows 'Structuring document...'. *)
Theorem plain_stage_display (data : value) (s : string) (p : float)
  (u : upload) :
  get data "type" = Ok (Str "progress") ->
  get data "percent" = Ok (Num p) ->
  get data "stage" = Ok (Str s) ->
  startsWith "CAPTION_CHUNK:" s = false ->
  startsWith "OCR_TEXT:" s = false ->
  startsWith "STRUCTURED_CHUNK:" s = false ->
  let image := dispatch ImageFile data u in
  let pdf := dispatch PdfFile data u in
  (textContent image = s /\ captionBuffer image = captionBuffer u
   /\ jsonBuffer image = jsonBuffer u)
  /\ (s = "" \/ In s known_stages ->
      textContent pdf = s /\ captionBuffer pdf = captionBuffer u
      /\ jsonBuffer pdf = jsonBuffer u)
  /\ (s <> "" -> ~ In s known_stages ->
      textContent pdf = "Structuring document..."
      /\ captionBuffer pdf = captionBuffer u
      /\ jsonBuffer pdf = jsonBuffer u ++ s).
Proof.
  intros Ht Hp Hs Hc Ho Hj image pdf. split; [|split].
  - apply (image_plain_stage data s p u Ht Hp Hs Hc Ho).
  - intros Hl.
    destruct (pdf_listed_stage data (Num p) s (NumberToString p) u
                Ht Hp eq_refl Hs Hj (is_unlisted_stage_false s Hl))
      as (H1 & H2 & H3).
    auto.
  - intros Hne Hnl.
    pose proof (pdf_unlisted_stage data (Num p) s (NumberToString p) u
                  Ht Hp eq_refl Hs Hj (is_unlisted_stage_true s Hne Hnl)) as E.
    destruct (pdf_structured_chunk_effect s
                (set_width (NumberToString p ++ "%") u, [LogParsed data]))
      as (H1 & H2 & H3 & _).
    fold pdf in E. rewrite <- E in H1, H2, H3. auto.
Qed.

End Progress.

Import Samples.


Lemma structured_chunk_progress_witness :
  get structured_record "type" = Ok (Str "progress")
  /\ get structured_record "percent" = Ok (Num 40)
  /\ @ToString reference_host (Num 40) = Ok "40"
  /\ get structured_record "stage"
     = Ok (Str ("STRUCTURED_CHUNK:" ++ dq "{'title': 'Re"))
  /\ (Z.of_nat (String.length (jsonBuffer new_upload ++ dq "{'title': 'Re"))
      < 2 ^ 53)%Z
  /\ jsonBuffer (@dispatch reference_host reference_utils PdfFile
                   structured_record new_upload) = dq "{'title': 'Re"
  /\ width (@dispatch reference_host reference_utils PdfFile
              structured_record new_upload) = "50.26%".
Proof.
  assert (H1 : get structured_record "type" = Ok (Str "progress"))
    by reflexivity.
  assert (H2 : get structured_record "percent" = Ok (Num 40)) by reflexivity.
  assert (H3 : @ToString reference_host (Num 40) = Ok "40")
    by (vm_compute; reflexivity).
  assert (H4 : get structured_record "stage"
               = Ok (Str ("STRUCTURED_CHUNK:" ++ dq "{'title': 'Re")))
    by reflexivity.
  assert (H5 : (Z.of_nat (String.length
                            (jsonBuffer new_upload ++ dq "{'title': 'Re"))
                < 2 ^ 53)%Z) by (vm_compute; reflexivity).
  pose proof (@structured_chunk_progress reference_host reference_utils
                structured_record (Num 40) (dq "{'title': 'Re") "40"
                new_upload H1 H2 H3 H4 H5) as (W1 & _ & W3 & _).
  split; [exact H1|]. split; [exact H2|]. split; [exact H3|].
  split; [exact H4|]. split; [exact H5|]. split; [exact W1 | exact W3].
Defined.

(** C5 as stated fails: with 2000 code units in [jsonBuffer] the estimate
    is one and the bar stands at 90%, not at 100%. *)
Lemma structured_band_ends_at_90 :
  get long_structured_record "type" = Ok (Str "progress")
  /\ get long_structured_record "stage"
     = Ok (Str ("STRUCTURED_CHUNK:" ++ filler 2000))
  /\ jsonProgress
       (jsonBuffer (@dispatch reference_host reference_utils PdfFile
                      long_structured_record new_upload)) = 1%float
  /\ width (@dispatch reference_host reference_utils PdfFile
              long_structured_record new_upload) = "90%"
  /\ width (@dispatch reference_host reference_utils PdfFile
              long_structured_record new_upload) <> "100%".
Proof.
  split; [reflexivity|]. split; [reflexivity|].
  split; [vm_compute; reflexivity|].
  assert (W : width (@dispatch reference_host reference_utils PdfFile
                       long_structured_record new_upload) = "90%")
    by (vm_compute; reflexivity).
  split; [exact W | rewrite W; discriminate].
Qed.


Lemma plain_stage_display_witness :
  get status_record "type" = Ok (Str "progress")
  /\ get status_record "percent" = Ok (Num 10)
  /\ get status_record "stage" = Ok (Str "Reading pages")
  /\ startsWith "CAPTION_CHUNK:" "Reading pages" = false
  /\ startsWith "OCR_TEXT:" "Reading pages" = false
  /\ startsWith "STRUCTURED_CHUNK:" "Reading pages" = false
  /\ "Reading pages" <> ""
  /\ ~ In "Reading pages" known_stages
  /\ textContent (@dispatch reference_host reference_utils ImageFile
                    status_record new_upload) = "Reading pages"
  /\ captionBuffer (@dispatch reference_host reference_utils ImageFile
                      status_record new_upload) = captionBuffer new_upload
  /\ textContent (@dispatch reference_host reference_utils PdfFile
                    status_record new_upload) = "Structuring document..."
  /\ jsonBuffer (@dispatch reference_host reference_utils PdfFile
                   status_record new_upload)
     = jsonBuffer new_upload ++ "Reading pages".
Proof.
  assert (H1 : get status_record "type" = Ok (Str "progress")) by reflexivity.
  assert (H2 : get status_record "percent" = Ok (Num 10)) by reflexivity.
  assert (H3 : get status_record "stage" = Ok (Str "Reading pages"))
    by reflexivity.
  assert (H4 : startsWith "CAPTION_CHUNK:" "Reading pages" = false)
    by reflexivity.
  assert (H5 : startsWith "OCR_TEXT:" "Reading pages" = false) by reflexivity.
  assert (H6 : startsWith "STRUCTURED_CHUNK:" "Reading pages" = false)
    by reflexivity.
  assert (H7 : "Reading pages" <> "") by discriminate.
  assert (H8 : ~ In "Reading pages" known_stages).
  { simpl. intros H. repeat (destruct H as [H|H]; [discriminate|]). exact H. }
  pose proof (@plain_stage_display reference_host reference_utils
                status_record "Reading pages" 10%float new_upload
                H1 H2 H3 H4 H5 H6) as ((I1 & I2 & _) & _ & P).
  destruct (P H7 H8) as (P1 & _ & P3).
  split; [exact H1|]. split; [exact H2|]. split; [exact H3|].
  split; [exact H4|]. split; [exact H5|]. split; [exact H6|].
  split; [exact H7|]. split; [exact H8|]. split; [exact I1|].
  split; [exact I2|]. split; [exact P1 | exact P3].
Defined.

(** C8 as stated fails in the PDF path: a stage with none of the prefixes
    that is not one of the listed statuses is not shown as it is, and it
    is appended to [jsonBuffer]. *)
Lemma plain_stage_taken_as_chunk_by_pdf :
  get status_record "type" = Ok (Str "progress")
  /\ get status_record "stage" = Ok (Str "Reading pages")
  /\ startsWith "CAPTION_CHUNK:" "Reading pages" = false
  /\ startsWith "OCR_TEXT:" "Reading pages" = false
  /\ startsWith "STRUCTURED_CHUNK:" "Reading pages" = false
  /\ textContent (@dispatch reference_host reference_utils PdfFile
                    status_record new_upload) <> "Reading pages"
  /\ jsonBuffer (@dispatch reference_host reference_utils PdfFile
                   status_record new_upload) <> jsonBuffer new_upload.
Proof.
  repeat (split; [reflexivity|]).
  split; vm_compute; discriminate.
Qed.

End ProgressFacts.

(* ================================================================== *)
(** * Facts about the partial-JSON renderer *)

Module RendererFacts.
Import JSString JSNumber JSValue FileUpload JSStringFacts.
Local Open Scope Z_scope.

Lemma get_append_length (pre : string) (c : ascii) (s : string) :
  String.get (String.length pre) (pre ++ String c s) = Some c.
Proof. induction pre as [|d pre IH]; simpl; [reflexivity | exact IH]. Qed.

Lemma take_succ_append (pre : string) (c : ascii) (s : string) :
  take (S (String.length pre)) (pre ++ String c s) = pre ++ String c "".
Proof.
  induction pre as [|d pre IH]; simpl; [reflexivity|]. now rewrite <- IH.
Qed.

Lemma length_take (n : nat) (s : string) :
  (n <= String.length s)%nat -> String.length (take n s) = n.
Proof.
  revert s. induction n as [|n IH]; intros s H; [reflexivity|].
  destruct s as [|c s]; simpl in *; [lia|]. rewrite IH; lia.
Qed.

Lemma depths_from_app (b k : Z) (a s : string) :
  depths_from b k (a ++ s) =
  let '(b', k') := depths_from b k a in depths_from b' k' s.
Proof.
  revert b k. induction a as [|c a IH]; intros b k; simpl.
  - now destruct (depths_from b k s).
  - destruct (count c b k) as [b' k']. apply IH.
Qed.

(** The test of the loop at index [length pre] is the test of the
    specification on the prefix that ends there. *)
Lemma complete_prefix_step (pre : string) (c : ascii) (s : string) :
  complete_prefix (pre ++ String c s) (S (String.length pre)) =
  let '(b, k) := depths pre in
  let '(b', k') := count c b k in
  (b' =? 0) && (k' =? 0) && (Ascii.eqb c "}" || Ascii.eqb c "]").
Proof.
  unfold complete_prefix. rewrite get_append_length, take_succ_append.
  unfold depths. rewrite depths_from_app.
  destruct (depths_from 0 0 pre) as [b k]. simpl.
  destruct (count c b k) as [b' k']. simpl.
  now destruct (Ascii.eqb c "}" || Ascii.eqb c "]"), (b' =? 0), (k' =? 0).
Qed.

(** The loop from the end of [pre] on: it returns the index of the last
    complete prefix that ends in [s], or the index it was given when there
    is none. *)
Lemma scan_from_spec (s pre : string) (last : Z) :
  let r := scan_from (Z.of_nat (String.length pre)) (fst (depths pre))
             (snd (depths pre)) last s in
  let lo := String.length pre in
  let hi := (String.length pre + String.length s)%nat in
  (r = last
   /\ forall n, (lo < n <= hi)%nat -> complete_prefix (pre ++ s) n = false)
  \/ (exists n, r = Z.of_nat n - 1 /\ (lo < n <= hi)%nat
                /\ complete_prefix (pre ++ s) n = true
                /\ forall m, (n < m <= hi)%nat ->
                             complete_prefix (pre ++ s) m = false).
Proof.
  revert pre last. induction s as [|c s IH]; intros pre last; cbv zeta.
  - left. split; [reflexivity|]. intros n Hn. simpl in Hn. lia.
  - pose proof (complete_prefix_step pre c s) as Hstep.
    cbn [scan_from]. destruct (depths pre) as [b k] eqn:Dpre. cbn [fst snd].
    destruct (count c b k) as [b' k'] eqn:Dc.
    assert (Dpre' : depths (pre ++ String c "") = (b', k')).
    { unfold depths in *. rewrite depths_from_app, Dpre. simpl. now rewrite Dc. }
    assert (Lpre' : String.length (pre ++ String c "") = S (String.length pre)).
    { rewrite length_append. simpl. lia. }
    assert (Eapp : pre ++ String c s = (pre ++ String c "") ++ s).
    { now rewrite append_assoc. }
    set (test := (b' =? 0) && (k' =? 0) && (Ascii.eqb c "}" || Ascii.eqb c "]"))
      in *.
    specialize (IH (pre ++ String c "")
                  (if test then Z.of_nat (String.length pre) else last)).
    cbv zeta in IH. rewrite Dpre', Lpre' in IH. cbn [fst snd] in IH.
    replace (Z.of_nat (S (String.length pre)))
      with (Z.of_nat (String.length pre) + 1) in IH by lia.
    rewrite <- Eapp in IH. simpl String.length.
    destruct IH as [[Hr Hnone] | (n & Hr & Hn & Hc & Hmax)].
    + destruct test eqn:T.
      * right. exists (S (String.length pre)).
        repeat split; try lia; [exact Hstep|].
        intros m Hm. apply Hnone. lia.
      * left. split; [exact Hr|]. intros n Hn.
        destruct (Nat.eq_dec n (S (String.length pre))) as [->|N];
          [exact Hstep | apply Hnone; lia].
    + right. exists n. repeat split; try lia; [exact Hc|].
      intros m Hm. apply Hmax. lia.
Qed.

(** [lastCompleteIndex] is [-1] when no prefix of [chunk] is complete, and
    otherwise the index at which the longest complete prefix ends. *)
Lemma lastCompleteIndex_spec (chunk : string) :
  (lastCompleteIndex chunk = -1
   /\ forall n, complete_prefix chunk n = false)
  \/ (exists n, lastCompleteIndex chunk = Z.of_nat n - 1
                /\ (1 < n <= String.length chunk)%nat
                /\ complete_prefix chunk n = true
                /\ forall m, (n < m)%nat -> complete_prefix chunk m = false).
Proof.
  assert (Hout : forall n, (String.length chunk < n)%nat ->
                           complete_prefix chunk n = false).
  { intros [|i] Hn; [reflexivity|]. unfold complete_prefix.
    replace (String.get i chunk) with (@None ascii); [reflexivity|].
    symmetry. clear - Hn. revert i Hn.
    induction chunk as [|c chunk IH]; intros i Hn; [now destruct i|].
    destruct i as [|i]; simpl in *; [lia | apply IH; lia]. }
  assert (H1 : complete_prefix chunk 1 = false).
  { unfold complete_prefix. destruct chunk as [|c chunk]; [reflexivity|].
    simpl. unfold depths. simpl. unfold count.
    destruct (Ascii.eqb c "{") eqn:E1; [now destruct (Ascii.eqb c "}" || Ascii.eqb c "]")|].
    destruct (Ascii.eqb c "}") eqn:E2; [reflexivity|].
    destruct (Ascii.eqb c "[") eqn:E3; [now destruct (Ascii.eqb c "]")|].
    destruct (Ascii.eqb c "]") eqn:E4; reflexivity. }
  pose proof (scan_from_spec chunk "" (-1)) as H. cbv zeta in H.
  change (scan_from _ _ _ _ chunk) with (lastCompleteIndex chunk) in H.
  simpl in H.
  destruct H as [[Hr Hnone] | (n & Hr & Hn & Hc & Hmax)].
  - left. split; [exact Hr|]. intros [|i]; [reflexivity|].
    destruct (le_lt_dec (S i) (String.length chunk));
      [apply Hnone; lia | apply Hout; lia].
  - right. exists n. repeat split; try lia; [|exact Hc|].
    + destruct (Nat.eq_dec n 1) as [->|]; [congruence | lia].
    + intros m Hm. destruct (le_lt_dec m (String.length chunk));
        [apply Hmax; lia | apply Hout; lia].
Qed.

Lemma take_all (s : string) : take (String.length s) s = s.
Proof. induction s as [|c s IH]; simpl; [reflexivity | now rewrite IH]. Qed.

Lemma get_append_lt (a b : string) (i : nat) :
  (i < String.length a)%nat -> String.get i (a ++ b) = String.get i a.
Proof.
  revert i. induction a as [|c a IH]; intros i H; simpl in *; [lia|].
  destruct i; [reflexivity | apply IH; lia].
Qed.

Lemma get_append_ge (a b : string) (j : nat) :
  String.get (String.length a + j) (a ++ b) = String.get j b.
Proof. induction a as [|c a IH]; simpl; [reflexivity | exact IH]. Qed.

Lemma take_append_ge (a b : string) (j : nat) :
  take (String.length a + j) (a ++ b) = a ++ take j b.
Proof.
  induction a as [|c a IH]; simpl; [reflexivity | now rewrite IH].
Qed.

(** A complete text followed by more text: the complete prefixes beyond
    it are those of the text that follows. *)
Lemma complete_prefix_after (object rest : string) (j : nat) :
  complete_prefix object (String.length object) = true ->
  complete_prefix (object ++ rest) (String.length object + S j)
  = complete_prefix rest (S j).
Proof.
  intros H. unfold complete_prefix in *.
  destruct (String.length object) as [|i] eqn:L; [discriminate|].
  apply andb_prop in H as [_ H]. rewrite <- L in H |- *.
  rewrite take_all in H.
  replace (String.length object + S j)%nat
    with (S (String.length object + j)) by lia.
  rewrite get_append_ge.
  replace (S (String.length object + j))
    with (String.length object + S j)%nat by lia.
  rewrite take_append_ge. unfold depths in *. rewrite depths_from_app.
  destruct (depths_from 0 0 object) as [b k].
  apply andb_prop in H as [Hb Hk].
  apply Z.eqb_eq in Hb, Hk. now subst.
Qed.

Lemma complete_prefix_before (object rest : string) :
  complete_prefix object (String.length object) = true ->
  complete_prefix (object ++ rest) (String.length object) = true.
Proof.
  intros H. unfold complete_prefix in *.
  destruct (String.length object) as [|i] eqn:L; [discriminate|].
  rewrite <- L in H |- *. rewrite take_length_append, take_all in *.
  rewrite get_append_lt by lia. exact H.
Qed.

Section Renderer.
Context {host : Host}.

(** The text shown when the longest complete prefix has [n] code units. *)
Lemma streaming_json_text_at (chunk jsonBuffer : string) (n : nat) :
  JSON_parse chunk = None ->
  complete_prefix chunk n = true ->
  (forall m, (n < m)%nat -> complete_prefix chunk m = false) ->
  streaming_json_text chunk jsonBuffer =
  match JSON_parse (take n chunk) with
  | Some parsed =>
      if (n <? String.length chunk)%nat
      then JSON_stringify parsed ++ streaming_marker
      else JSON_stringify parsed
  | None =>
      if (n <? String.length chunk)%nat
      then take n chunk ++ streaming_marker
      else take n chunk
  end.
Proof.
  intros Hp Hc Hmax. unfold streaming_json_text. rewrite Hp.
  destruct (lastCompleteIndex_spec chunk)
    as [[_ Hnone] | (n' & Hl & Hn' & Hc' & Hmax')];
    [rewrite Hnone in Hc; discriminate|].
  assert (n' = n).
  { destruct (Nat.lt_trichotomy n n') as [L|[E|G]]; [|auto|].
    - rewrite (Hmax n' L) in Hc'. discriminate.
    - rewrite (Hmax' n G) in Hc. discriminate. }
  subst n'. rewrite Hl.
  replace (0 <? Z.of_nat n - 1) with true by (symmetry; apply Z.ltb_lt; lia).
  replace (Z.to_nat (Z.of_nat n - 1 + 1)) with n by lia.
  rewrite length_take by lia. reflexivity.
Qed.

(** C4, as the code has it. For a text handed to the renderer that is
    not valid JSON: the renderer takes the longest prefix that ends with a
    closing brace or bracket at which both depths are zero; it shows the
    pretty-printed value of this prefix when the prefix parses, and the
    prefix itself when it does not, followed by the streaming marker when
    text remains after the prefix; so for one complete object followed by
    text in which no prefix is complete, it shows the pretty-printed
    object and the marker; and when no prefix is complete it shows the
    text followed by the marker. *)
Theorem partial_json_rendering (chunk jsonBuffer : string) :
  JSON_parse chunk = None ->
  let text := streaming_json_text chunk jsonBuffer in
  ((forall n, complete_prefix chunk n = false) ->
   text = chunk ++ streaming_marker)
  /\ (forall n,
        complete_prefix chunk n = true ->
        (forall m, (n < m)%nat -> complete_prefix chunk m = false) ->
        (forall parsed, JSON_parse (take n chunk) = Some parsed ->
           text = if (n <? String.length chunk)%nat
                  then JSON_stringify parsed ++ streaming_marker
                  else JSON_stringify parsed)
        /\ (JSON_parse (take n chunk) = None ->
            text = if (n <? String.length chunk)%nat
                   then take n chunk ++ streaming_marker
                   else take n chunk))
  /\ (forall object rest parsed,
        chunk = object ++ rest -> rest <> "" ->
        JSON_parse object = Some parsed ->
        complete_prefix object (String.length object) = true ->
        (forall n, complete_prefix rest n = false) ->
        text = JSON_stringify parsed ++ streaming_marker).
Proof.
  intros Hp text. split; [|split].
  - intros Hnone. unfold text, streaming_json_text. rewrite Hp.
    destruct (lastCompleteIndex_spec chunk)
      as [[Hl _] | (n & _ & _ & Hc & _)];
      [now rewrite Hl | rewrite Hnone in Hc; discriminate].
  - intros n Hc Hmax.
    pose proof (streaming_json_text_at chunk jsonBuffer n Hp Hc Hmax) as E.
    fold text in E. split.
    + intros parsed Hparsed. now rewrite Hparsed in E.
    + intros Hnot. now rewrite Hnot in E.
  - intros object rest parsed -> Hrest Hobj Hc Hnone.
    pose proof (streaming_json_text_at (object ++ rest) jsonBuffer
                  (String.length object) Hp
                  (complete_prefix_before object rest Hc)) as E.
    fold text in E. rewrite take_length_append, Hobj in E.
    replace (String.length object <? String.length (object ++ rest))%nat
      with true in E.
    + apply E. intros m Hm.
      replace m with (String.length object + S (m - String.length object - 1))%nat
        by lia.
      rewrite (complete_prefix_after object rest _ Hc). apply Hnone.
    + symmetry. apply Nat.ltb_lt. rewrite length_append.
      destruct rest; [congruence | simpl; lia].
Qed.

End Renderer.

Import Samples.

Lemma partial_json_rendering_witness :
  @JSON_parse reference_host object_and_more = None
  /\ object_and_more = object_text ++ " and th"
  /\ " and th" <> ""
  /\ @JSON_parse reference_host object_text
     = Some (Obj [("a", Num 1)])
  /\ complete_prefix object_text (String.length object_text) = true
  /\ (forall n, complete_prefix " and th" n = false)
  /\ @streaming_json_text reference_host object_and_more ""
     = @JSON_stringify reference_host (Obj [("a", Num 1)]) ++ streaming_marker.
Proof.
  assert (H1 : @JSON_parse reference_host object_and_more = None)
    by (vm_compute; reflexivity).
  assert (H2 : object_and_more = object_text ++ " and th") by reflexivity.
  assert (H3 : " and th" <> "") by discriminate.
  assert (H4 : @JSON_parse reference_host object_text
               = Some (Obj [("a", Num 1)])) by (vm_compute; reflexivity).
  assert (H5 : complete_prefix object_text (String.length object_text) = true)
    by (vm_compute; reflexivity).
  assert (H6 : forall n, complete_prefix " and th" n = false).
  { intros n. do 8 (destruct n as [|n]; [vm_compute; reflexivity|]).
    unfold complete_prefix. simpl String.get. reflexivity. }
  split; [exact H1|]. split; [exact H2|]. split; [exact H3|].
  split; [exact H4|]. split; [exact H5|]. split; [exact H6|].
  exact (proj2 (proj2 (@partial_json_rendering reference_host object_and_more
                         "" H1))
           object_text " and th" (Obj [("a", Num 1)]) H2 H3 H4 H5 H6).
Defined.

(** C4 as stated fails: the longest complete prefix of a text need not
    parse, and then nothing is pretty-printed: the prefix is shown as it
    is. When the complete prefix is the whole text, no marker follows. *)
Lemma complete_prefix_shown_raw :
  @JSON_parse reference_host balanced_not_json = None
  /\ complete_prefix balanced_not_json 3 = true
  /\ complete_prefix balanced_not_json 4 = false
  /\ @JSON_parse reference_host (take 3 balanced_not_json) = None
  /\ @streaming_json_text reference_host balanced_not_json ""
     = "{a}" ++ streaming_marker
  /\ @JSON_parse reference_host "{a}" = None
  /\ @streaming_json_text reference_host "{a}" "" = "{a}".
Proof. repeat split; vm_compute; reflexivity. Qed.

(** The call in [uploadPdfWithStreaming] hands the renderer the piece that
    has just arrived, and the renderer never reads the accumulated buffer
    it is also given: after two pieces, the element shows the second piece
    alone. *)
Example renderer_shows_latest_piece :
  jsonBuffer (@dispatch reference_host reference_utils PdfFile
                second_piece_record
                (@dispatch reference_host reference_utils PdfFile
                   first_piece_record new_upload))
  = dq "{'a':1}{'b"
  /\ streaming_json (@dispatch reference_host reference_utils PdfFile
                       second_piece_record
                       (@dispatch reference_host reference_utils PdfFile
                          first_piece_record new_upload))
     = Some (dq "{'b" ++ streaming_marker).
Proof. split; vm_compute; reflexivity. Qed.

End RendererFacts.

(* ================================================================== *)
(** * Facts about the search store and the chat history *)

Module SearchFacts.
Import JSString JSNumber JSValue Search JSNumberFacts.

Section Store.
Variable renderResultItem : value -> exc string.


End Store.

Import Samples.



End SearchFacts.

Module ChatFacts.
Import JSString JSNumber JSValue Chat.

Lemma slice_last_short {A : Type} (n : nat) (l : list A) :
  List.length l <= n -> slice_last n l = l.
Proof.
  intros H. unfold slice_last.
  replace (List.length l - n) with 0 by lia. reflexivity.
Qed.

Lemma length_slice_last {A : Type} (n : nat) (l : list A) :
  List.length (slice_last n l) <= n.
Proof. unfold slice_last. rewrite length_skipn. lia. Qed.

Lemma slice_last_keeps_end {A : Type} (n : nat) (l tail : list A) :
  List.length tail <= n ->
  exists before, slice_last n (l ++ tail) = (before ++ tail)%list.
Proof.
  intros H. unfold slice_last. rewrite length_app, skipn_app.
  replace (List.length l + List.length tail - n - List.length l) with 0
    by lia.
  now exists (skipn (List.length l + List.length tail - n) l).
Qed.

Section History.
Context {utils : UtilsScript}.

Lemma addMessage_history (r : string) (c : value) (s : chat) :
  chatHistory (snd (addMessage r c s)) = chatHistory s.
Proof. unfold addMessage. now destruct (Utils_formatMessage c). Qed.

(** What a call that is answered leaves in the history. *)
Lemma sendMessage_answered (input : string) (request : exc value) (s : chat)
  (responseText : value) :
  fst (sendMessage input request s) = Answered responseText ->
  let pushed :=
    (chatHistory s
       ++ [{| role := "user"; content := Str (trim input) |};
           {| role := "assistant"; content := responseText |}])%list in
  chatHistory (snd (sendMessage input request s))
  = if (maxChatHistory <? List.length pushed)%nat
    then slice_last maxChatHistory pushed else pushed.
Proof.
  unfold sendMessage.
  destruct (negb (JSString.nonempty (trim input))); [discriminate|].
  pose proof (addMessage_history "user" (Str (trim input)) s) as H0.
  destruct (addMessage "user" (Str (trim input)) s) as [[[]|e] s0];
    [|discriminate].
  simpl in H0. destruct request as [data|e].
  - set (text := or_else (get_opt data "response")
                   (Str "No response received")).
    pose proof (addMessage_history "assistant" text
                  (set_typing false (set_typing true s0))) as H3.
    destruct (addMessage "assistant" text
                (set_typing false (set_typing true s0))) as [[[]|e] s3].
    + simpl in H3. intros H. injection H as <-. cbn [snd chatHistory].
      rewrite H3, H0. reflexivity.
    + destruct (addMessage "error" _ _) as [[[]|e'] s6]; discriminate.
  - destruct (addMessage "error" _ _) as [[[]|e'] s6]; discriminate.
Qed.

(** C10. After a call of [sendMessage] that is answered, the history is
    the earlier history followed by the user's message and the answer,
    cut to its last [maxChatHistory] (100) entries when it is longer than
    that: it ends with the two new entries and has at most 100 entries. *)
Theorem chat_history_bounded (input : string) (request : exc value)
  (s : chat) (responseText : value) :
  fst (sendMessage input request s) = Answered responseText ->
  let user := {| role := "user"; content := Str (trim input) |} in
  let assistant := {| role := "assistant"; content := responseText |} in
  let history := chatHistory (snd (sendMessage input request s)) in
  history = slice_last maxChatHistory (chatHistory s ++ [user; assistant])%list
  /\ List.length history <= maxChatHistory
  /\ (exists before, history = (before ++ [user; assistant])%list)
  /\ (List.length (chatHistory s) + 2 <= maxChatHistory ->
      history = (chatHistory s ++ [user; assistant])%list).
Proof.
  intros H user assistant history.
  pose proof (sendMessage_answered input request s responseText H) as E.
  cbv zeta in E. fold user assistant history in E.
  set (pushed := (chatHistory s ++ [user; assistant])%list) in *.
  assert (Hs : history = slice_last maxChatHistory pushed).
  { rewrite E. destruct (Nat.ltb_spec maxChatHistory (List.length pushed));
      [reflexivity | symmetry; now apply slice_last_short]. }
  split; [exact Hs|]. split; [rewrite Hs; apply length_slice_last|].
  split.
  - rewrite Hs. apply slice_last_keeps_end. unfold maxChatHistory. simpl. lia.
  - intros Hl. rewrite Hs. apply slice_last_short.
    unfold pushed. rewrite length_app. simpl. lia.
Qed.

End History.

Import Samples.

Lemma chat_history_bounded_witness :
  fst (@sendMessage reference_utils " What is in the image? " (Ok reply)
         long_chat) = Answered (Str "Hi there")
  /\ List.length
       (chatHistory
          (snd (@sendMessage reference_utils " What is in the image? "
                  (Ok reply) long_chat))) <= maxChatHistory
  /\ exists before,
       chatHistory
         (snd (@sendMessage reference_utils " What is in the image? "
                 (Ok reply) long_chat))
       = (before
            ++ [{| role := "user";
                   content := Str (JSString.trim " What is in the image? ") |};
                {| role := "assistant"; content := Str "Hi there" |}])%list.
Proof.
  assert (H : fst (@sendMessage reference_utils " What is in the image? "
                     (Ok reply) long_chat) = Answered (Str "Hi there"))
    by (vm_compute; reflexivity).
  pose proof (@chat_history_bounded reference_utils
                " What is in the image? " (Ok reply) long_chat
                (Str "Hi there") H) as (_ & W2 & W3 & _).
  split; [exact H|]. split; [exact W2 | exact W3].
Defined.

End ChatFacts.

(* ================================================================== *)
(** * Facts about the events of an upload request *)

Module XhrFacts.
Import JSString JSNumber JSValue FileUpload Platform Xhr.
Import JSStringFacts StreamFacts.


Section Events.
Context {host : Host} {utils : UtilsScript} {numbers : HostNumber}.


Lemma onreadystatechange_frozen (k : file_kind) (readyState : nat)
  (responseText : string) (st : stream) :
  settled (item st) <> Pending ->
  settled (item (onreadystatechange (on_data k) readyState responseText st))
  = settled (item st).
Proof.
  intros H. unfold onreadystatechange.
  destruct ((readyState =? 3)%nat || (readyState =? 4)%nat); [|reflexivity].
  pose proof (on_lines_frozen k
                (split newline (drop (String.length (buffer st)) responseText))
                (item st) H) as E.
  destruct (on_lines _ _ _) as [u out]. exact E.
Qed.

Lemma reject_settled (reason : value) (p : promise) :
  p <> Pending -> reject reason p = p.
Proof. destruct p; [congruence | reflexivity | reflexivity]. Qed.

Lemma listen_frozen (k : file_kind) (e : xhr_event) (st : stream) :
  settled (item st) <> Pending ->
  settled (item (listen k st e)) = settled (item st).
Proof.
  intros H. destruct e as [c loaded total | rs text | status statusText | |];
    simpl.
  - unfold onprogress. now destruct c.
  - now apply onreadystatechange_frozen.
  - unfold onload. destruct (status =? 200)%nat; [reflexivity|].
    simpl. now apply reject_settled.
  - now apply reject_settled.
  - now apply reject_settled.
Qed.

(** X2. Once the promise of an upload is settled, no event of the request
    changes the outcome: neither further lines of the stream, whatever
    they hold, nor [load], [error] or [abort]. *)
Theorem settled_outcome_is_final (k : file_kind) (events : list xhr_event)
  (st : stream) :
  settled (item st) <> Pending ->
  settled (item (fold_left (listen k) events st)) = settled (item st).
Proof.
  revert st. induction events as [|e events IH]; intros st H; [reflexivity|].
  simpl. rewrite IH; rewrite (listen_frozen k e st H); [reflexivity | exact H].
Qed.






(** X4. A record that is not an object of type [progress], [complete] or
    [error] is passed over: the upload is as it was. *)
Theorem record_of_another_type_is_ignored (k : file_kind) (data : value)
  (u : upload) :
  is_str (get_opt data "type") "progress" = false ->
  is_str (get_opt data "type") "complete" = false ->
  is_str (get_opt data "type") "error" = false ->
  dispatch k data u = u.
Proof.
  unfold get_opt, dispatch. intros Hp Hc He.
  destruct k; unfold on_data, image_on_data, pdf_on_data, bind, console_log,
    lift; cbn [fst snd];
    destruct (get data "type") as [t|e]; try reflexivity;
    rewrite Hp, Hc, He; reflexivity.
Qed.

(** A record with a type has its other properties read without a throw. *)
Lemma get_of_typed (data : value) (t k : string) :
  get data "type" = Ok (Str t) -> get data k = Ok (get_opt data k).
Proof.
  unfold get_opt. destruct data; simpl; try discriminate; reflexivity.
Qed.

(** One piece of the caption. *)
Lemma image_caption_step (data : value) (p : float) (chunk : string)
  (u : upload) :
  get data "type" = Ok (Str "progress") ->
  ToNumber (get_opt data "percent") = Ok p ->
  get data "stage" = Ok (Str ("CAPTION_CHUNK:" ++ chunk)) ->
  let caption := captionBuffer u ++ chunk in
  dispatch ImageFile data u
  = set_color "#10b981"
      (set_textContent caption
         (set_width
            (NumberToString
               (20 + (30 * c0_8) + (captionProgress caption * 30 * c0_8))
             ++ "%")
            (set_captionBuffer caption
               (set_width (NumberToString (20 + (p * c0_8)) ++ "%") u)))).
Proof.
  intros Ht Hp Hs caption. unfold dispatch.
  rewrite (on_data_progress ImageFile data _ Ht).
  unfold image_on_progress, bind, lift, assign, read.
  cbn [fst snd]. rewrite (get_of_typed data _ "percent" Ht), Hp, Hs.
  rewrite ProgressFacts.and_startsWith_prefix by discriminate.
  cbn [this_string]. rewrite replace_prefix. reflexivity.
Qed.

(** X5. The pieces of a caption accumulate: after a run of
    [CAPTION_CHUNK:] records the caption buffer is the earlier buffer
    followed by the pieces in order, the status text shows the whole of
    it, and neither the other buffer nor the promise has changed. *)
Theorem caption_chunks_accumulate (records : list value)
  (chunks : list string) (u : upload) :
  Forall2 (fun data chunk =>
             get data "type" = Ok (Str "progress")
             /\ (exists p, ToNumber (get_opt data "percent") = Ok p)
             /\ get data "stage" = Ok (Str ("CAPTION_CHUNK:" ++ chunk)))
          records chunks ->
  let u' := fold_left (fun u data => dispatch ImageFile data u) records u in
  captionBuffer u' = captionBuffer u ++ String.concat "" chunks
  /\ jsonBuffer u' = jsonBuffer u
  /\ settled u' = settled u
  /\ (records <> [] ->
      textContent u' = captionBuffer u'
      /\ color u' = "#10b981"
      /\ width u'
         = NumberToString
             (20 + (30 * c0_8) + (captionProgress (captionBuffer u') * 30 * c0_8))
           ++ "%").
Proof.
  intros H. revert u.
  induction H as [|data chunk records chunks (Ht & [p Hp] & Hs) H IH];
    intros u; cbv zeta.
  - simpl. rewrite append_nil_r. repeat split; congruence.
  - simpl fold_left.
    pose proof (image_caption_step data p chunk u Ht Hp Hs) as E.
    cbv zeta in E. specialize (IH (dispatch ImageFile data u)).
    cbv zeta in IH. destruct IH as (I1 & I2 & I3 & I4).
    assert (Hc : String.concat "" (chunk :: chunks)
                 = chunk ++ String.concat "" chunks).
    { destruct chunks; [now rewrite append_nil_r | reflexivity]. }
    split; [|split; [|split]].
    + rewrite I1, E, Hc. cbn. now rewrite append_assoc.
    + rewrite I2, E. reflexivity.
    + rewrite I3, E. reflexivity.
    + intros _. destruct records as [|r records].
      * inversion H; subst. simpl. rewrite E. cbn. auto.
      * apply I4. discriminate.
Qed.

(** X6. The pieces of the structured document accumulate in the PDF
    path: after a run of [STRUCTURED_CHUNK:] records the JSON buffer is the
    earlier buffer followed by the payloads in order, the bar is computed
    from its length, and the status text reads 'Structuring document...'. *)
Theorem structured_chunks_accumulate (records : list value)
  (chunks : list string) (u : upload) :
  Forall2 (fun data chunk =>
             get data "type" = Ok (Str "progress")
             /\ (exists w, ToString (get_opt data "percent") = Ok w)
             /\ get data "stage" = Ok (Str ("STRUCTURED_CHUNK:" ++ chunk)))
          records chunks ->
  let u' := fold_left (fun u data => dispatch PdfFile data u) records u in
  jsonBuffer u' = jsonBuffer u ++ String.concat "" chunks
  /\ captionBuffer u' = captionBuffer u
  /\ settled u' = settled u
  /\ (records <> [] ->
      textContent u' = "Structuring document..."
      /\ width u'
         = NumberToString (20 + 30 + jsonProgress (jsonBuffer u') * 40) ++ "%").
Proof.
  intros H. revert u.
  induction H as [|data chunk records chunks (Ht & [w Hw] & Hs) H IH];
    intros u; cbv zeta.
  - simpl. rewrite append_nil_r. repeat split; congruence.
  - simpl fold_left.
    pose proof (ProgressFacts.pdf_structured_stage data _ chunk w u Ht
                  (get_of_typed data _ "percent" Ht) Hw Hs) as E.
    destruct (ProgressFacts.pdf_structured_chunk_effect chunk
                (set_width (w ++ "%") u, [LogParsed data]))
      as (E1 & E2 & E3 & _ & E5).
    rewrite <- E in E1, E2, E3, E5. cbn [fst jsonBuffer captionBuffer set_width]
      in E1, E2.
    assert (E4 : settled (dispatch PdfFile data u) = settled u).
    { apply dispatch_not_terminal. unfold terminal, get_opt. now rewrite Ht. }
    specialize (IH (dispatch PdfFile data u)).
    cbv zeta in IH. destruct IH as (I1 & I2 & I3 & I4).
    assert (Hc : String.concat "" (chunk :: chunks)
                 = chunk ++ String.concat "" chunks).
    { destruct chunks; [now rewrite append_nil_r | reflexivity]. }
    split; [|split; [|split]].
    + rewrite I1, E1, Hc. now rewrite append_assoc.
    + now rewrite I2, E2.
    + now rewrite I3, E4.
    + intros _. destruct records as [|r records].
      * inversion H; subst. simpl. auto.
      * apply I4. discriminate.
Qed.

(** X7. A stage [OCR_TEXT:] and a text, in the image path: the status
    text shows 'OCR Text: ' and the text in blue, the text is logged, the
    bar follows [percent], and no buffer changes. Only the prefix is
    removed, also when the text holds [OCR_TEXT:] again. *)
Theorem ocr_text_stage_display (data : value) (p : float) (text : string)
  (u : upload) :
  get data "type" = Ok (Str "progress") ->
  ToNumber (get_opt data "percent") = Ok p ->
  get data "stage" = Ok (Str ("OCR_TEXT:" ++ text)) ->
  on_data ImageFile data (u, [])
  = (Ok tt,
     (set_color "#3b82f6"
        (set_textContent ("OCR Text: " ++ text)
           (set_width (NumberToString (20 + (p * c0_8)) ++ "%") u)),
      [LogParsed data; LogOcr text])).
Proof.
  intros Ht Hp Hs.
  rewrite (on_data_progress ImageFile data _ Ht).
  unfold image_on_progress, bind, lift, assign, read, console_log.
  cbn [fst snd]. rewrite (get_of_typed data _ "percent" Ht), Hp, Hs.
  rewrite (ProgressFacts.and_startsWith_other "CAPTION_CHUNK:") by reflexivity.
  rewrite ProgressFacts.and_startsWith_prefix by discriminate.
  cbn [this_string]. rewrite replace_prefix. reflexivity.
Qed.

(** What [displayUploadResults] leaves when it throws: the earlier
    results are gone and nothing stands in their place. *)
Lemma displayUploadResults_throws (data : value)
  (s : upload * list log_entry) :
  fst (displayUploadResults data s) <> Ok tt ->
  snd (displayUploadResults data s) = (set_upload_results None (fst s), snd s).
Proof.
  unfold displayUploadResults, keywords_text, bind, lift, assign, ret.
  cbn [fst snd].
  repeat match goal with
         | |- context [get ?a ?b] => destruct (get a b); cbn [fst snd]
         | |- context [ToString ?a] => destruct (ToString a); cbn [fst snd]
         | |- context [call_join ?a ?b] =>
             destruct (call_join a b); cbn [fst snd]
         | |- context [Utils_escapeHtml ?a] =>
             destruct (Utils_escapeHtml a); cbn [fst snd]
         | |- context [if truthy ?a then _ else _] =>
             destruct (truthy a); cbn [fst snd]
         end; try reflexivity; intros H; now elim H.
Qed.

(** X8. A [complete] record that [displayUploadResults] cannot render:
    the bar is at 100% and the status text reads 'Upload complete!', the
    results of an earlier record are removed and none are shown, and the
    promise is not settled by this record. *)
Theorem unrendered_complete_record (k : file_kind) (data : value)
  (u : upload) :
  get data "type" = Ok (Str "complete") ->
  ~ renders data ->
  let u' := dispatch k data u in
  width u' = "100%"
  /\ textContent u' = "Upload complete!"
  /\ upload_results u' = None
  /\ settled u' = settled u
  /\ captionBuffer u' = captionBuffer u
  /\ jsonBuffer u' = jsonBuffer u.
Proof.
  intros Ht Hr u'. unfold u', dispatch.
  rewrite (on_data_complete k data _ Ht). cbn [fst snd app].
  set (s := (set_textContent "Upload complete!" (set_width "100%" u),
             [LogParsed data])).
  change (on_complete data (u, [LogParsed data]))
    with (bind (displayUploadResults data)
            (fun _ => assign (fun u => set_settled (resolve data (settled u)) u))
            s).
  assert (Hs : fst (displayUploadResults data s) <> Ok tt).
  { rewrite (displayUploadResults_same_result data s (new_upload, [])).
    exact Hr. }
  pose proof (displayUploadResults_throws data s Hs) as E.
  unfold bind. destruct (displayUploadResults data s) as [[[]|e] s'].
  - now elim Hs.
  - cbn [fst snd] in E |- *. subst s'. cbn. repeat split; reflexivity.
Qed.

(** X9. A record that has a [document_id] and none of the other fields
    is rendered with what the missing fields read as: 'undefined' for the
    length and the vector length, 'None' for the keywords and 'N/A' for
    the path. The rows replace whatever was shown before. *)
Theorem document_record_with_missing_fields (fields : list (string * value))
  (id : string) (u : upload) (l : list log_entry) :
  own "document_id" fields = Some (Str id) -> id <> "" ->
  own "content_length" fields = None ->
  own "keywords" fields = None ->
  own "vector_length" fields = None ->
  own "file_path" fields = None ->
  let r := displayUploadResults (Obj fields) (u, l) in
  fst r = Ok tt
  /\ upload_results (fst (snd r))
     = Some [("Document ID:", id);
             ("Content Length:", "undefined characters");
             ("Keywords:", "None");
             ("Vector Length:", "undefined");
             ("File Path:", "N/A")]
  /\ snd (snd r) = l.
Proof.
  intros Hid Hne Hc Hk Hv Hf r. unfold r.
  unfold displayUploadResults, keywords_text, bind, lift, assign, ret.
  cbn [fst snd get]. rewrite Hid, Hc, Hk, Hv, Hf.
  destruct id as [|c id]; [congruence|]. cbn. auto.
Qed.

(** The state that [displayUploadResults] leaves, its results apart. *)
Lemma displayUploadResults_frame (data : value)
  (s : upload * list log_entry) :
  set_upload_results None (fst (snd (displayUploadResults data s)))
  = set_upload_results None (fst s)
  /\ snd (snd (displayUploadResults data s)) = snd s.
Proof.
  unfold displayUploadResults, keywords_text, bind, lift, assign, ret.
  cbn [fst snd].
  repeat match goal with
         | |- context [get ?a ?b] => destruct (get a b); cbn [fst snd]
         | |- context [ToString ?a] => destruct (ToString a); cbn [fst snd]
         | |- context [call_join ?a ?b] =>
             destruct (call_join a b); cbn [fst snd]
         | |- context [Utils_escapeHtml ?a] =>
             destruct (Utils_escapeHtml a); cbn [fst snd]
         | |- context [if truthy ?a then _ else _] =>
             destruct (truthy a); cbn [fst snd]
         end; split; reflexivity.
Qed.

Lemma displayUploadResults_rows (data : value)
  (s s' : upload * list log_entry) :
  upload_results (fst (snd (displayUploadResults data s)))
  = upload_results (fst (snd (displayUploadResults data s'))).
Proof.
  unfold displayUploadResults, keywords_text, bind, lift, assign, ret.
  cbn [fst snd].
  repeat match goal with
         | |- context [get ?a ?b] => destruct (get a b); cbn [fst snd]
         | |- context [ToString ?a] => destruct (ToString a); cbn [fst snd]
         | |- context [call_join ?a ?b] =>
             destruct (call_join a b); cbn [fst snd]
         | |- context [Utils_escapeHtml ?a] =>
             destruct (Utils_escapeHtml a); cbn [fst snd]
         | |- context [if truthy ?a then _ else _] =>
             destruct (truthy a); cbn [fst snd]
         end; reflexivity.
Qed.

Lemma displayUploadResults_again (data : value)
  (s : upload * list log_entry) :
  snd (displayUploadResults data (snd (displayUploadResults data s)))
  = snd (displayUploadResults data s).
Proof.
  unfold displayUploadResults, keywords_text, bind, lift, assign, ret.
  cbn [fst snd].
  repeat match goal with
         | |- context [get ?a ?b] => destruct (get a b); cbn [fst snd]
         | |- context [ToString ?a] => destruct (ToString a); cbn [fst snd]
         | |- context [call_join ?a ?b] =>
             destruct (call_join a b); cbn [fst snd]
         | |- context [Utils_escapeHtml ?a] =>
             destruct (Utils_escapeHtml a); cbn [fst snd]
         | |- context [if truthy ?a then _ else _] =>
             destruct (truthy a); cbn [fst snd]
         end; reflexivity.
Qed.

(** X22. [displayUploadResults] writes to the results of the item and to
    nothing else: the buffers, the bar, the status text, the streamed
    JSON, the promise and the console are as before, whether it returns
    or throws; and what it shows depends on the record alone, not on what
    was shown before, so that rendering a record twice shows what
    rendering it once shows. *)
Theorem displayUploadResults_writes_only_the_results (data : value)
  (s s' : upload * list log_entry) :
  let r := displayUploadResults data s in
  let u := fst s in
  let u' := fst (snd r) in
  (captionBuffer u' = captionBuffer u /\ jsonBuffer u' = jsonBuffer u
   /\ width u' = width u /\ textContent u' = textContent u
   /\ color u' = color u /\ streaming_json u' = streaming_json u
   /\ settled u' = settled u)
  /\ snd (snd r) = snd s
  /\ fst r = fst (displayUploadResults data s')
  /\ upload_results u'
     = upload_results (fst (snd (displayUploadResults data s')))
  /\ snd (displayUploadResults data (snd r)) = snd r.
Proof.
  intros r u u'.
  destruct (displayUploadResults_frame data s) as [F L].
  fold r in F, L. fold u' in F. fold u in F.
  assert (Frame : captionBuffer u' = captionBuffer u
                  /\ jsonBuffer u' = jsonBuffer u
                  /\ width u' = width u /\ textContent u' = textContent u
                  /\ color u' = color u
                  /\ streaming_json u' = streaming_json u
                  /\ settled u' = settled u).
  { pose proof (f_equal captionBuffer F) as F1.
    pose proof (f_equal jsonBuffer F) as F2.
    pose proof (f_equal width F) as F3.
    pose proof (f_equal textContent F) as F4.
    pose proof (f_equal color F) as F5.
    pose proof (f_equal streaming_json F) as F6.
    pose proof (f_equal settled F) as F7.
    simpl in *. repeat split; assumption. }
  split; [exact Frame|]. split; [exact L|].
  split; [apply displayUploadResults_same_result|].
  split; [apply displayUploadResults_rows|].
  apply displayUploadResults_again.
Qed.

End Events.

Import Samples Scenarios.
#[local] Existing Instance reference_host.
#[local] Existing Instance reference_utils.
#[local] Existing Instance reference_numbers.


Lemma settled_outcome_is_final_witness :
  settled (item failed_stream) <> Pending
  /\ settled (item (fold_left (listen PdfFile) late_events failed_stream))
     = settled (item failed_stream).
Proof.
  assert (H : settled (item failed_stream) <> Pending)
    by (simpl; discriminate).
  split; [exact H|].
  exact (settled_outcome_is_final PdfFile late_events failed_stream H).
Defined.


Lemma record_of_another_type_is_ignored_witness :
  is_str (get_opt heartbeat_record "type") "progress" = false
  /\ is_str (get_opt heartbeat_record "type") "complete" = false
  /\ is_str (get_opt heartbeat_record "type") "error" = false
  /\ dispatch PdfFile heartbeat_record new_upload = new_upload.
Proof.
  assert (H1 : is_str (get_opt heartbeat_record "type") "progress" = false)
    by reflexivity.
  assert (H2 : is_str (get_opt heartbeat_record "type") "complete" = false)
    by reflexivity.
  assert (H3 : is_str (get_opt heartbeat_record "type") "error" = false)
    by reflexivity.
  split; [exact H1|]. split; [exact H2|]. split; [exact H3|].
  exact (record_of_another_type_is_ignored PdfFile heartbeat_record
           new_upload H1 H2 H3).
Defined.

Lemma caption_chunks_accumulate_witness :
  Forall2 (fun data chunk =>
             get data "type" = Ok (Str "progress")
             /\ (exists p, ToNumber (get_opt data "percent") = Ok p)
             /\ get data "stage" = Ok (Str ("CAPTION_CHUNK:" ++ chunk)))
          caption_records ["a cat"; " on a mat"]
  /\ captionBuffer
       (fold_left (fun u data => dispatch ImageFile data u) caption_records
          new_upload)
     = captionBuffer new_upload ++ String.concat "" ["a cat"; " on a mat"]
  /\ settled
       (fold_left (fun u data => dispatch ImageFile data u) caption_records
          new_upload)
     = settled new_upload.
Proof.
  assert (H : Forall2 (fun data chunk =>
                get data "type" = Ok (Str "progress")
                /\ (exists p, ToNumber (get_opt data "percent") = Ok p)
                /\ get data "stage" = Ok (Str ("CAPTION_CHUNK:" ++ chunk)))
                caption_records ["a cat"; " on a mat"]).
  { repeat first [apply Forall2_nil | apply Forall2_cons];
      (split; [reflexivity|]; split; [eexists; reflexivity | reflexivity]). }
  pose proof (caption_chunks_accumulate caption_records
                ["a cat"; " on a mat"] new_upload H) as (W1 & _ & W3 & _).
  split; [exact H|]. split; [exact W1 | exact W3].
Defined.

Lemma structured_chunks_accumulate_witness :
  Forall2 (fun data chunk =>
             get data "type" = Ok (Str "progress")
             /\ (exists w, ToString (get_opt data "percent") = Ok w)
             /\ get data "stage" = Ok (Str ("STRUCTURED_CHUNK:" ++ chunk)))
          [first_piece_record; second_piece_record]
          [dq "{'a':1}"; dq "{'b"]
  /\ jsonBuffer
       (fold_left (fun u data => dispatch PdfFile data u)
          [first_piece_record; second_piece_record] new_upload)
     = jsonBuffer new_upload ++ String.concat "" [dq "{'a':1}"; dq "{'b"].
Proof.
  assert (H : Forall2 (fun data chunk =>
                get data "type" = Ok (Str "progress")
                /\ (exists w, ToString (get_opt data "percent") = Ok w)
                /\ get data "stage" = Ok (Str ("STRUCTURED_CHUNK:" ++ chunk)))
                [first_piece_record; second_piece_record]
                [dq "{'a':1}"; dq "{'b"]).
  { repeat first [apply Forall2_nil | apply Forall2_cons];
      (split; [reflexivity|]; split; [eexists; reflexivity | reflexivity]). }
  pose proof (structured_chunks_accumulate
                [first_piece_record; second_piece_record]
                [dq "{'a':1}"; dq "{'b"] new_upload H) as (W1 & _).
  split; [exact H | exact W1].
Defined.

Lemma ocr_text_stage_display_witness :
  get ocr_record "type" = Ok (Str "progress")
  /\ ToNumber (get_opt ocr_record "percent") = Ok 60%float
  /\ get ocr_record "stage" = Ok (Str ("OCR_TEXT:" ++ "EXIT OCR_TEXT:12"))
  /\ on_data ImageFile ocr_record (new_upload, [])
     = (Ok tt,
        (set_color "#3b82f6"
           (set_textContent ("OCR Text: " ++ "EXIT OCR_TEXT:12")
              (set_width (NumberToString (20 + (60 * c0_8)) ++ "%")
                 new_upload)),
         [LogParsed ocr_record; LogOcr "EXIT OCR_TEXT:12"])).
Proof.
  assert (H1 : get ocr_record "type" = Ok (Str "progress")) by reflexivity.
  assert (H2 : ToNumber (get_opt ocr_record "percent") = Ok 60%float)
    by reflexivity.
  assert (H3 : get ocr_record "stage"
               = Ok (Str ("OCR_TEXT:" ++ "EXIT OCR_TEXT:12"))) by reflexivity.
  split; [exact H1|]. split; [exact H2|]. split; [exact H3|].
  exact (ocr_text_stage_display ocr_record 60 "EXIT OCR_TEXT:12" new_upload
           H1 H2 H3).
Defined.

Lemma unrendered_complete_record_witness :
  get unrenderable_record "type" = Ok (Str "complete")
  /\ ~ renders unrenderable_record
  /\ width (dispatch PdfFile unrenderable_record new_upload) = "100%"
  /\ textContent (dispatch PdfFile unrenderable_record new_upload)
     = "Upload complete!"
  /\ upload_results (dispatch PdfFile unrenderable_record new_upload) = None
  /\ settled (dispatch PdfFile unrenderable_record new_upload)
     = settled new_upload.
Proof.
  assert (H1 : get unrenderable_record "type" = Ok (Str "complete"))
    by reflexivity.
  assert (H2 : ~ renders unrenderable_record)
    by (intros H; vm_compute in H; discriminate).
  pose proof (unrendered_complete_record PdfFile unrenderable_record
                new_upload H1 H2) as (W1 & W2 & W3 & W4 & _).
  split; [exact H1|]. split; [exact H2|]. split; [exact W1|].
  split; [exact W2|]. split; [exact W3 | exact W4].
Defined.

Lemma document_record_with_missing_fields_witness :
  own "document_id" [("type", Str "complete"); ("document_id", Str "abc123")]
  = Some (Str "abc123")
  /\ "abc123" <> ""
  /\ own "content_length"
       [("type", Str "complete"); ("document_id", Str "abc123")] = None
  /\ own "keywords"
       [("type", Str "complete"); ("document_id", Str "abc123")] = None
  /\ own "vector_length"
       [("type", Str "complete"); ("document_id", Str "abc123")] = None
  /\ own "file_path"
       [("type", Str "complete"); ("document_id", Str "abc123")] = None
  /\ upload_results
       (fst (snd (displayUploadResults complete_record (new_upload, []))))
     = Some [("Document ID:", "abc123");
             ("Content Length:", "undefined characters");
             ("Keywords:", "None");
             ("Vector Length:", "undefined");
             ("File Path:", "N/A")].
Proof.
  assert (H2 : "abc123" <> "") by discriminate.
  split; [reflexivity|]. split; [exact H2|]. split; [reflexivity|].
  split; [reflexivity|]. split; [reflexivity|]. split; [reflexivity|].
  exact (proj1 (proj2 (document_record_with_missing_fields
                         [("type", Str "complete");
                          ("document_id", Str "abc123")]
                         "abc123" new_upload [] eq_refl H2 eq_refl eq_refl
                         eq_refl eq_refl))).
Defined.

End XhrFacts.

(* ================================================================== *)
(** * Facts about [uploadFiles] *)

Module UploadFilesFacts.
Import JSString JSNumber JSValue FileUpload Platform Xhr UploadFiles.

Lemma nth_error_update {A : Type} (f : A -> A) (l : list A) (i j : nat) :
  nth_error (update i f l) j
  = if (i =? j)%nat then option_map f (nth_error l j) else nth_error l j.
Proof.
  revert i j. induction l as [|x l IH]; intros i j.
  - destruct i, j; simpl; try reflexivity; now destruct (_ =? _)%nat.
  - destruct i as [|i], j as [|j]; simpl; try reflexivity. apply IH.
Qed.

Lemma length_update {A : Type} (f : A -> A) (l : list A) (i : nat) :
  List.length (update i f l) = List.length l.
Proof.
  revert i. induction l as [|x l IH]; intros [|i]; simpl; auto.
Qed.

Lemma started_from_in (files : list file) :
  forall index i k,
  In (i, k) (started_from index files) ->
  index <= i /\ exists f, nth_error files (i - index) = Some f
                          /\ route f = Some k.
Proof.
  induction files as [|f files IH]; intros index i k H; [contradiction|].
  simpl in H.
  assert (R : In (i, k) (started_from (S index) files) ->
              index <= i /\ exists f', nth_error (f :: files) (i - index)
                                       = Some f' /\ route f' = Some k).
  { intros H'. destruct (IH _ _ _ H') as (Hle & f' & Hn & Hr).
    split; [lia|]. exists f'. split; [|exact Hr].
    replace (i - index) with (S (i - S index)) by lia. exact Hn. }
  destruct (route f) as [k0|] eqn:E; [|auto].
  destruct H as [H|H]; [|auto].
  injection H as <- <-. split; [lia|]. exists f.
  now rewrite Nat.sub_diag.
Qed.

Lemma started_from_NoDup (files : list file) :
  forall index, NoDup (map fst (started_from index files)).
Proof.
  induction files as [|f files IH]; intros index; [constructor|].
  simpl. destruct (route f) as [k|]; [|apply IH].
  simpl. constructor; [|apply IH].
  intros H. apply in_map_iff in H as ([i k'] & Hi & H). simpl in Hi. subst i.
  apply started_from_in in H. lia.
Qed.

Lemma started_from_length (files : list file) (index : nat) :
  List.length (started_from index files) <= List.length files.
Proof.
  revert index. induction files as [|f files IH]; intros index; [simpl; lia|].
  simpl. specialize (IH (S index)). destruct (route f); simpl; lia.
Qed.

(** When every file has an upload function, the promise of index [j] is
    that of the file of index [j]. *)
Lemma started_from_supported (files : list file) :
  forall index j f k,
  Forall (fun f => route f <> None) files ->
  nth_error files j = Some f -> route f = Some k ->
  nth_error (started_from index files) j = Some (index + j, k).
Proof.
  induction files as [|f0 files IH]; intros index j f k Hs Hn Hr;
    [now destruct j|].
  inversion Hs as [|? ? H0 Hs']; subst. simpl.
  destruct (route f0) as [k0|] eqn:E; [|congruence].
  destruct j as [|j]; simpl in *.
  - injection Hn as ->. rewrite Hr in E. injection E as ->.
    now rewrite Nat.add_0_r.
  - rewrite (IH (S index) j f k Hs' Hn Hr). f_equal. f_equal. lia.
Qed.

Section Facts.
Context {host : Host} {utils : UtilsScript} {numbers : HostNumber}
        {page_utils : UtilsPage}.

(** The item of a file whose name and size the helpers format. *)
Lemma create_item_ok (f : file) (n sz : string) :
  Utils_escapeHtml (Str (name f)) = Ok n ->
  Utils_formatFileSize (size f) = Ok sz ->
  exists it,
    create_item f = Ok (it, route f)
    /\ file_name it = n
    /\ (route f <> None -> view it = new_upload /\ classes it = ["file-item"])
    /\ (route f = None ->
        view it = set_textContent "Unsupported file type" new_upload
        /\ classes it = ["file-item"; "file-error"]).
Proof.
  intros Hn Hs. unfold create_item. rewrite Hn, Hs. simpl.
  destruct (route f) as [k|]; eexists; (split; [reflexivity|]); simpl;
    repeat split; congruence.
Qed.

Lemma create_items_spec (files : list file) :
  forall index items started,
  Forall formats files ->
  exists created,
    Forall2 created_for files created
    /\ create_items files index items started
       = (Ok tt, ((items ++ created)%list,
                  (started ++ started_from index files)%list)).
Proof.
  induction files as [|f files IH]; intros index items started Hf.
  - exists []. split; [constructor|]. simpl. now rewrite !app_nil_r.
  - inversion Hf as [|? ? (n & sz & Hn & Hs) Hf']; subst.
    destruct (create_item_ok f n sz Hn Hs) as (it & Hc & H1 & H2 & H3).
    simpl. rewrite Hc.
    destruct (IH (S index) (items ++ [it])%list
                (match route f with
                 | Some k => (started ++ [(index, k)])%list
                 | None => started
                 end) Hf') as (created & Hcr & E).
    exists (it :: created). split.
    + constructor; [|exact Hcr]. unfold created_for. rewrite Hn. auto.
    + rewrite E. rewrite <- app_assoc. simpl.
      destruct (route f); [now rewrite <- app_assoc | reflexivity].
Qed.

(** The uploads write to the items of their own files. *)
Lemma run_uploads_other (started : list (nat * file_kind)) :
  forall traffic items i,
  ~ In i (map fst started) ->
  nth_error (run_uploads started traffic items) i = nth_error items i.
Proof.
  induction started as [|[i0 k0] started IH]; intros traffic items i H;
    [reflexivity|].
  simpl in *. rewrite IH by tauto. rewrite nth_error_update.
  destruct (Nat.eqb_spec i0 i); [tauto | reflexivity].
Qed.

Lemma run_uploads_started (started : list (nat * file_kind)) :
  forall traffic items j i k,
  NoDup (map fst started) ->
  nth_error started j = Some (i, k) ->
  nth_error (run_uploads started traffic items) i
  = option_map (run_upload k (nth j traffic [])) (nth_error items i).
Proof.
  induction started as [|[i0 k0] started IH]; intros traffic items j i k Hd Hj;
    [now destruct j|].
  inversion Hd as [|? ? Hn Hd']; subst. simpl.
  destruct j as [|j]; simpl in Hj.
  - injection Hj as -> ->. rewrite run_uploads_other by exact Hn.
    rewrite nth_error_update, Nat.eqb_refl. now destruct traffic.
  - rewrite (IH (tl traffic) _ j i k Hd' Hj), nth_error_update.
    assert (i0 <> i).
    { intros ->. apply Hn. apply in_map_iff. exists (i, k). split; [reflexivity|].
      eapply nth_error_In, Hj. }
    destruct (Nat.eqb_spec i0 i); [tauto|].
    destruct traffic; [now destruct j | reflexivity].
Qed.

Lemma run_uploads_length (started : list (nat * file_kind)) :
  forall traffic items,
  List.length (run_uploads started traffic items) = List.length items.
Proof.
  induction started as [|[i0 k0] started IH]; intros traffic items;
    [reflexivity|].
  simpl. now rewrite IH, length_update.
Qed.

Lemma show_results_spec (files : list file) (results : list promise) :
  forall index pg,
  (forall m k, Utils_showNotification m k = Ok tt) ->
  Forall showable results ->
  index + List.length results <= List.length (fileItems pg) ->
  index + List.length results <= List.length files ->
  exists pg',
    show_results files results index pg = (Ok tt, pg')
    /\ (forall j,
          nth_error (fileItems pg') j
          = if ((index <=? j) && (j <? index + List.length results))%nat
            then option_map (shown (nth (j - index) results Pending))
                   (nth_error (fileItems pg) j)
            else nth_error (fileItems pg) j)
    /\ notifications pg'
       = (notifications pg
            ++ map (fun fr => note (fst fr) (snd fr))
                 (combine (skipn index files) results))%list.
Proof.
  induction results as [|result results IH]; intros index pg Hn Hs Hi Hf.
  - exists pg. split; [reflexivity|]. split.
    + intros j. simpl. rewrite Nat.add_0_r.
      destruct (Nat.leb_spec index j), (Nat.ltb_spec j index);
        try reflexivity; lia.
    + rewrite combine_nil. simpl. now rewrite app_nil_r.
  - inversion Hs as [|? ? Hr Hs']; subst. simpl List.length in *.
    destruct (nth_error (fileItems pg) index) as [it|] eqn:Ei;
      [|apply nth_error_None in Ei; lia].
    destruct (nth_error files index) as [f|] eqn:Ef;
      [|apply nth_error_None in Ef; lia].
    assert (Hsk : skipn index files = f :: skipn (S index) files).
    { clear - Ef. revert index Ef.
      induction files as [|f0 files IH]; intros [|index] Ef;
        try discriminate.
      - now injection Ef as ->.
      - simpl in Ef. simpl skipn at 1. rewrite (IH _ Ef). reflexivity. }
    assert (Step : exists pg1,
               show_result files index result pg = (Ok tt, pg1)
               /\ fileItems pg1 = update index (shown result) (fileItems pg)
               /\ notifications pg1
                  = (notifications pg ++ [note f result])%list).
    { unfold show_result, showNotification. rewrite Ei, Ef.
      destruct result as [|v|reason]; [contradiction| |].
      - rewrite Hn. eexists. split; [reflexivity|]. now split.
      - destruct Hr as [r Hr]. rewrite Hr, Hn.
        eexists. split; [reflexivity|]. simpl. unfold shown, note.
        rewrite Hr. now split. }
    destruct Step as (pg1 & E1 & I1 & N1).
    destruct (IH (S index) pg1 Hn Hs') as (pg' & E & I & N).
    + rewrite I1, length_update. lia.
    + lia.
    + exists pg'. split; [simpl; now rewrite E1|]. split.
      * intros j. rewrite I, I1, nth_error_update.
        destruct (Nat.eqb_spec index j) as [->|Hne].
        -- replace ((S j <=? j) && (j <? S j + List.length results))%nat
             with false
             by (symmetry; apply andb_false_intro1; apply Nat.leb_gt; lia).
           replace ((j <=? j) && (j <? j + S (List.length results)))%nat
             with true
             by (symmetry; apply andb_true_intro; split;
                 [apply Nat.leb_le | apply Nat.ltb_lt]; lia).
           now rewrite Nat.sub_diag.
        -- destruct (Nat.leb_spec (S index) j), (Nat.leb_spec index j),
             (Nat.ltb_spec j (S index + List.length results)),
             (Nat.ltb_spec j (index + S (List.length results)));
             simpl; try reflexivity; try lia.
           replace (j - index) with (S (j - S index)) by lia. reflexivity.
      * rewrite N, N1, Hsk. simpl. now rewrite <- app_assoc.
Qed.

Lemma ends_of_nth (started : list (nat * file_kind)) :
  forall traffic j i k,
  nth_error started j = Some (i, k) ->
  nth_error (ends_of started traffic) j = Some (ends k (nth j traffic [])).
Proof.
  induction started as [|[i0 k0] started IH]; intros traffic j i k H;
    [now destruct j|].
  destruct j as [|j]; simpl in *.
  - injection H as -> ->. now destruct traffic.
  - rewrite (IH (tl traffic) j i k H). destruct traffic; [now destruct j|].
    reflexivity.
Qed.

Lemma ends_of_length (started : list (nat * file_kind)) :
  forall traffic, List.length (ends_of started traffic) = List.length started.
Proof.
  induction started as [|[i0 k0] started IH]; intros traffic; simpl; auto.
Qed.

Lemma Forall2_nth_error {A B : Type} (R : A -> B -> Prop) (l : list A)
  (l' : list B) (i : nat) (a : A) :
  Forall2 R l l' -> nth_error l i = Some a ->
  exists b, nth_error l' i = Some b /\ R a b.
Proof.
  intros H. revert i. induction H as [|x y l l' Hxy H IH]; intros i Hi;
    [now destruct i|].
  destruct i as [|i]; simpl in *; [|now apply IH].
  injection Hi as ->. now exists y.
Qed.

(** The promises of the uploads, once the requests have run. *)
Lemma results_of_uploads (files : list file) (created : list file_item)
  (traffic : list (list xhr_event)) :
  Forall2 created_for files created ->
  let started := started_from 0 files in
  map (fun p => promise_of (run_uploads started traffic created) (fst p))
      started
  = ends_of started traffic.
Proof.
  intros Hc started. apply nth_error_ext. intros j.
  rewrite nth_error_map.
  destruct (nth_error started j) as [[i k]|] eqn:E.
  - rewrite (ends_of_nth started traffic j i k E). simpl. f_equal.
    unfold promise_of.
    rewrite (run_uploads_started started traffic created j i k
               (started_from_NoDup files 0) E).
    destruct (started_from_in files 0 i k (nth_error_In _ _ E))
      as (_ & f & Hf & Hr).
    rewrite Nat.sub_0_r in Hf.
    destruct (Forall2_nth_error _ _ _ _ _ Hc Hf) as (it & Hit & _ & Hv & _).
    rewrite Hit. simpl. destruct Hv as [Hv _]; [congruence|].
    unfold ends, new_stream. now rewrite Hv.
  - simpl. symmetry. apply nth_error_None.
    rewrite ends_of_length. now apply nth_error_None.
Qed.

(** A call of [uploadFiles] whose helpers return and whose uploads all
    end with a result that can be shown. *)
Lemma uploadFiles_returns (host_message : error -> string)
  (files : list file) (traffic : list (list xhr_event)) :
  Forall formats files ->
  (forall m k, Utils_showNotification m k = Ok tt) ->
  let started := started_from 0 files in
  let results := ends_of started traffic in
  Forall showable results ->
  exists created pg,
    Forall2 created_for files created
    /\ uploadFiles host_message files traffic = (Returned, pg)
    /\ (forall j,
          nth_error (fileItems pg) j
          = if (j <? List.length results)%nat
            then option_map (shown (nth j results Pending))
                   (nth_error (run_uploads started traffic created) j)
            else nth_error (run_uploads started traffic created) j)
    /\ notifications pg
       = map (fun fr => note (fst fr) (snd fr)) (combine files results).
Proof.
  intros Hf Hn started results Hs.
  destruct (create_items_spec files 0 [] [] Hf) as (created & Hc & E).
  simpl app in E. fold started in E.
  pose proof (results_of_uploads files created traffic Hc) as R.
  cbv zeta in R. fold started in R. fold results in R.
  assert (Hlen : List.length results <= List.length files).
  { unfold results. rewrite ends_of_length. apply started_from_length. }
  assert (Hlc : List.length created = List.length files).
  { symmetry. eapply Forall2_length, Hc. }
  destruct (show_results_spec files results 0
              {| fileItems := run_uploads started traffic created;
                 notifications := [] |} Hn Hs)
    as (pg & Es & I & N).
  { simpl. rewrite run_uploads_length. lia. }
  { simpl. lia. }
  exists created, pg. split; [exact Hc|]. split; [|split].
  - unfold uploadFiles. rewrite E, R.
    replace (existsb is_pending results) with false.
    + now rewrite Es.
    + symmetry. apply not_true_is_false. intros H.
      apply existsb_exists in H as (r & Hr & Hp).
      rewrite Forall_forall in Hs. specialize (Hs r Hr).
      now destruct r.
  - intros j. rewrite I. simpl. now rewrite Nat.sub_0_r.
  - rewrite N. reflexivity.
Qed.

Lemma In_add_class (c : string) (cs : list string) : In c (add_class c cs).
Proof.
  unfold add_class. destruct (existsb (String.eqb c) cs) eqn:E.
  - apply existsb_exists in E as (x & Hx & He).
    apply String.eqb_eq in He. now subst.
  - apply in_or_app. right. now left.
Qed.

(** X10. The results are shown by position: the result of the upload
    that was started as the [j]-th one is written to the [j]-th item of
    the list and announced under the name of the [j]-th file, while that
    upload is the one of the [j]-th file that has an upload function. When
    a file without one comes earlier in the list, the result appears on
    the item of another file. *)
Theorem results_are_shown_by_position (host_message : error -> string)
  (files : list file) (traffic : list (list xhr_event)) :
  Forall formats files ->
  (forall m k, Utils_showNotification m k = Ok tt) ->
  Forall showable (ends_of (started_from 0 files) traffic) ->
  fst (uploadFiles host_message files traffic) = Returned
  /\ forall j i k f,
       nth_error (started_from 0 files) j = Some (i, k) ->
       nth_error files j = Some f ->
       let result := ends k (nth j traffic []) in
       exists it,
         nth_error (fileItems (snd (uploadFiles host_message files traffic))) j
         = Some it
         /\ Utils_escapeHtml (Str (name f)) = Ok (file_name it)
         /\ nth_error
              (notifications (snd (uploadFiles host_message files traffic))) j
            = Some (note f result)
         /\ (forall v, result = Fulfilled v ->
               textContent (view it) = "Uploaded successfully"
               /\ In "file-success" (classes it))
         /\ (forall reason r, result = Rejected reason ->
               ToString reason = Ok r ->
               textContent (view it) = "Upload failed: " ++ r
               /\ In "file-error" (classes it)).
Proof.
  intros Hf Hn Hs.
  destruct (uploadFiles_returns host_message files traffic Hf Hn Hs)
    as (created & pg & Hc & E & I & N).
  rewrite E. split; [reflexivity|].
  intros j i k f Hj Hfj result. cbn [snd].
  pose proof (ends_of_nth _ traffic j i k Hj) as Hr. fold result in Hr.
  assert (Hlt : j < List.length (ends_of (started_from 0 files) traffic))
    by (apply nth_error_Some; congruence).
  destruct (Forall2_nth_error _ _ _ _ _ Hc Hfj) as (it0 & Hit0 & Hname & _).
  assert (Hit2 : exists it2,
             nth_error (run_uploads (started_from 0 files) traffic created) j
             = Some it2 /\ file_name it2 = file_name it0).
  { destruct (in_dec Nat.eq_dec j (map fst (started_from 0 files))) as [Hin|Hout].
    - apply in_map_iff in Hin as ([j' k'] & Hj' & Hin). simpl in Hj'. subst j'.
      apply In_nth_error in Hin as [n Hin].
      rewrite (run_uploads_started _ traffic created n j k'
                 (started_from_NoDup files 0) Hin), Hit0.
      eexists. split; reflexivity.
    - rewrite (run_uploads_other _ traffic created j Hout), Hit0.
      eexists. split; reflexivity. }
  destruct Hit2 as (it2 & Hit2 & Hn2).
  specialize (I j). apply Nat.ltb_lt in Hlt. rewrite Hlt, Hit2 in I.
  rewrite (nth_error_nth _ _ Pending Hr) in I. simpl in I.
  exists (shown result it2). split; [exact I|].
  assert (Hsn : file_name (shown result it2) = file_name it0).
  { rewrite <- Hn2. unfold shown. destruct result as [|v|reason];
      [reflexivity | reflexivity |]. now destruct (ToString reason). }
  split; [|split; [|split]].
  - rewrite Hsn, Hname.
    assert (Hff : formats f).
    { eapply Forall_forall; [exact Hf | eapply nth_error_In, Hfj]. }
    destruct Hff as (n & sz & -> & _). reflexivity.
  - rewrite N, nth_error_map.
    assert (Hcb : nth_error (combine files
                    (ends_of (started_from 0 files) traffic)) j
                  = Some (f, result)).
    { clearbody result. clear - Hfj Hr. revert j Hfj Hr.
      generalize (ends_of (started_from 0 files) traffic) as rs.
      induction files as [|f0 files IH]; intros rs j Hfj Hr;
        [now destruct j|].
      destruct rs as [|r rs]; [now destruct j|].
      destruct j as [|j]; simpl in *; [congruence | now apply IH]. }
    now rewrite Hcb.
  - intros v Hv. unfold shown. rewrite Hv. simpl.
    split; [reflexivity | apply In_add_class].
  - intros reason r Hv Hts. unfold shown. rewrite Hv, Hts. simpl.
    split; [reflexivity | apply In_add_class].
Qed.

(** X11. When every file has an upload function, each item shows the
    result of the upload of its own file: what the stream left on the
    item, with the status text replaced by 'Uploaded successfully' or by
    'Upload failed: ' and the reason. *)
Theorem each_file_shows_its_own_result (host_message : error -> string)
  (files : list file) (traffic : list (list xhr_event)) :
  Forall formats files ->
  (forall m k, Utils_showNotification m k = Ok tt) ->
  Forall (fun f => route f <> None) files ->
  Forall showable (ends_of (started_from 0 files) traffic) ->
  fst (uploadFiles host_message files traffic) = Returned
  /\ forall j f k,
       nth_error files j = Some f -> route f = Some k ->
       let final := item (fold_left (listen k) (nth j traffic []) new_stream) in
       exists it,
         nth_error (fileItems (snd (uploadFiles host_message files traffic))) j
         = Some it
         /\ Utils_escapeHtml (Str (name f)) = Ok (file_name it)
         /\ (forall v, settled final = Fulfilled v ->
               view it = set_textContent "Uploaded successfully" final
               /\ classes it = ["file-item"; "file-success"])
         /\ (forall reason r, settled final = Rejected reason ->
               ToString reason = Ok r ->
               view it = set_textContent ("Upload failed: " ++ r) final
               /\ classes it = ["file-item"; "file-error"]).
Proof.
  intros Hf Hn Hall Hs.
  destruct (uploadFiles_returns host_message files traffic Hf Hn Hs)
    as (created & pg & Hc & E & I & N).
  rewrite E. split; [reflexivity|].
  intros j f k Hfj Hk final. cbn [snd].
  pose proof (started_from_supported files 0 j f k Hall Hfj Hk) as Hj.
  simpl in Hj.
  pose proof (ends_of_nth _ traffic j j k Hj) as Hr.
  assert (Hlt : j < List.length (ends_of (started_from 0 files) traffic))
    by (apply nth_error_Some; congruence).
  destruct (Forall2_nth_error _ _ _ _ _ Hc Hfj)
    as (it0 & Hit0 & Hname & Hv & _).
  destruct Hv as [Hv Hcl]; [congruence|].
  specialize (I j). apply Nat.ltb_lt in Hlt. rewrite Hlt in I.
  rewrite (run_uploads_started _ traffic created j j k
             (started_from_NoDup files 0) Hj), Hit0 in I.
  rewrite (nth_error_nth _ _ Pending Hr) in I. simpl in I.
  assert (Hfin : view (run_upload k (nth j traffic []) it0) = final).
  { unfold run_upload, final, new_stream. simpl. now rewrite Hv. }
  assert (Hcl2 : classes (run_upload k (nth j traffic []) it0) = ["file-item"])
    by exact Hcl.
  eexists. split; [exact I|]. split; [|split].
  - assert (Hff : formats f).
    { eapply Forall_forall; [exact Hf | eapply nth_error_In, Hfj]. }
    destruct Hff as (n & sz & Hn' & _). rewrite Hn' in Hname.
    rewrite Hn'. f_equal. unfold shown.
    destruct (ends k (nth j traffic [])) as [|v|reason]; simpl;
      [congruence | congruence |].
    destruct (ToString reason); simpl; congruence.
  - intros v Hv'.
    change (settled final) with (ends k (nth j traffic [])) in Hv'.
    unfold shown. rewrite Hv'.
    cbn [show_success add_class view classes set_view set_classes].
    rewrite Hfin, Hcl2. split; reflexivity.
  - intros reason r Hv' Hts.
    change (settled final) with (ends k (nth j traffic [])) in Hv'.
    unfold shown. rewrite Hv', Hts.
    cbn [show_failure add_class view classes set_view set_classes].
    rewrite Hfin, Hcl2. split; reflexivity.
Qed.

(** X19. One upload that never settles holds back the results of all:
    [uploadFiles] stays at its [await], no item is marked and nothing is
    announced, so that each item of a started upload shows what its own
    stream left on it. *)
Theorem pending_upload_suspends_all_results (host_message : error -> string)
  (files : list file) (traffic : list (list xhr_event)) :
  Forall formats files ->
  In Pending (ends_of (started_from 0 files) traffic) ->
  fst (uploadFiles host_message files traffic) = Suspended
  /\ notifications (snd (uploadFiles host_message files traffic)) = []
  /\ forall j i k,
       nth_error (started_from 0 files) j = Some (i, k) ->
       exists it,
         nth_error (fileItems (snd (uploadFiles host_message files traffic))) i
         = Some it
         /\ view it = item (fold_left (listen k) (nth j traffic []) new_stream)
         /\ classes it = ["file-item"].
Proof.
  intros Hf Hp.
  destruct (create_items_spec files 0 [] [] Hf) as (created & Hc & E).
  simpl app in E.
  pose proof (results_of_uploads files created traffic Hc) as R.
  cbv zeta in R.
  assert (U : uploadFiles host_message files traffic
              = (Suspended,
                 {| fileItems := run_uploads (started_from 0 files) traffic
                                   created;
                    notifications := [] |})).
  { unfold uploadFiles. rewrite E, R.
    replace (existsb is_pending (ends_of (started_from 0 files) traffic))
      with true; [reflexivity|].
    symmetry. apply existsb_exists. now exists Pending. }
  rewrite U. split; [reflexivity|]. split; [reflexivity|].
  intros j i k Hj. cbn [snd fileItems].
  rewrite (run_uploads_started _ traffic created j i k
             (started_from_NoDup files 0) Hj).
  destruct (started_from_in files 0 i k (nth_error_In _ _ Hj))
    as (_ & f & Hfi & Hr).
  rewrite Nat.sub_0_r in Hfi.
  destruct (Forall2_nth_error _ _ _ _ _ Hc Hfi) as (it & Hit & _ & Hv & _).
  destruct Hv as [Hv Hcl]; [congruence|].
  rewrite Hit. eexists. split; [reflexivity|].
  unfold run_upload, new_stream. simpl. now rewrite Hv.
Qed.

Lemma started_from_none (files : list file) (index : nat) :
  Forall (fun f => route f = None) files -> started_from index files = [].
Proof.
  intros H. revert index. induction H as [|f files Hf _ IH]; intros index;
    [reflexivity|].
  simpl. rewrite Hf. apply IH.
Qed.

(** X23. Files without an upload function are only marked: when no file
    is an image or a PDF, [uploadFiles] sends nothing, returns at once
    whatever the network does, announces nothing, and leaves one item for
    each file with the status text 'Unsupported file type' and the class
    [file-error]. *)
Theorem unsupported_files_are_only_marked (host_message : error -> string)
  (files : list file) (traffic : list (list xhr_event)) :
  Forall formats files ->
  Forall (fun f => route f = None) files ->
  fst (uploadFiles host_message files traffic) = Returned
  /\ notifications (snd (uploadFiles host_message files traffic)) = []
  /\ Forall2 (fun f it =>
                Utils_escapeHtml (Str (name f)) = Ok (file_name it)
                /\ view it = set_textContent "Unsupported file type" new_upload
                /\ classes it = ["file-item"; "file-error"])
             files
             (fileItems (snd (uploadFiles host_message files traffic))).
Proof.
  intros Hf Hn.
  destruct (create_items_spec files 0 [] [] Hf) as (created & Hc & E).
  rewrite (started_from_none files 0 Hn) in E. simpl app in E.
  unfold uploadFiles. rewrite E. simpl.
  split; [reflexivity|]. split; [reflexivity|].
  clear E. induction Hc as [|f it files created (H1 & _ & H3) Hc IH];
    [constructor|].
  inversion Hf as [|? ? (n & sz & Hn1 & _) Hf']; subst.
  inversion Hn as [|? ? Hr Hn']; subst.
  constructor; [|now apply IH].
  rewrite Hn1 in H1. destruct (H3 Hr) as [Hv Hcl].
  rewrite Hn1, H1. auto.
Qed.

End Facts.

Import Samples Scenarios.
#[local] Existing Instance reference_host.
#[local] Existing Instance reference_utils.
#[local] Existing Instance reference_numbers.
#[local] Existing Instance reference_page_utils.

Lemma results_are_shown_by_position_witness :
  Forall formats [notes_file; photo_file]
  /\ (forall m k, Utils_showNotification m k = Ok tt)
  /\ Forall showable
       (ends_of (started_from 0 [notes_file; photo_file]) [complete_stream])
  /\ nth_error (started_from 0 [notes_file; photo_file]) 0
     = Some (1, ImageFile)
  /\ nth_error [notes_file; photo_file] 0 = Some notes_file
  /\ ends ImageFile (nth 0 [complete_stream] []) = Fulfilled complete_record
  /\ exists it,
       nth_error
         (fileItems (snd (uploadFiles ReferencePage.host_message
                            [notes_file; photo_file] [complete_stream]))) 0
       = Some it
       /\ Utils_escapeHtml (Str (name notes_file)) = Ok (file_name it)
       /\ textContent (view it) = "Uploaded successfully"
       /\ In "file-success" (classes it).
Proof.
  assert (H1 : Forall formats [notes_file; photo_file]).
  { repeat first [apply Forall_nil | apply Forall_cons];
      (do 2 eexists; split; reflexivity). }
  assert (H2 : forall m k, Utils_showNotification m k = Ok tt)
    by (intros m k; reflexivity).
  assert (E : ends_of (started_from 0 [notes_file; photo_file])
                [complete_stream] = [Fulfilled complete_record])
    by (vm_compute; reflexivity).
  assert (H3 : Forall showable
                 (ends_of (started_from 0 [notes_file; photo_file])
                    [complete_stream])).
  { rewrite E. constructor; [exact I | constructor]. }
  assert (H4 : nth_error (started_from 0 [notes_file; photo_file]) 0
               = Some (1, ImageFile)) by (vm_compute; reflexivity).
  assert (H5 : nth_error [notes_file; photo_file] 0 = Some notes_file)
    by reflexivity.
  assert (H6 : ends ImageFile (nth 0 [complete_stream] [])
               = Fulfilled complete_record) by (vm_compute; reflexivity).
  destruct (proj2 (results_are_shown_by_position ReferencePage.host_message
                     [notes_file; photo_file] [complete_stream] H1 H2 H3)
              0 1 ImageFile notes_file H4 H5)
    as (it & W1 & W2 & _ & W4 & _).
  destruct (W4 complete_record H6) as [W5 W6].
  split; [exact H1|]. split; [exact H2|]. split; [exact H3|].
  split; [exact H4|]. split; [exact H5|]. split; [exact H6|].
  exists it. split; [exact W1|]. split; [exact W2|].
  split; [exact W5 | exact W6].
Defined.

(** Two files, the first without an upload function: the result of the
    image is shown on the item of the first file and announced under its
    name, and the item of the image keeps what its stream left. *)
Example result_on_the_item_of_another_file :
  map (fun it => (file_name it, textContent (view it), classes it))
      (fileItems (snd (uploadFiles ReferencePage.host_message
                         [notes_file; photo_file] [complete_stream])))
  = [("notes.txt", "Uploaded successfully",
      ["file-item"; "file-error"; "file-success"]);
     ("Photo.PNG", "Upload complete!", ["file-item"])]
  /\ notifications (snd (uploadFiles ReferencePage.host_message
                           [notes_file; photo_file] [complete_stream]))
     = [("File " ++ quoted "notes.txt" ++ " uploaded successfully!",
         "success")].
Proof. split; vm_compute; reflexivity. Qed.

Lemma each_file_shows_its_own_result_witness :
  Forall formats [photo_file; paper_file]
  /\ (forall m k, Utils_showNotification m k = Ok tt)
  /\ Forall (fun f => route f <> None) [photo_file; paper_file]
  /\ Forall showable
       (ends_of (started_from 0 [photo_file; paper_file])
          [complete_stream; error_stream])
  /\ fst (uploadFiles ReferencePage.host_message [photo_file; paper_file]
            [complete_stream; error_stream]) = Returned
  /\ exists it,
       nth_error
         (fileItems (snd (uploadFiles ReferencePage.host_message
                            [photo_file; paper_file]
                            [complete_stream; error_stream]))) 1
       = Some it
       /\ view it
          = set_textContent ("Upload failed: " ++ "disk full")
              (item (fold_left (listen PdfFile)
                       (nth 1 [complete_stream; error_stream] [])
                       new_stream))
       /\ classes it = ["file-item"; "file-error"].
Proof.
  assert (H1 : Forall formats [photo_file; paper_file]).
  { repeat first [apply Forall_nil | apply Forall_cons];
      (do 2 eexists; split; reflexivity). }
  assert (H2 : forall m k, Utils_showNotification m k = Ok tt)
    by (intros m k; reflexivity).
  assert (H3 : Forall (fun f => route f <> None) [photo_file; paper_file]).
  { repeat first [apply Forall_nil | apply Forall_cons];
      vm_compute; discriminate. }
  assert (E : ends_of (started_from 0 [photo_file; paper_file])
                [complete_stream; error_stream]
              = [Fulfilled complete_record; Rejected (Str "disk full")])
    by (vm_compute; reflexivity).
  assert (H4 : Forall showable
                 (ends_of (started_from 0 [photo_file; paper_file])
                    [complete_stream; error_stream])).
  { rewrite E. constructor; [exact I|].
    constructor; [now exists "disk full" | constructor]. }
  destruct (each_file_shows_its_own_result ReferencePage.host_message
              [photo_file; paper_file] [complete_stream; error_stream]
              H1 H2 H3 H4) as [W0 W].
  destruct (W 1 paper_file PdfFile eq_refl eq_refl)
    as (it & W1 & _ & _ & W4).
  assert (H5 : settled (item (fold_left (listen PdfFile)
                                (nth 1 [complete_stream; error_stream] [])
                                new_stream))
               = Rejected (Str "disk full")) by (vm_compute; reflexivity).
  destruct (W4 (Str "disk full") "disk full" H5 eq_refl) as [W5 W6].
  split; [exact H1|]. split; [exact H2|]. split; [exact H3|].
  split; [exact H4|]. split; [exact W0|].
  exists it. split; [exact W1|]. split; [exact W5 | exact W6].
Defined.

Lemma pending_upload_suspends_all_results_witness :
  Forall formats [photo_file; paper_file]
  /\ In Pending
       (ends_of (started_from 0 [photo_file; paper_file])
          [complete_stream; open_stream])
  /\ fst (uploadFiles ReferencePage.host_message [photo_file; paper_file]
            [complete_stream; open_stream]) = Suspended
  /\ notifications
       (snd (uploadFiles ReferencePage.host_message [photo_file; paper_file]
               [complete_stream; open_stream])) = [].
Proof.
  assert (H1 : Forall formats [photo_file; paper_file]).
  { repeat first [apply Forall_nil | apply Forall_cons];
      (do 2 eexists; split; reflexivity). }
  assert (E : ends_of (started_from 0 [photo_file; paper_file])
                [complete_stream; open_stream]
              = [Fulfilled complete_record; Pending])
    by (vm_compute; reflexivity).
  assert (H2 : In Pending
                 (ends_of (started_from 0 [photo_file; paper_file])
                    [complete_stream; open_stream])).
  { rewrite E. right. left. reflexivity. }
  destruct (pending_upload_suspends_all_results ReferencePage.host_message
              [photo_file; paper_file] [complete_stream; open_stream] H1 H2)
    as (W1 & W2 & _).
  split; [exact H1|]. split; [exact H2|]. split; [exact W1 | exact W2].
Defined.

Lemma unsupported_files_are_only_marked_witness :
  Forall formats [notes_file]
  /\ Forall (fun f => route f = None) [notes_file]
  /\ fst (uploadFiles ReferencePage.host_message [notes_file]
            [complete_stream]) = Returned
  /\ notifications (snd (uploadFiles ReferencePage.host_message [notes_file]
                           [complete_stream])) = []
  /\ Forall2 (fun f it =>
                Utils_escapeHtml (Str (name f)) = Ok (file_name it)
                /\ view it = set_textContent "Unsupported file type" new_upload
                /\ classes it = ["file-item"; "file-error"])
             [notes_file]
             (fileItems (snd (uploadFiles ReferencePage.host_message
                                [notes_file] [complete_stream]))).
Proof.
  assert (H1 : Forall formats [notes_file]).
  { repeat first [apply Forall_nil | apply Forall_cons];
      (do 2 eexists; split; reflexivity). }
  assert (H2 : Forall (fun f => route f = None) [notes_file]).
  { repeat first [apply Forall_nil | apply Forall_cons];
      vm_compute; reflexivity. }
  split; [exact H1|]. split; [exact H2|].
  exact (unsupported_files_are_only_marked ReferencePage.host_message
           [notes_file] [complete_stream] H1 H2).
Defined.

End UploadFilesFacts.

(* ================================================================== *)
(** * Facts about the search request *)

Module SearchRequestFacts.
Import JSString JSNumber JSValue Platform Search SearchRequest.

Section Facts.
Context {host : Host} {page_utils : UtilsPage}.
Variable renderResultItem : value -> exc string.

(** X12. A search that fails before its results are read leaves the
    store of the most recent results as it was: a blank query changes
    nothing at all, and a request that fails, a response that is not OK or
    a body that is not JSON shows the failure in the pane. *)
Theorem failed_search_keeps_the_store (host_message : error -> string)
  (input : string) (fetched : exc response) (w : window) :
  let after :=
    snd (fst (performSearch renderResultItem host_message input fetched w)) in
  (nonempty (trim input) = false -> after = w)
  /\ (nonempty (trim input) = true ->
      (forall e, fetched = Throw e ->
         after = {| currentSearchResults := currentSearchResults w;
                    searchResults := SearchFailed e |})
      /\ (forall r, fetched = Ok r -> ok r = false ->
            after = {| currentSearchResults := currentSearchResults w;
                       searchResults := SearchFailed (http_error r) |})
      /\ (forall r e, fetched = Ok r -> ok r = true -> json r = Throw e ->
            after = {| currentSearchResults := currentSearchResults w;
                       searchResults := SearchFailed e |})).
Proof.
  intros after. unfold after, performSearch. split.
  - intros ->. reflexivity.
  - intros ->. simpl negb. cbv iota. split; [|split].
    + intros e ->. reflexivity.
    + intros r -> Hok. unfold search_attempt. rewrite Hok. reflexivity.
    + intros r e -> Hok Hj. unfold search_attempt. rewrite Hok, Hj.
      reflexivity.
Qed.

(** X13. The results are stored before they are rendered: when the body
    of the response is not an empty list and its rendering throws (it is
    not an array, or the renderer throws at one of the results), the pane
    shows the failure and the store holds the body all the same. *)
Theorem results_are_stored_before_they_are_rendered
  (host_message : error -> string) (input : string) (r : response)
  (data : value) (e : error) (w : window) :
  nonempty (trim input) = true ->
  ok r = true -> json r = Ok data ->
  no_results data = false ->
  render_results renderResultItem data = Throw e ->
  snd (fst (performSearch renderResultItem host_message input (Ok r) w))
  = {| currentSearchResults := data; searchResults := SearchFailed e |}.
Proof.
  intros Hq Hok Hj Hn Hr. unfold performSearch, search_attempt.
  rewrite Hq, Hok, Hj. simpl negb. cbv iota.
  assert (Ht : truthy data = true).
  { unfold no_results in Hn. apply orb_false_elim in Hn as [Hn _].
    now apply negb_false_iff in Hn. }
  unfold or_else, displaySearchResults. rewrite Ht, Hn, Hr. reflexivity.
Qed.

End Facts.

Import Samples Scenarios.
#[local] Existing Instance reference_host.
#[local] Existing Instance reference_page_utils.

Lemma results_are_stored_before_they_are_rendered_witness :
  nonempty (trim "cats") = true
  /\ ok (ok_response (Ok error_body)) = true
  /\ json (ok_response (Ok error_body)) = Ok error_body
  /\ no_results error_body = false
  /\ render_results sample_renderer error_body = Throw TypeError
  /\ snd (fst (performSearch sample_renderer ReferencePage.host_message
                 "cats" (Ok (ok_response (Ok error_body)))
                 after_first_search))
     = {| currentSearchResults := error_body;
          searchResults := SearchFailed TypeError |}.
Proof.
  assert (H1 : nonempty (trim "cats") = true) by reflexivity.
  assert (H2 : ok (ok_response (Ok error_body)) = true) by reflexivity.
  assert (H3 : json (ok_response (Ok error_body)) = Ok error_body)
    by reflexivity.
  assert (H4 : no_results error_body = false) by reflexivity.
  assert (H5 : render_results sample_renderer error_body = Throw TypeError)
    by reflexivity.
  split; [exact H1|]. split; [exact H2|]. split; [exact H3|].
  split; [exact H4|]. split; [exact H5|].
  exact (results_are_stored_before_they_are_rendered sample_renderer
           ReferencePage.host_message "cats" (ok_response (Ok error_body))
           error_body TypeError after_first_search H1 H2 H3 H4 H5).
Defined.

(** A search that fails with status 502 after one that succeeded. *)
Example failed_search_after_a_good_one :
  snd (fst (performSearch sample_renderer ReferencePage.host_message "cats"
              (Ok {| ok := false; status := 502; statusText := "Bad Gateway";
                     json := Throw SyntaxError |})
              after_first_search))
  = {| currentSearchResults := old_results;
       searchResults := SearchFailed (Error "HTTP 502: Bad Gateway") |}.
Proof. vm_compute. reflexivity. Qed.

End SearchRequestFacts.

(* ================================================================== *)
(** * Facts about the chat request and the chat history *)

Module ChatRequestFacts.
Import JSString JSNumber JSValue Platform FileUpload Chat SearchRequest
       ChatRequest.
Import JSStringFacts JSNumberFacts.

Lemma of_nat_positive (n : nat) :
  (0 < n)%nat -> (Z.of_nat n < 2 ^ 53)%Z -> (0 <? of_nat n)%float = true.
Proof.
  intros Hpos Hlt. rewrite FloatAxioms.ltb_spec.
  destruct (Prim2SF_of_nat n Hpos Hlt) as (m & -> & _). reflexivity.
Qed.

Section Sources.
Context {host : Host} {utils : UtilsScript} {numbers : HostNumber}.

(** An image result whose [id] is not a string has no source. *)
Lemma source_of_without_id (fields : list (string * value)) :
  truthy (get_opt (Obj fields) "document_id") = false ->
  (forall id, get_opt (Obj fields) "id" <> Str id) ->
  source_of (Obj fields) = Throw TypeError.
Proof.
  unfold get_opt, source_of. cbn [get exc_bind]. intros Hd Hid.
  rewrite Hd.
  destruct (match own "id" fields with Some x => x | None => Undefined end);
    try reflexivity.
  now elim (Hid s).
Qed.

Lemma sources_of_throws (results : list value) (bad : value) (e : error) :
  In bad results -> source_of bad = Throw e ->
  exists e', sources_of results = Throw e'.
Proof.
  induction results as [|r results IH]; intros Hin Hb; [contradiction|].
  simpl. destruct (source_of r) as [s|e0] eqn:E; [|now exists e0].
  destruct Hin as [->|Hin]; [congruence|].
  destruct (IH Hin Hb) as [e' ->]. now exists e'.
Qed.

(** An answer that is not given leaves the history. *)
Lemma sendMessage_unanswered (input : string) (req : exc value) (s : chat) :
  (forall t, fst (sendMessage input req s) <> Answered t) ->
  chatHistory (snd (sendMessage input req s)) = chatHistory s.
Proof.
  unfold sendMessage.
  destruct (negb (nonempty (trim input))); [reflexivity|].
  pose proof (ChatFacts.addMessage_history "user" (Str (trim input)) s) as H0.
  destruct (addMessage "user" (Str (trim input)) s) as [[[]|e] s0];
    [|intros _; exact H0].
  simpl in H0. destruct req as [d|e].
  - set (text := or_else (get_opt d "response") (Str "No response received")).
    pose proof (ChatFacts.addMessage_history "assistant" text
                  (set_typing false (set_typing true s0))) as H3.
    destruct (addMessage "assistant" text
                (set_typing false (set_typing true s0))) as [[[]|e] s3].
    + intros H. now elim (H text).
    + intros _. simpl in H3.
      pose proof (ChatFacts.addMessage_history "error"
                    (Str ("Failed to get response: " ++ error_message e))
                    (set_typing false s3)) as H6.
      destruct (addMessage "error" _ _) as [[[]|e'] s6]; simpl in *;
        congruence.
  - intros _.
    pose proof (ChatFacts.addMessage_history "error"
                  (Str ("Failed to get response: " ++ error_message e))
                  (set_typing false (set_typing true s0))) as H6.
    destruct (addMessage "error" _ _) as [[[]|e'] s6]; simpl in *; congruence.
Qed.

(** X14. One stored search result without a source makes every message
    fail: when the store holds an image result whose [id] is not a
    string, the preparation of the sources throws before the request is
    sent, whatever the message, so that no answer is given and the history
    stays as it was. *)
Theorem result_without_id_fails_every_message (results : list value)
  (fields : list (string * value)) (input : string)
  (answer : list string -> exc value) (s : chat) :
  (Z.of_nat (List.length results) < 2 ^ 53)%Z ->
  In (Obj fields) results ->
  truthy (get_opt (Obj fields) "document_id") = false ->
  (forall id, get_opt (Obj fields) "id" <> Str id) ->
  let r := sendMessage input (request (Arr results) answer) s in
  (exists e, request (Arr results) answer = Throw e)
  /\ (forall t, fst r <> Answered t)
  /\ chatHistory (snd r) = chatHistory s.
Proof.
  intros Hlen Hin Hd Hid r.
  assert (Hreq : exists e, request (Arr results) answer = Throw e).
  { unfold request, prepare_sources. cbn [truthy get String.eqb Ascii.eqb
      Bool.eqb exc_bind ToNumber].
    rewrite of_nat_positive;
      [|destruct results; [contradiction | simpl; lia] | exact Hlen].
    destruct (sources_of_throws results (Obj fields) TypeError Hin
                (source_of_without_id fields Hd Hid)) as [e ->].
    now exists e. }
  assert (Hun : forall t, fst r <> Answered t).
  { destruct Hreq as [e He]. unfold r. rewrite He. unfold sendMessage.
    intros t. destruct (negb (nonempty (trim input))); [discriminate|].
    destruct (addMessage "user" _ s) as [[[]|e0] s0]; [|discriminate].
    destruct (addMessage "error" _ _) as [[[]|e'] s6]; discriminate. }
  split; [exact Hreq|]. split; [exact Hun|].
  now apply sendMessage_unanswered.
Qed.

End Sources.

Section Reading.
Context {host : Host} {utils : UtilsScript}.

Lemma on_chat_line_says (json c : string) (r : reading) :
  says json c ->
  responseText (on_chat_line (data_line json) r) = responseText r ++ c
  /\ data (on_chat_line (data_line json) r) = data r.
Proof.
  intros (_ & Hc & d & Hp & Hg). unfold on_chat_line, data_line.
  rewrite startsWith_append.
  change (drop 6 ("data: " ++ json)) with json. rewrite Hp, Hg.
  destruct c; [congruence|]. simpl. now split.
Qed.

Lemma on_chat_line_completes (json : string) (r : reading) :
  completes json ->
  responseText (on_chat_line (data_line json) r) = responseText r
  /\ data (on_chat_line (data_line json) r) = response_of (responseText r).
Proof.
  intros (_ & d & Hp & Hc & Ht). unfold on_chat_line, data_line.
  rewrite startsWith_append.
  change (drop 6 ("data: " ++ json)) with json. rewrite Hp.
  unfold get_opt in *. rewrite Ht.
  destruct d; try discriminate. cbn [get] in *.
  rewrite Hc. simpl. now split.
Qed.

Lemma read_lines_say (jsons contents : list string) (r : reading) :
  Forall2 says jsons contents ->
  responseText (read_lines (map data_line jsons) r)
  = responseText r ++ String.concat "" contents
  /\ data (read_lines (map data_line jsons) r) = data r.
Proof.
  intros H. revert r. induction H as [|json c jsons contents Hs H IH];
    intros r.
  - simpl. now rewrite append_nil_r.
  - unfold read_lines in *. simpl fold_left.
    destruct (IH (on_chat_line (data_line json) r)) as [I1 I2].
    destruct (on_chat_line_says json c r Hs) as [E1 E2].
    rewrite I1, I2, E1, E2. split; [|reflexivity].
    rewrite append_assoc. f_equal.
    destruct contents; [now rewrite append_nil_r | reflexivity].
Qed.

(** Chunks that hold whole lines are read line by line. *)
Lemma read_chunks (chunks : list (list string)) :
  forall r,
  Forall (Forall (fun l => lacks newline l = true)) chunks ->
  fold_left on_chat_chunk (map terminated chunks) r
  = read_lines (List.concat chunks) r.
Proof.
  induction chunks as [|c chunks IH]; intros r H; [reflexivity|].
  inversion H as [|? ? Hc Hcs]; subst. simpl.
  rewrite (IH _ Hcs). unfold read_lines. rewrite fold_left_app. f_equal.
  unfold on_chat_chunk. rewrite (StreamFacts.split_terminated c Hc).
  rewrite fold_left_app. reflexivity.
Qed.

Lemma on_chat_chunk_line (line : string) (r : reading) :
  lacks newline line = true ->
  on_chat_chunk r (terminated [line]) = on_chat_line line r.
Proof.
  intros H. unfold on_chat_chunk.
  rewrite (StreamFacts.split_terminated [line])
    by (constructor; [exact H | constructor]).
  reflexivity.
Qed.

Lemma says_lines (jsons contents : list string) :
  Forall2 says jsons contents ->
  Forall (fun l => lacks newline l = true) (map data_line jsons).
Proof.
  induction 1 as [|json c jsons contents (Hl & _) H IH]; simpl;
    constructor; [now apply StreamFacts.data_line_lacks_newline | exact IH].
Qed.

Lemma concat_nonempty (contents : list string) :
  Forall (fun c => c <> "") contents -> contents <> [] ->
  nonempty (String.concat "" contents) = true.
Proof.
  intros H Hn. destruct contents as [|c contents]; [congruence|].
  inversion H; subst. destruct c as [|a c]; [congruence|].
  destruct contents; reflexivity.
Qed.

Lemma says_nonempty (jsons contents : list string) :
  Forall2 says jsons contents -> Forall (fun c => c <> "") contents.
Proof.
  induction 1 as [|json c jsons contents (_ & Hc & _) H IH];
    constructor; assumption.
Qed.

Lemma Forall_concat_map {A B : Type} (P : B -> Prop) (f : A -> B)
  (chunks : list (list A)) :
  Forall P (map f (List.concat chunks)) ->
  Forall (Forall P) (map (map f) chunks).
Proof.
  induction chunks as [|c chunks IH]; intros H; [constructor|].
  simpl in H. rewrite map_app in H. apply Forall_app in H as [H1 H2].
  constructor; [exact H1 | now apply IH].
Qed.

(** X15. A streamed answer is the concatenation of the pieces that its
    records carry, in order, however the lines are divided into chunks;
    the record of type [complete] at the end is not needed for it. *)
Theorem streamed_answer_is_the_concatenation (chunks : list (list string))
  (contents : list string) (complete_json : string) :
  Forall2 says (List.concat chunks) contents ->
  contents <> [] ->
  completes complete_json ->
  let texts := map (fun c => terminated (map data_line c)) chunks in
  read_stream texts (Ok tt) = response_of (String.concat "" contents)
  /\ read_stream (texts ++ [terminated [data_line complete_json]])%list (Ok tt)
     = response_of (String.concat "" contents).
Proof.
  intros Hs Hn Hc texts.
  assert (Hl : Forall (Forall (fun l => lacks newline l = true))
                 (map (map data_line) chunks)).
  { apply Forall_concat_map. now apply (says_lines _ contents). }
  assert (Ht : texts = map terminated (map (map data_line) chunks))
    by (unfold texts; now rewrite map_map).
  assert (E : fold_left on_chat_chunk texts start_reading
              = read_lines (map data_line (List.concat chunks)) start_reading).
  { rewrite Ht, (read_chunks _ _ Hl). f_equal.
    now rewrite concat_map. }
  destruct (read_lines_say _ _ start_reading Hs) as [R1 R2].
  simpl in R1, R2.
  pose proof (concat_nonempty contents (says_nonempty _ _ Hs) Hn) as Hne.
  split.
  - unfold read_stream. rewrite E, R1, R2, Hne. reflexivity.
  - unfold read_stream. rewrite fold_left_app, E. cbn [fold_left].
    rewrite on_chat_chunk_line
      by (apply StreamFacts.data_line_lacks_newline, Hc).
    destruct (on_chat_line_completes complete_json
                (read_lines (map data_line (List.concat chunks)) start_reading)
                Hc) as [C1 C2].
    rewrite C1, C2, R1. now destruct (_ && _).
Qed.


End Reading.

Section History.
Context {utils : UtilsScript}.

(** X17. The history changes only with an answer: a message that is
    blank does nothing at all, and a message whose request or display
    fails leaves the history as it was, whatever it adds to the messages
    on the page. *)
Theorem history_changes_only_with_an_answer (input : string)
  (req : exc value) (s : chat) :
  (nonempty (trim input) = false -> sendMessage input req s = (Ignored, s))
  /\ ((forall t, fst (sendMessage input req s) <> Answered t) ->
      chatHistory (snd (sendMessage input req s)) = chatHistory s)
  /\ (forall e, req = Throw e ->
      forall t, fst (sendMessage input req s) <> Answered t).
Proof.
  split; [|split].
  - intros H. unfold sendMessage. now rewrite H.
  - apply sendMessage_unanswered.
  - intros e -> t. unfold sendMessage.
    destruct (negb (nonempty (trim input))); [discriminate|].
    destruct (addMessage "user" _ s) as [[[]|e0] s0]; [|discriminate].
    destruct (addMessage "error" _ _) as [[[]|e'] s6]; discriminate.
Qed.

Lemma exchanges_app (h : list entry) (u a : entry) :
  exchanges h -> role u = "user" -> role a = "assistant" ->
  exchanges (h ++ [u; a]).
Proof.
  intros Hh Hu Ha.
  assert (G : forall n h, List.length h <= n -> exchanges h ->
                          exchanges (h ++ [u; a])).
  { induction n as [|n IH]; intros h' Hl Hh';
      destruct h' as [|x [|y rest]]; simpl in *;
      try contradiction; try lia; auto.
    destruct Hh' as (Hx & Hy & Hr). repeat split; try assumption.
    apply IH; [lia | assumption]. }
  now apply (G (List.length h)).
Qed.

Lemma exchanges_even (h : list entry) :
  exchanges h -> Nat.even (List.length h) = true.
Proof.
  assert (G : forall n h, List.length h <= n -> exchanges h ->
                          Nat.even (List.length h) = true).
  { induction n as [|n IH]; intros h' Hl Hh';
      destruct h' as [|x [|y rest]]; simpl in *;
      try contradiction; try lia; auto.
    destruct Hh' as (_ & _ & Hr). apply IH; [lia | assumption]. }
  now apply (G (List.length h)).
Qed.

(** X18. From an empty history, and from any history made of at most
    fifty exchanges, every sequence of messages and clearings leaves a
    history made of at most fifty exchanges: the cut to the last hundred
    entries never separates a message from its answer. *)
Theorem history_is_made_of_exchanges (events : list chat_event) (s : chat) :
  exchanges (chatHistory s) ->
  List.length (chatHistory s) <= maxChatHistory ->
  let s' := fold_left chat_step events s in
  exchanges (chatHistory s')
  /\ List.length (chatHistory s') <= maxChatHistory.
Proof.
  revert s. induction events as [|e events IH]; intros s He Hl;
    [now split|].
  simpl. apply IH; destruct e as [input req|]; simpl;
    try exact I; try (unfold maxChatHistory; lia).
  - destruct (sendMessage input req s) as [o s1] eqn:E. cbn [snd].
    destruct o as [|t|e|e];
      try (pose proof (sendMessage_unanswered input req s) as U;
           rewrite E in U; simpl in U; rewrite U;
           [exact He | intros ?; discriminate]).
    pose proof (ChatFacts.sendMessage_answered input req s t) as A.
    rewrite E in A. simpl in A. specialize (A eq_refl). rewrite A.
    set (pushed := (chatHistory s ++ _)%list).
    assert (Hp : exchanges pushed) by (now apply exchanges_app).
    destruct (Nat.ltb_spec maxChatHistory (List.length pushed)) as [Hlt|Hle];
      [|exact Hp].
    assert (Hlen : List.length pushed = List.length (chatHistory s) + 2)
      by (unfold pushed; rewrite length_app; reflexivity).
    pose proof (exchanges_even _ He) as Hev.
    assert (H100 : List.length (chatHistory s) = 100).
    { unfold maxChatHistory in *.
      destruct (Nat.eq_dec (List.length (chatHistory s)) 99) as [E99|N99];
        [rewrite E99 in Hev; discriminate | lia]. }
    unfold slice_last. rewrite Hlen, H100. unfold maxChatHistory.
    change (100 + 2 - 100) with 2.
    unfold pushed. destruct (chatHistory s) as [|x [|y rest]];
      [discriminate | discriminate |].
    simpl. simpl in Hp. tauto.
  - destruct (sendMessage input req s) as [o s1] eqn:E. cbn [snd].
    destruct o as [|t|e|e];
      try (pose proof (sendMessage_unanswered input req s) as U;
           rewrite E in U; simpl in U; rewrite U;
           [exact Hl | intros ?; discriminate]).
    pose proof (ChatFacts.sendMessage_answered input req s t) as A.
    rewrite E in A. simpl in A. specialize (A eq_refl). rewrite A.
    set (pushed := (chatHistory s ++ _)%list).
    destruct (Nat.ltb_spec maxChatHistory (List.length pushed)) as [Hlt|Hle];
      [apply ChatFacts.length_slice_last | exact Hle].
Qed.

End History.

Section Fallbacks.
Context {host : Host} {utils : UtilsScript} {numbers : HostNumber}.

(** While a stream is read, [data] holds what had arrived at some
    moment: a prefix of [responseText]. *)
Lemma on_chat_line_snapshot (line : string) (r : reading) :
  (exists t rest, data r = response_of t /\ responseText r = t ++ rest) ->
  exists t rest,
    data (on_chat_line line r) = response_of t
    /\ responseText (on_chat_line line r) = t ++ rest.
Proof.
  intros (t & rest & Hd & Ht). unfold on_chat_line.
  destruct (startsWith "data: " line); [|now exists t, rest].
  destruct (JSON_parse (drop 6 line)) as [d|]; [|now exists t, rest].
  destruct (get d "content") as [content|e]; [|now exists t, rest].
  destruct (truthy content).
  - destruct (ToString content) as [c|e]; [|now exists t, rest].
    exists t, (rest ++ c). simpl. split; [exact Hd|].
    now rewrite Ht, append_assoc.
  - destruct (is_str (get_opt d "type") "complete"); [|now exists t, rest].
    exists (responseText r), "". simpl. split; [reflexivity|].
    now rewrite append_nil_r.
Qed.

Lemma reading_snapshot (chunks : list string) :
  exists t rest,
    data (fold_left on_chat_chunk chunks start_reading) = response_of t
    /\ responseText (fold_left on_chat_chunk chunks start_reading) = t ++ rest.
Proof.
  assert (G : forall lines r,
             (exists t rest, data r = response_of t
                             /\ responseText r = t ++ rest) ->
             exists t rest,
               data (fold_left (fun r l => on_chat_line l r) lines r)
               = response_of t
               /\ responseText (fold_left (fun r l => on_chat_line l r) lines r)
                  = t ++ rest).
  { induction lines as [|l lines IH]; intros r H; [exact H|].
    simpl. apply IH. now apply on_chat_line_snapshot. }
  assert (C : forall cs r,
             (exists t rest, data r = response_of t
                             /\ responseText r = t ++ rest) ->
             exists t rest,
               data (fold_left on_chat_chunk cs r) = response_of t
               /\ responseText (fold_left on_chat_chunk cs r) = t ++ rest).
  { induction cs as [|c cs IH]; intros r H; [exact H|].
    simpl. apply IH. unfold on_chat_chunk. now apply G. }
  apply C. now exists "", "".
Qed.

Lemma sendMessage_answers (input : string) (d : value) (s : chat) :
  nonempty (trim input) = true ->
  (exists html, Utils_formatMessage (Str (trim input)) = Ok html) ->
  (exists html,
     Utils_formatMessage
       (or_else (get_opt d "response") (Str "No response received"))
     = Ok html) ->
  fst (sendMessage input (Ok d) s)
  = Answered (or_else (get_opt d "response") (Str "No response received")).
Proof.
  intros Hq [h1 H1] [h2 H2]. unfold sendMessage, addMessage.
  rewrite Hq. simpl negb. cbv iota. rewrite H1, H2. reflexivity.
Qed.

(** X20. The fallbacks of the reading are given as answers: when the
    response is OK and the sources are prepared, a body that is not JSON,
    a stream whose reading fails and a stream without any piece each make
    [sendMessage] answer with a fixed text, which is shown as the message
    of the assistant and pushed to the history like any answer. *)
Theorem fallback_answers_enter_the_history (store : value)
  (sources : list string) (r : response) (content_type : option string)
  (chunks : list string) (ended : exc unit) (input : string) (s : chat) :
  nonempty (trim input) = true ->
  (forall text, exists html, Utils_formatMessage (Str text) = Ok html) ->
  prepare_sources store = Ok sources ->
  ok r = true ->
  let streamed := match content_type with
                  | Some t => nonempty t && includes "text/event-stream" t
                  | None => false
                  end in
  let req := request store
               (fun _ => read_response r content_type chunks ended) in
  let answered := fun text =>
    fst (sendMessage input req s) = Answered (Str text)
    /\ exists before,
         chatHistory (snd (sendMessage input req s))
         = (before ++ [{| role := "user"; content := Str (trim input) |};
                       {| role := "assistant"; content := Str text |}])%list in
  (streamed = false -> (exists e, json r = Throw e) ->
   answered "Failed to parse response")
  /\ (streamed = true -> (exists e, ended = Throw e) ->
      answered "Streaming failed, but response may be available")
  /\ (streamed = true -> ended = Ok tt ->
      responseText (fold_left on_chat_chunk chunks start_reading) = "" ->
      answered "No response received").
Proof.
  intros Hq Hfm Hsrc Hok streamed req answered.
  assert (Hreq : req = read_response r content_type chunks ended)
    by (unfold req, request; now rewrite Hsrc).
  assert (Hans : forall d text,
             req = Ok d ->
             or_else (get_opt d "response") (Str "No response received")
             = Str text ->
             answered text).
  { intros d text Hd Ht. unfold answered. rewrite Hd.
    pose proof (sendMessage_answers input d s Hq (Hfm _)) as A.
    rewrite Ht in A. specialize (A (Hfm _)).
    split; [exact A|].
    rewrite (ChatFacts.sendMessage_answered input (Ok d) s (Str text) A).
    destruct (Nat.ltb_spec maxChatHistory
                (List.length (chatHistory s
                   ++ [{| role := "user"; content := Str (trim input) |};
                       {| role := "assistant"; content := Str text |}])%list));
      [|now exists (chatHistory s)].
    apply ChatFacts.slice_last_keeps_end. unfold maxChatHistory. simpl. lia. }
  assert (Hplain : streamed = false ->
            read_response r content_type chunks ended
            = Ok (match json r with
                  | Ok d => d
                  | Throw _ => response_of "Failed to parse response"
                  end)).
  { intros Hs. unfold read_response. rewrite Hok. simpl negb. cbv iota.
    unfold streamed in Hs. destruct content_type as [t|]; [|reflexivity].
    now rewrite Hs. }
  assert (Hstream : streamed = true ->
            read_response r content_type chunks ended
            = Ok (read_stream chunks ended)).
  { intros Hs. unfold read_response. rewrite Hok. simpl negb. cbv iota.
    unfold streamed in Hs. destruct content_type as [t|]; [|discriminate].
    now rewrite Hs. }
  split; [|split].
  - intros Hs [e He].
    apply (Hans (response_of "Failed to parse response"));
      [rewrite Hreq, (Hplain Hs), He|]; reflexivity.
  - intros Hs [e He].
    apply (Hans (response_of
                   "Streaming failed, but response may be available"));
      [rewrite Hreq, (Hstream Hs), He|]; reflexivity.
  - intros Hs He Hnone.
    apply (Hans (response_of ""));
      [rewrite Hreq, (Hstream Hs), He | reflexivity].
    unfold read_stream. rewrite Hnone. simpl nonempty.
    rewrite andb_false_r. f_equal.
    destruct (reading_snapshot chunks) as (t & rest & Hd & Ht).
    rewrite Hnone in Ht. rewrite Hd. destruct t; [reflexivity | discriminate].
Qed.

(** X21. A response that is not OK is reported and not recorded: the
    request throws an error with the status line, the page shows the
    message of the user and then 'Failed to get response: ' with that
    line, the typing indicator is removed, and the history stays as it
    was. *)
Theorem failed_response_is_reported (store : value) (sources : list string)
  (r : response) (content_type : option string) (chunks : list string)
  (ended : exc unit) (input : string) (s : chat) :
  nonempty (trim input) = true ->
  (forall text, exists html, Utils_formatMessage (Str text) = Ok html) ->
  prepare_sources store = Ok sources ->
  ok r = false ->
  let req := request store
               (fun _ => read_response r content_type chunks ended) in
  let result := sendMessage input req s in
  fst result = Failed (http_error r)
  /\ chatHistory (snd result) = chatHistory s
  /\ typing (snd result) = false
  /\ exists h1 h2,
       Utils_formatMessage (Str (trim input)) = Ok h1
       /\ Utils_formatMessage
            (Str ("Failed to get response: HTTP "
                    ++ NumberToString (of_nat (status r)) ++ ": "
                    ++ statusText r)) = Ok h2
       /\ chatMessages (snd result)
          = (chatMessages s ++ [("user", h1); ("error", h2)])%list.
Proof.
  intros Hq Hfm Hsrc Hok req result.
  assert (Hreq : req = Throw (http_error r)).
  { unfold req, request, read_response. now rewrite Hsrc, Hok. }
  destruct (Hfm (trim input)) as [h1 H1].
  destruct (Hfm ("Failed to get response: HTTP "
                   ++ NumberToString (of_nat (status r)) ++ ": "
                   ++ statusText r)) as [h2 H2].
  assert (E : result
              = (Failed (http_error r),
                 {| chatHistory := chatHistory s;
                    chatMessages := (chatMessages s
                                       ++ [("user", h1); ("error", h2)])%list;
                    typing := false |})).
  { unfold result. rewrite Hreq. unfold sendMessage, addMessage.
    rewrite Hq. simpl negb. cbv iota. rewrite H1.
    cbn [set_typing chatHistory chatMessages typing error_message http_error].
    change ("Failed to get response: "
              ++ ("HTTP " ++ NumberToString (of_nat (status r)) ++ ": "
                    ++ statusText r))
      with ("Failed to get response: HTTP "
              ++ NumberToString (of_nat (status r)) ++ ": " ++ statusText r).
    rewrite H2. now rewrite <- app_assoc. }
  rewrite E. split; [reflexivity|]. split; [reflexivity|].
  split; [reflexivity|]. exists h1, h2. now split.
Qed.

End Fallbacks.

Import Samples Scenarios.
#[local] Existing Instance reference_host.
#[local] Existing Instance reference_utils.
#[local] Existing Instance reference_numbers.

Lemma result_without_id_fails_every_message_witness :
  (Z.of_nat (List.length [captioned_result]) < 2 ^ 53)%Z
  /\ In captioned_result [captioned_result]
  /\ truthy (get_opt captioned_result "document_id") = false
  /\ (forall id, get_opt captioned_result "id" <> Str id)
  /\ (exists e, request (Arr [captioned_result]) (fun _ => Ok reply) = Throw e)
  /\ chatHistory
       (snd (sendMessage "hi"
               (request (Arr [captioned_result]) (fun _ => Ok reply))
               empty_chat))
     = chatHistory empty_chat.
Proof.
  assert (H1 : (Z.of_nat (List.length [captioned_result]) < 2 ^ 53)%Z)
    by (vm_compute; reflexivity).
  assert (H2 : In captioned_result [captioned_result])
    by (left; reflexivity).
  assert (H3 : truthy (get_opt captioned_result "document_id") = false)
    by reflexivity.
  assert (H4 : forall id, get_opt captioned_result "id" <> Str id)
    by (intros id; vm_compute; discriminate).
  destruct (result_without_id_fails_every_message [captioned_result]
              [("caption", Str "a cat")] "hi" (fun _ => Ok reply) empty_chat
              H1 H2 H3 H4) as (W1 & _ & W3).
  split; [exact H1|]. split; [exact H2|]. split; [exact H3|].
  split; [exact H4|]. split; [exact W1 | exact W3].
Defined.

Lemma streamed_answer_is_the_concatenation_witness :
  Forall2 says (List.concat [[hel_json]; [lo_json]]) ["Hel"; "lo"]
  /\ ["Hel"; "lo"] <> []
  /\ completes done_json
  /\ read_stream
       (map (fun c => terminated (map data_line c)) [[hel_json]; [lo_json]])
       (Ok tt)
     = response_of (String.concat "" ["Hel"; "lo"])
  /\ read_stream
       (map (fun c => terminated (map data_line c)) [[hel_json]; [lo_json]]
          ++ [terminated [data_line done_json]])%list
       (Ok tt)
     = response_of (String.concat "" ["Hel"; "lo"]).
Proof.
  assert (H1 : Forall2 says (List.concat [[hel_json]; [lo_json]])
                 ["Hel"; "lo"]).
  { repeat first [apply Forall2_nil | apply Forall2_cons];
      (split; [vm_compute; reflexivity|]; split; [discriminate|];
       eexists; split; vm_compute; reflexivity). }
  assert (H2 : ["Hel"; "lo"] <> []) by discriminate.
  assert (H3 : completes done_json).
  { split; [vm_compute; reflexivity|].
    exists (Obj [("type", Str "complete")]).
    repeat split; vm_compute; reflexivity. }
  destruct (streamed_answer_is_the_concatenation [[hel_json]; [lo_json]]
              ["Hel"; "lo"] done_json H1 H2 H3) as [W1 W2].
  split; [exact H1|]. split; [exact H2|]. split; [exact H3|].
  split; [exact W1 | exact W2].
Defined.


Lemma history_is_made_of_exchanges_witness :
  exchanges (chatHistory empty_chat)
  /\ List.length (chatHistory empty_chat) <= maxChatHistory
  /\ exchanges (chatHistory (fold_left chat_step session empty_chat))
  /\ List.length (chatHistory (fold_left chat_step session empty_chat))
     <= maxChatHistory.
Proof.
  assert (H1 : exchanges (chatHistory empty_chat)) by exact I.
  assert (H2 : List.length (chatHistory empty_chat) <= maxChatHistory)
    by (unfold maxChatHistory; simpl; lia).
  destruct (history_is_made_of_exchanges session empty_chat H1 H2)
    as [W1 W2].
  split; [exact H1|]. split; [exact H2|]. split; [exact W1 | exact W2].
Defined.

Lemma fallback_answers_enter_the_history_witness :
  nonempty (trim "hi") = true
  /\ (forall text, exists html, Utils_formatMessage (Str text) = Ok html)
  /\ prepare_sources Undefined = Ok []
  /\ ok (ok_response (Throw SyntaxError)) = true
  /\ fst (sendMessage "hi"
            (request Undefined
               (fun _ => read_response (ok_response (Throw SyntaxError))
                           (Some "application/json") [] (Ok tt)))
            empty_chat)
     = Answered (Str "Failed to parse response").
Proof.
  assert (H1 : nonempty (trim "hi") = true) by reflexivity.
  assert (H2 : forall text, exists html,
                 Utils_formatMessage (Str text) = Ok html)
    by (intros text; eexists; reflexivity).
  assert (H3 : prepare_sources Undefined = Ok []) by reflexivity.
  assert (H4 : ok (ok_response (Throw SyntaxError)) = true) by reflexivity.
  destruct (proj1 (fallback_answers_enter_the_history Undefined []
                     (ok_response (Throw SyntaxError))
                     (Some "application/json") [] (Ok tt) "hi" empty_chat
                     H1 H2 H3 H4)
              eq_refl (ex_intro _ SyntaxError eq_refl)) as [W _].
  split; [exact H1|]. split; [exact H2|]. split; [exact H3|].
  split; [exact H4 | exact W].
Defined.

Lemma failed_response_is_reported_witness :
  nonempty (trim " hi ") = true
  /\ (forall text, exists html, Utils_formatMessage (Str text) = Ok html)
  /\ prepare_sources old_results
     = Ok ["Document doc-1... (Score: N/A): first"]
  /\ ok {| ok := false; status := 500; statusText := "Internal Server Error";
           json := Throw SyntaxError |} = false
  /\ fst (sendMessage " hi "
            (request old_results
               (fun _ =>
                  read_response
                    {| ok := false; status := 500;
                       statusText := "Internal Server Error";
                       json := Throw SyntaxError |}
                    None [] (Ok tt)))
            empty_chat)
     = Failed (http_error
                 {| ok := false; status := 500;
                    statusText := "Internal Server Error";
                    json := Throw SyntaxError |})
  /\ chatHistory
       (snd (sendMessage " hi "
               (request old_results
                  (fun _ =>
                     read_response
                       {| ok := false; status := 500;
                          statusText := "Internal Server Error";
                          json := Throw SyntaxError |}
                       None [] (Ok tt)))
               empty_chat))
     = chatHistory empty_chat.
Proof.
  assert (H1 : nonempty (trim " hi ") = true) by reflexivity.
  assert (H2 : forall text, exists html,
                 Utils_formatMessage (Str text) = Ok html)
    by (intros text; eexists; reflexivity).
  assert (H3 : prepare_sources old_results
               = Ok ["Document doc-1... (Score: N/A): first"])
    by (vm_compute; reflexivity).
  assert (H4 : ok {| ok := false; status := 500;
                     statusText := "Internal Server Error";
                     json := Throw SyntaxError |} = false) by reflexivity.
  destruct (failed_response_is_reported old_results
              ["Document doc-1... (Score: N/A): first"]
              {| ok := false; status := 500;
                 statusText := "Internal Server Error";
                 json := Throw SyntaxError |}
              None [] (Ok tt) " hi " empty_chat H1 H2 H3 H4)
    as (W1 & W2 & _).
  split; [exact H1|]. split; [exact H2|]. split; [exact H3|].
  split; [exact H4|]. split; [exact W1 | exact W2].
Defined.

End ChatRequestFacts.
